(** * youtube2zim: the scraper pipeline of [src/youtube2zim/scraper.py]

    A shallow embedding of the [Youtube2Zim] class: the playlist resolver,
    the video extraction and its JSON cache, the branding checks, the
    metadata reconciliation and the client-side data manifest.

    Python values are modelled as the code uses them: [str] as [string]
    (the UTF-8 bytes), [None]-able attributes as [option], [dict] as an
    insertion-ordered association list, [set] as stdpp's [gset], the cache
    directory and the file tree as finite maps.  Methods of the class are
    state transformers over a [World] that may raise a Python exception. *)

From stdpp Require Import gmap strings list fin_maps sorting.
From Stdlib Require Import ZArith Lia Ascii String.

Open Scope string_scope.
Open Scope Z_scope.

(** ** Python strings *)

Module PyStr.

(** [s.startswith(p)] *)
Definition startswith (p s : string) : bool := String.prefix p s.

(** [s.split(sep)] for a one-character separator: one field per
    separator, empty fields kept, never an empty list. *)
Fixpoint split_on (sep : ascii) (s : string) : list string :=
  match s with
  | EmptyString => [EmptyString]
  | String c r =>
      if Ascii.eqb c sep then EmptyString :: split_on sep r
      else match split_on sep r with
           | h :: t => String c h :: t
           | [] => [String c EmptyString]
           end
  end.

(** [s.split(",")] *)
Definition split_comma (s : string) : list string := split_on ","%char s.

(** [s.endswith(suf)] *)
Definition endswith (suf s : string) : bool :=
  let n := String.length s in
  let m := String.length suf in
  (m <=? n)%nat && String.eqb (substring (n - m) m s) suf.

(** [",".join(l)] *)
Fixpoint join_comma (l : list string) : string :=
  match l with
  | [] => EmptyString
  | [x] => x
  | x :: r => x +:+ "," +:+ join_comma r
  end.

Fixpoint has_comma (s : string) : bool :=
  match s with
  | EmptyString => false
  | String c r => Ascii.eqb c ","%char || has_comma r
  end.

(** [s.replace("\n", "<br />")] *)
Fixpoint replace_newline (s : string) : string :=
  match s with
  | EmptyString => EmptyString
  | String c r =>
      if Ascii.eqb c "010"%char then "<br />" +:+ replace_newline r
      else String c (replace_newline r)
  end.

(** The ASCII characters for which [str.isspace] holds. *)
Definition is_space (c : ascii) : bool :=
  let n := nat_of_ascii c in
  ((9 <=? n)%nat && (n <=? 13)%nat) || ((28 <=? n)%nat && (n <=? 32)%nat).

(** The non-ASCII white space of [str.isspace], as UTF-8 byte sequences
    given by their byte values: U+0085, U+00A0, U+1680, U+2000..U+200A,
    U+2028, U+2029, U+202F, U+205F, U+3000. *)
Definition is_space2 (a b : ascii) : bool :=
  (nat_of_ascii a =? 194)%nat
  && ((nat_of_ascii b =? 133)%nat || (nat_of_ascii b =? 160)%nat).

Definition is_space3 (a b c : ascii) : bool :=
  let '(x, y, z) := (nat_of_ascii a, nat_of_ascii b, nat_of_ascii c) in
  ((x =? 225) && (y =? 154) && (z =? 128))%nat
  || ((x =? 226) && (y =? 128)
      && (((128 <=? z) && (z <=? 138)) || (z =? 168) || (z =? 169)
          || (z =? 175)))%nat
  || ((x =? 226) && (y =? 129) && (z =? 159))%nat
  || ((x =? 227) && (y =? 128) && (z =? 128))%nat.

(** [s.lstrip()] *)
Fixpoint lstrip (s : string) : string :=
  match s with
  | EmptyString => EmptyString
  | String a r1 =>
      if is_space a then lstrip r1
      else match r1 with
           | String b r2 =>
               if is_space2 a b then lstrip r2
               else match r2 with
                    | String c r3 => if is_space3 a b c then lstrip r3 else s
                    | EmptyString => s
                    end
           | EmptyString => s
           end
  end.

(** [s.rstrip()], on the reversed list of bytes. *)
Fixpoint rstrip_rev (l : list ascii) : list ascii :=
  match l with
  | [] => []
  | a :: r1 =>
      if is_space a then rstrip_rev r1
      else match r1 with
           | b :: r2 =>
               if is_space2 b a then rstrip_rev r2
               else match r2 with
                    | c :: r3 => if is_space3 c b a then rstrip_rev r3 else l
                    | [] => l
                    end
           | [] => l
           end
  end.

Definition rstrip (s : string) : string :=
  string_of_list_ascii
    (rev (rstrip_rev (rev (list_ascii_of_string s)))).

(** [s.strip()] *)
Definition strip (s : string) : string := rstrip (lstrip s).

End PyStr.

(** ** Python dictionaries

    A [dict] keeps its keys in insertion order; assigning to a key that is
    present replaces the value in place, assigning to a new key appends. *)

Module PyDict.

Section Dict.
Context {V : Type}.

Definition t := list (string * V).

Definition empty : t := [].

(** [d[k] = v] *)
Fixpoint set (k : string) (v : V) (d : t) : t :=
  match d with
  | [] => [(k, v)]
  | (k', v') :: r =>
      if String.eqb k k' then (k, v) :: r else (k', v') :: set k v r
  end.

(** [d.get(k)] *)
Fixpoint get (k : string) (d : t) : option V :=
  match d with
  | [] => None
  | (k', v') :: r => if String.eqb k k' then Some v' else get k r
  end.

(** [list(d.keys())] and [list(d.values())] *)
Definition keys (d : t) : list string := map fst d.
Definition values (d : t) : list V := map snd d.

(** [{key(x): x for x in xs}] *)
Definition comprehension (key : V -> string) (xs : list V) : t :=
  fold_left (fun d x => set (key x) x d) xs empty.

(** [d.update(other)] *)
Definition update (d other : t) : t :=
  fold_left (fun d kv => set (fst kv) (snd kv) d) other d.

End Dict.

Arguments t : clear implicits.

End PyDict.

(** ** [list.sort(key=...)]

    Python's sort is stable; a stable insertion sort on an integer key. *)

Module PySort.

Section Sort.
Context {A : Type} (key : A -> Z).

Fixpoint insert (x : A) (l : list A) : list A :=
  match l with
  | [] => [x]
  | y :: r => if key y <? key x then y :: insert x r else x :: y :: r
  end.

Definition sort (l : list A) : list A := fold_right insert [] l.

End Sort.

End PySort.

(** ** Data exchanged with the platform API

    The JSON documents of the YouTube Data API, restricted to the members
    the scraper reads. *)

(** A playlist item, read as [v["contentDetails"][...]] and
    [v["snippet"][...]]. *)
Record VideoDetails := {
  videoId : string;
  videoPublishedAt : string
}.

Record VideoSnippet := {
  v_title : string;
  v_description : string;
  v_channelId : string;
  position : Z
}.

Record Video := {
  contentDetails : VideoDetails;
  snippet : VideoSnippet
}.

(** A channel document: [channel_json["id"]], its [snippet] and
    [contentDetails.relatedPlaylists.uploads]. *)
Record ChannelJson := {
  ch_id : string;
  ch_title : string;
  ch_description : string;
  ch_uploads : string
}.

(** A playlist document as [Playlist.from_id] reads it. *)
Record PlaylistJson := {
  pj_title : string;
  pj_description : string;
  pj_channelId : string;
  pj_channelTitle : string
}.

(** The author of a video, one value of the [videos_channels] document. *)
Record Author := {
  channelId : string;
  channelTitle : string
}.

(** [youtube.Playlist] *)
Record Playlist := {
  playlist_id : string;
  pl_title : string;
  pl_description : string;
  creator_id : string;
  creator_name : string;
  slug : string
}.

(** The documents of the JSON cache. *)
Inductive Doc :=
| DocVideos (d : PyDict.t Video)
| DocItems (l : list Video)
| DocChannels (d : PyDict.t Author).

(** [constants.CHANNEL], [constants.PLAYLIST], [constants.USER]; any other
    value of [collection_type] is [OTHER]. *)
Inductive CollectionType := USER | CHANNEL | PLAYLIST | OTHER (s : string).

(** A user-supplied image: the command line gives a [str]; a caller of the
    class may also pass a [pathlib.Path]. *)
Inductive PathOrUrl := AStr (s : string) | APath (p : string).

(** [zim.ZimInfo] *)
Record ZimInfo := {
  zi_language : string;
  zi_tags : option (list string);
  zi_title : option string;
  zi_description : option string;
  zi_creator : option string;
  zi_publisher : option string;
  zi_name : option string
}.

(** The options bag handed to [youtube_dl.YoutubeDL]; the members that do
    not depend on the run are left out. *)
Record YdlOptions := {
  opt_cachedir : string;
  opt_outtmpl : string;
  opt_format : string;
  opt_all_subtitles : bool;
  opt_prefer_ffmpeg : bool;
  opt_progress_hook : option string
}.

(** Python exceptions, with the message or the missing name. *)
Inductive Exn :=
| ValueError (msg : string)
| IOError (msg : string)
| NotImplementedError (msg : string)
| AttributeError (attr : string)
| FileNotFoundError (path : string)
| KeyError (key : string)
| IndexError (msg : string)
| TypeError (msg : string)
| UnboundLocalError (var : string).

(** What the run asks of the outside world, in the order it asks. *)
Inductive Event :=
| EvCredentials
| EvChannel (ident : option string) (for_username : bool)
| EvChannelPlaylists (channel : string)
| EvPlaylist (pid : string)
| EvGetVideos (pid : string)
| EvPlaylistItems (pid : string)
| EvVideosAuthors (ids : list string)
| EvBranding (channel : string) (save_banner : bool)
| EvHttpGet (url : string)
| EvDownload (options : YdlOptions) (ids : list string)
| EvMakeZim (build outdir fname : string) (info : ZimInfo).

(** The events of playlist and video extraction. *)
Definition is_extraction (e : Event) : bool :=
  match e with
  | EvChannel _ _ | EvChannelPlaylists _ | EvPlaylist _
  | EvGetVideos _ | EvPlaylistItems _ => true
  | _ => false
  end.
Record Youtube2Zim := {
  collection_type : CollectionType;
  youtube_id : string;
  api_key : string;
  video_format : string;
  low_quality : bool;
  all_subtitles : bool;
  fname : string;
  lang : string;
  tags : option (list string);
  title : option string;
  description : option string;
  creator : option string;
  publisher : option string;
  name : option string;
  profile_image : option PathOrUrl;
  banner_image : option PathOrUrl;
  main_color : option string;
  secondary_color : option string;
  output_dir : string;
  playlists : list Playlist;
  videos_ids : list string;
  main_channel_id : option string;
  no_zim : bool;
  debug : bool;
  keep_build_dir : bool;
  skip_download : bool;
  zim_info : ZimInfo
}.

Definition set_tags (x : option (list string)) (o : Youtube2Zim) : Youtube2Zim :=
  {| collection_type := collection_type o;
     youtube_id := youtube_id o;
     api_key := api_key o;
     video_format := video_format o;
     low_quality := low_quality o;
     all_subtitles := all_subtitles o;
     fname := fname o;
     lang := lang o;
     tags := x;
     title := title o;
     description := description o;
     creator := creator o;
     publisher := publisher o;
     name := name o;
     profile_image := profile_image o;
     banner_image := banner_image o;
     main_color := main_color o;
     secondary_color := secondary_color o;
     output_dir := output_dir o;
     playlists := playlists o;
     videos_ids := videos_ids o;
     main_channel_id := main_channel_id o;
     no_zim := no_zim o;
     debug := debug o;
     keep_build_dir := keep_build_dir o;
     skip_download := skip_download o;
     zim_info := zim_info o |}.

Definition set_title (x : option string) (o : Youtube2Zim) : Youtube2Zim :=
  {| collection_type := collection_type o;
     youtube_id := youtube_id o;
     api_key := api_key o;
     video_format := video_format o;
     low_quality := low_quality o;
     all_subtitles := all_subtitles o;
     fname := fname o;
     lang := lang o;
     tags := tags o;
     title := x;
     description := description o;
     creator := creator o;
     publisher := publisher o;
     name := name o;
     profile_image := profile_image o;
     banner_image := banner_image o;
     main_color := main_color o;
     secondary_color := secondary_color o;
     output_dir := output_dir o;
     playlists := playlists o;
     videos_ids := videos_ids o;
     main_channel_id := main_channel_id o;
     no_zim := no_zim o;
     debug := debug o;
     keep_build_dir := keep_build_dir o;
     skip_download := skip_download o;
     zim_info := zim_info o |}.

Definition set_description (x : option string) (o : Youtube2Zim) : Youtube2Zim :=
  {| collection_type := collection_type o;
     youtube_id := youtube_id o;
     api_key := api_key o;
     video_format := video_format o;
     low_quality := low_quality o;
     all_subtitles := all_subtitles o;
     fname := fname o;
     lang := lang o;
     tags := tags o;
     title := title o;
     description := x;
     creator := creator o;
     publisher := publisher o;
     name := name o;
     profile_image := profile_image o;
     banner_image := banner_image o;
     main_color := main_color o;
     secondary_color := secondary_color o;
     output_dir := output_dir o;
     playlists := playlists o;
     videos_ids := videos_ids o;
     main_channel_id := main_channel_id o;
     no_zim := no_zim o;
     debug := debug o;
     keep_build_dir := keep_build_dir o;
     skip_download := skip_download o;
     zim_info := zim_info o |}.

Definition set_creator (x : option string) (o : Youtube2Zim) : Youtube2Zim :=
  {| collection_type := collection_type o;
     youtube_id := youtube_id o;
     api_key := api_key o;
     video_format := video_format o;
     low_quality := low_quality o;
     all_subtitles := all_subtitles o;
     fname := fname o;
     lang := lang o;
     tags := tags o;
     title := title o;
     description := description o;
     creator := x;
     publisher := publisher o;
     name := name o;
     profile_image := profile_image o;
     banner_image := banner_image o;
     main_color := main_color o;
     secondary_color := secondary_color o;
     output_dir := output_dir o;
     playlists := playlists o;
     videos_ids := videos_ids o;
     main_channel_id := main_channel_id o;
     no_zim := no_zim o;
     debug := debug o;
     keep_build_dir := keep_build_dir o;
     skip_download := skip_download o;
     zim_info := zim_info o |}.

Definition set_publisher (x : option string) (o : Youtube2Zim) : Youtube2Zim :=
  {| collection_type := collection_type o;
     youtube_id := youtube_id o;
     api_key := api_key o;
     video_format := video_format o;
     low_quality := low_quality o;
     all_subtitles := all_subtitles o;
     fname := fname o;
     lang := lang o;
     tags := tags o;
     title := title o;
     description := description o;
     creator := creator o;
     publisher := x;
     name := name o;
     profile_image := profile_image o;
     banner_image := banner_image o;
     main_color := main_color o;
     secondary_color := secondary_color o;
     output_dir := output_dir o;
     playlists := playlists o;
     videos_ids := videos_ids o;
     main_channel_id := main_channel_id o;
     no_zim := no_zim o;
     debug := debug o;
     keep_build_dir := keep_build_dir o;
     skip_download := skip_download o;
     zim_info := zim_info o |}.

Definition set_name (x : option string) (o : Youtube2Zim) : Youtube2Zim :=
  {| collection_type := collection_type o;
     youtube_id := youtube_id o;
     api_key := api_key o;
     video_format := video_format o;
     low_quality := low_quality o;
     all_subtitles := all_subtitles o;
     fname := fname o;
     lang := lang o;
     tags := tags o;
     title := title o;
     description := description o;
     creator := creator o;
     publisher := publisher o;
     name := x;
     profile_image := profile_image o;
     banner_image := banner_image o;
     main_color := main_color o;
     secondary_color := secondary_color o;
     output_dir := output_dir o;
     playlists := playlists o;
     videos_ids := videos_ids o;
     main_channel_id := main_channel_id o;
     no_zim := no_zim o;
     debug := debug o;
     keep_build_dir := keep_build_dir o;
     skip_download := skip_download o;
     zim_info := zim_info o |}.

Definition set_main_color (x : option string) (o : Youtube2Zim) : Youtube2Zim :=
  {| collection_type := collection_type o;
     youtube_id := youtube_id o;
     api_key := api_key o;
     video_format := video_format o;
     low_quality := low_quality o;
     all_subtitles := all_subtitles o;
     fname := fname o;
     lang := lang o;
     tags := tags o;
     title := title o;
     description := description o;
     creator := creator o;
     publisher := publisher o;
     name := name o;
     profile_image := profile_image o;
     banner_image := banner_image o;
     main_color := x;
     secondary_color := secondary_color o;
     output_dir := output_dir o;
     playlists := playlists o;
     videos_ids := videos_ids o;
     main_channel_id := main_channel_id o;
     no_zim := no_zim o;
     debug := debug o;
     keep_build_dir := keep_build_dir o;
     skip_download := skip_download o;
     zim_info := zim_info o |}.

Definition set_secondary_color (x : option string) (o : Youtube2Zim) : Youtube2Zim :=
  {| collection_type := collection_type o;
     youtube_id := youtube_id o;
     api_key := api_key o;
     video_format := video_format o;
     low_quality := low_quality o;
     all_subtitles := all_subtitles o;
     fname := fname o;
     lang := lang o;
     tags := tags o;
     title := title o;
     description := description o;
     creator := creator o;
     publisher := publisher o;
     name := name o;
     profile_image := profile_image o;
     banner_image := banner_image o;
     main_color := main_color o;
     secondary_color := x;
     output_dir := output_dir o;
     playlists := playlists o;
     videos_ids := videos_ids o;
     main_channel_id := main_channel_id o;
     no_zim := no_zim o;
     debug := debug o;
     keep_build_dir := keep_build_dir o;
     skip_download := skip_download o;
     zim_info := zim_info o |}.

Definition set_playlists (x : list Playlist) (o : Youtube2Zim) : Youtube2Zim :=
  {| collection_type := collection_type o;
     youtube_id := youtube_id o;
     api_key := api_key o;
     video_format := video_format o;
     low_quality := low_quality o;
     all_subtitles := all_subtitles o;
     fname := fname o;
     lang := lang o;
     tags := tags o;
     title := title o;
     description := description o;
     creator := creator o;
     publisher := publisher o;
     name := name o;
     profile_image := profile_image o;
     banner_image := banner_image o;
     main_color := main_color o;
     secondary_color := secondary_color o;
     output_dir := output_dir o;
     playlists := x;
     videos_ids := videos_ids o;
     main_channel_id := main_channel_id o;
     no_zim := no_zim o;
     debug := debug o;
     keep_build_dir := keep_build_dir o;
     skip_download := skip_download o;
     zim_info := zim_info o |}.

Definition set_videos_ids (x : list string) (o : Youtube2Zim) : Youtube2Zim :=
  {| collection_type := collection_type o;
     youtube_id := youtube_id o;
     api_key := api_key o;
     video_format := video_format o;
     low_quality := low_quality o;
     all_subtitles := all_subtitles o;
     fname := fname o;
     lang := lang o;
     tags := tags o;
     title := title o;
     description := description o;
     creator := creator o;
     publisher := publisher o;
     name := name o;
     profile_image := profile_image o;
     banner_image := banner_image o;
     main_color := main_color o;
     secondary_color := secondary_color o;
     output_dir := output_dir o;
     playlists := playlists o;
     videos_ids := x;
     main_channel_id := main_channel_id o;
     no_zim := no_zim o;
     debug := debug o;
     keep_build_dir := keep_build_dir o;
     skip_download := skip_download o;
     zim_info := zim_info o |}.

Definition set_main_channel_id (x : option string) (o : Youtube2Zim) : Youtube2Zim :=
  {| collection_type := collection_type o;
     youtube_id := youtube_id o;
     api_key := api_key o;
     video_format := video_format o;
     low_quality := low_quality o;
     all_subtitles := all_subtitles o;
     fname := fname o;
     lang := lang o;
     tags := tags o;
     title := title o;
     description := description o;
     creator := creator o;
     publisher := publisher o;
     name := name o;
     profile_image := profile_image o;
     banner_image := banner_image o;
     main_color := main_color o;
     secondary_color := secondary_color o;
     output_dir := output_dir o;
     playlists := playlists o;
     videos_ids := videos_ids o;
     main_channel_id := x;
     no_zim := no_zim o;
     debug := debug o;
     keep_build_dir := keep_build_dir o;
     skip_download := skip_download o;
     zim_info := zim_info o |}.

Definition set_zim_info (x : ZimInfo) (o : Youtube2Zim) : Youtube2Zim :=
  {| collection_type := collection_type o;
     youtube_id := youtube_id o;
     api_key := api_key o;
     video_format := video_format o;
     low_quality := low_quality o;
     all_subtitles := all_subtitles o;
     fname := fname o;
     lang := lang o;
     tags := tags o;
     title := title o;
     description := description o;
     creator := creator o;
     publisher := publisher o;
     name := name o;
     profile_image := profile_image o;
     banner_image := banner_image o;
     main_color := main_color o;
     secondary_color := secondary_color o;
     output_dir := output_dir o;
     playlists := playlists o;
     videos_ids := videos_ids o;
     main_channel_id := main_channel_id o;
     no_zim := no_zim o;
     debug := debug o;
     keep_build_dir := keep_build_dir o;
     skip_download := skip_download o;
     zim_info := x |}.

(** ** Collaborators

    What [scraper.py] imports from modules outside it: the platform client
    of [youtube.py], the helpers of [utils.py], the templates, the
    downloader.  The platform answers every request; a request that fails
    aborts the run inside the client and is not part of this development. *)

Record SubtitleInfo := {
  sub_code : string;
  sub_english : string;
  sub_native : string
}.

Record ArticleCtx := {
  a_video_id : string;
  a_video_format : string;
  a_author : Author;
  a_title : string;
  a_description : string;
  a_date : string;
  a_subtitles : list SubtitleInfo;
  a_url : string;
  a_channel_id : string;
  a_color : option string;
  a_background_color : option string
}.

Record HomeCtx := {
  h_playlists : list Playlist;
  h_video_format : string;
  h_title : option string;
  h_description : option string;
  h_color : option string;
  h_background_color : option string
}.

(** One entry of a playlist array of [data.js]. *)
Record DataJsItem := {
  dj_id : string;
  dj_title : string;
  dj_slug : string;
  dj_description : string;
  dj_thumbnail : string
}.

Class Collaborators := {
  (* youtube.py, the platform *)
  api_credentials_ok : bool;
  api_channel : option string -> bool -> ChannelJson;
  api_channel_playlists : string -> list string;
  api_playlist : string -> PlaylistJson;
  api_playlist_items : string -> list Video;
  api_video_author : string -> Author;
  api_channel_images : string -> string * option string;
  (* utils.py *)
  clean_text : string -> string;
  get_slug : string -> string;
  get_slug_js : string -> string;
  is_hex_color : string -> bool;
  get_colors : string -> string * string;
  resize : string -> Z -> Z -> string -> string;
  http_get : string -> string;
  (* youtube_dl, jinja2, json, dateutil, iso639 *)
  ydl_files : YdlOptions -> string -> list (string * string);
  render_article : ArticleCtx -> string;
  render_home : HomeCtx -> string;
  render_app_js : string -> string;
  json_dumps : list DataJsItem -> string;
  format_date : string -> string;
  iso_to_name : string -> string;
  iso_to_native : string -> string;
  (* the assets shipped with the templates *)
  assets_src : list (string * string)
}.

(** ** The world of a run *)

Record World := {
  self : Youtube2Zim;
  cache : gmap string Doc;     (* build/cache/<key>.json *)
  files : gmap string string;  (* every other file, by path *)
  dirs : gset string;          (* directories *)
  trace : list Event
}.

Definition with_self (f : Youtube2Zim -> Youtube2Zim) (w : World) : World :=
  {| self := f (self w); cache := cache w; files := files w;
     dirs := dirs w; trace := trace w |}.

Definition with_cache (f : gmap string Doc -> gmap string Doc) (w : World)
  : World :=
  {| self := self w; cache := f (cache w); files := files w;
     dirs := dirs w; trace := trace w |}.

Definition with_files (f : gmap string string -> gmap string string)
  (w : World) : World :=
  {| self := self w; cache := cache w; files := f (files w);
     dirs := dirs w; trace := trace w |}.

Definition with_dirs (f : gset string -> gset string) (w : World) : World :=
  {| self := self w; cache := cache w; files := files w;
     dirs := f (dirs w); trace := trace w |}.

Definition with_event (e : Event) (w : World) : World :=
  {| self := self w; cache := cache w; files := files w;
     dirs := dirs w; trace := trace w ++ [e] |}.

(** ** Methods: state and exceptions *)

Inductive Res (A : Type) :=
| Ok (a : A)
| Raise (e : Exn).
Arguments Ok {A} a.
Arguments Raise {A} e.

Definition M (A : Type) : Type := World -> Res A * World.

Definition ret {A} (a : A) : M A := fun w => (Ok a, w).

Definition bind {A B} (m : M A) (k : A -> M B) : M B :=
  fun w => match m w with
           | (Ok a, w') => k a w'
           | (Raise e, w') => (Raise e, w')
           end.

Definition raise {A} (e : Exn) : M A := fun w => (Raise e, w).

Definition get_self : M Youtube2Zim := fun w => (Ok (self w), w).

Definition modify (f : World -> World) : M unit := fun w => (Ok tt, f w).

Definition emit (e : Event) : M unit := modify (with_event e).

Declare Scope py_scope.
Delimit Scope py_scope with py.
Notation "x <- m ;; k" := (bind m (fun x => k))
  (at level 100, m at next level, k at level 200, right associativity)
  : py_scope.
Notation "m ;; k" := (bind m (fun _ => k))
  (at level 100, k at level 200, right associativity) : py_scope.
Open Scope py_scope.

(** [for x in l: body] *)
Fixpoint for_each {A} (l : list A) (body : A -> M unit) : M unit :=
  match l with
  | [] => ret tt
  | x :: r => body x ;; for_each r body
  end.

(** [[f(x) for x in l]] *)
Fixpoint for_list {A B} (l : list A) (f : A -> M B) : M (list B) :=
  match l with
  | [] => ret []
  | x :: r => y <- f x ;; ys <- for_list r f ;; ret (y :: ys)
  end.

(** [if c: body] *)
Definition when (c : bool) (body : M unit) : M unit :=
  if c then body else ret tt.

(** ** Paths and the file tree *)

(** [Path.joinpath] *)
Definition joinpath (a b : string) : string := a +:+ "/" +:+ b.

Definition build_dir (o : Youtube2Zim) : string := joinpath (output_dir o) "build".
Definition assets_dir (o : Youtube2Zim) : string := joinpath (build_dir o) "assets".
Definition channels_dir (o : Youtube2Zim) : string := joinpath (build_dir o) "channels".
Definition cache_dir (o : Youtube2Zim) : string := joinpath (build_dir o) "cache".
Definition videos_dir (o : Youtube2Zim) : string := joinpath (build_dir o) "videos".
Definition profile_path (o : Youtube2Zim) : string := joinpath (build_dir o) "profile.jpg".
Definition banner_path (o : Youtube2Zim) : string := joinpath (build_dir o) "banner.jpg".

Definition is_user (o : Youtube2Zim) : bool :=
  match collection_type o with USER => true | _ => false end.
Definition is_channel (o : Youtube2Zim) : bool :=
  match collection_type o with CHANNEL => true | _ => false end.
Definition is_playlist (o : Youtube2Zim) : bool :=
  match collection_type o with PLAYLIST => true | _ => false end.

(** [p] is [d] or lies below it. *)
Definition under (d p : string) : bool :=
  String.eqb d p || String.prefix (d +:+ "/") p.

(** [Path.exists] *)
Definition path_exists (p : string) : M bool :=
  fun w => (Ok (bool_decide (p ∈ dirs w) || bool_decide (is_Some (files w !! p))), w).

(** [Path.mkdir(exist_ok=True)] and [os.makedirs(..., exist_ok=True)] *)
Definition mkdir (d : string) : M unit := modify (with_dirs (fun s => {[d]} ∪ s)).

(** Removes [d] and all below it; the cache documents go with their folder. *)
Definition remove_tree (d : string) (w : World) : World :=
  {| self := self w;
     cache := if under d (cache_dir (self w)) then ∅ else cache w;
     files := filter (fun kv => under d kv.1 = false) (files w);
     dirs := filter (fun p => under d p = false) (dirs w);
     trace := trace w |}.

(** [shutil.rmtree(d, ignore_errors)] *)
Definition rmtree (d : string) (ignore_errors : bool) : M unit :=
  present <- path_exists d ;;
  if present then modify (remove_tree d)
  else if ignore_errors then ret tt
  else raise (FileNotFoundError d).

Definition write_file (p content : string) : M unit :=
  modify (with_files (fun fs => <[p := content]> fs)).

(** [fp.write(s)] on a file opened for writing at [p] *)
Definition append_file (p s : string) : M unit :=
  modify (with_files (fun fs => <[p := default "" (fs !! p) +:+ s]> fs)).

(** [shutil.copytree(assets_src_dir, dst)] *)
Definition copytree_assets `{Collaborators} (dst : string) : M unit :=
  mkdir dst ;;
  for_each assets_src (fun f => write_file (joinpath dst f.1) f.2).

(** [shutil.copy(src, dst)] *)
Definition shutil_copy (src dst : string) : M unit :=
  fun w => match files w !! src with
           | Some b => write_file dst b w
           | None => (Raise (FileNotFoundError src), w)
           end.

(** [shutil.move(src, dst)] for a file *)
Definition shutil_move (src dst : string) : M unit :=
  fun w => match files w !! src with
           | Some b =>
               (Ok tt, with_files (fun fs => <[dst := b]> (delete src fs)) w)
           | None => (Raise (FileNotFoundError src), w)
           end.

(** ** Helpers of [utils.py] *)

(** Modelled from the spec: [load_json] of utils.py (absent). "[load(key)]
    returns nothing (not an error) when the key has never been saved for
    this run." *)
Definition load_json (key : string) : M (option Doc) :=
  fun w => (Ok (cache w !! key), w).

(** Modelled from the spec: [save_json] of utils.py (absent). "Storage is a
    flat document per key"; a saved document is loaded back structurally
    equal. *)
Definition save_json (key : string) (doc : Doc) : M unit :=
  modify (with_cache (fun c => <[key := doc]> c)).

(** Modelled from the spec: [resize_image] of utils.py (absent), "treated
    as pure functions with documented signatures"; the result replaces the
    file, or goes to [to]. *)
Definition resize_image `{Collaborators} (path : string) (width height : Z)
  (method : string) (to : option string) : M unit :=
  fun w => match files w !! path with
           | Some b =>
               write_file (default path to) (resize b width height method) w
           | None => (Raise (FileNotFoundError path), w)
           end.

(** Modelled from the spec: [save_file] of utils.py (absent): "supplied
    remote image URLs are fetched eagerly". *)
Definition save_file `{Collaborators} (url path : string) : M unit :=
  emit (EvHttpGet url) ;; write_file path (http_get url).

(** ** The platform client of [youtube.py] *)

(** Modelled from the spec: [credentials_ok] of youtube.py (absent):
    "lightweight probe call used for fail-fast validation". *)
Definition credentials_ok `{Collaborators} : M bool :=
  emit EvCredentials ;; ret api_credentials_ok.

(** Modelled from the spec: [get_channel_json] of youtube.py (absent):
    "[fetchChannel(id, byUsername: bool) -> Channel]". *)
Definition get_channel_json `{Collaborators} (ident : option string)
  (for_username : bool) : M ChannelJson :=
  emit (EvChannel ident for_username) ;; ret (api_channel ident for_username).

(** Modelled from the spec: [get_channel_playlists_json] of youtube.py
    (absent): "[fetchPlaylistsForChannel(channelId)] -> sequence of
    PlaylistSummary"; the ids [p["id"]] of the summaries. *)
Definition get_channel_playlists_json `{Collaborators} (channel : string)
  : M (list string) :=
  emit (EvChannelPlaylists channel) ;; ret (api_channel_playlists channel).

(** Modelled from the spec: [Playlist.from_id] of youtube.py (absent).
    "[Playlist]: [{id, title, description, creatorChannelId, slug}].
    Created by resolving an id against the platform API.  Slug derived
    deterministically from title." *)
Definition make_playlist `{Collaborators} (pid : string) (j : PlaylistJson)
  : Playlist :=
  {| playlist_id := pid;
     pl_title := pj_title j;
     pl_description := pj_description j;
     creator_id := pj_channelId j;
     creator_name := pj_channelTitle j;
     slug := get_slug_js (pj_title j) |}.

Definition Playlist_from_id `{Collaborators} (pid : string) : M Playlist :=
  emit (EvPlaylist pid) ;; ret (make_playlist pid (api_playlist pid)).

(** The cache key of the videos of one playlist. *)
Definition playlist_key (pid : string) : string :=
  "playlist_" +:+ pid +:+ "_videos".

(** Modelled from the spec: [get_videos_json] of youtube.py (absent).
    "fetch videos for a playlist"; "also persist each playlist's own
    ordered video list separately" under [playlist_<id>_videos]; the client
    caches "so that repeated calls ... do not re-hit the network". *)
Definition get_videos_json `{Collaborators} (pid : string) : M (list Video) :=
  emit (EvGetVideos pid) ;;
  items <- load_json (playlist_key pid) ;;
  match items with
  | Some (DocItems l) => ret l
  | Some _ => raise (TypeError "playlist items")
  | None =>
      emit (EvPlaylistItems pid) ;;
      save_json (playlist_key pid) (DocItems (api_playlist_items pid)) ;;
      ret (api_playlist_items pid)
  end.

(** Modelled from the spec: [get_videos_authors_info] of youtube.py
    (absent): "[fetchAuthorsInfo(videoIds)] -> mapping videoId ->
    channelId", kept under the cache key [videos_channels]. *)
Definition get_videos_authors_info `{Collaborators} (ids : list string)
  : M unit :=
  items <- load_json "videos_channels" ;;
  match items with
  | Some _ => ret tt
  | None =>
      emit (EvVideosAuthors ids) ;;
      save_json "videos_channels"
        (DocChannels
           (fold_left (fun d i => PyDict.set i (api_video_author i) d) ids
              PyDict.empty))
  end.

(** Modelled from the spec: [save_channel_branding] of youtube.py (absent):
    the profile image of a channel is stored under
    [channels/<channelId>/profile.jpg], and its banner, when asked for and
    when the channel has one, under [channels/<channelId>/banner.jpg]. *)
Definition save_channel_branding `{Collaborators} (dir : string)
  (channel : option string) (save_banner : bool) : M unit :=
  match channel with
  | None => raise (TypeError "channel_id")
  | Some c =>
      emit (EvBranding c save_banner) ;;
      mkdir (joinpath dir c) ;;
      write_file (joinpath (joinpath dir c) "profile.jpg")
        (api_channel_images c).1 ;;
      match save_banner, (api_channel_images c).2 with
      | true, Some b => write_file (joinpath (joinpath dir c) "banner.jpg") b
      | _, _ => ret tt
      end
  end.

(** Modelled from the spec: [ZimInfo.update] of zim.py (absent): the
    finalized Archive Metadata handed to the packager. *)
Definition zim_info_update (title description creator publisher name
  : option string) (tags : option (list string)) (z : ZimInfo) : ZimInfo :=
  {| zi_language := zi_language z; zi_tags := tags; zi_title := title;
     zi_description := description; zi_creator := creator;
     zi_publisher := publisher; zi_name := name |}.

(** ** Python truth values *)

(** [bool(x)] for a [str] or [None] *)
Definition truthy (x : option string) : bool :=
  match x with
  | Some s => negb (String.eqb s "")
  | None => false
  end.

(** [bool(x)] for a user-supplied image; a [Path] is always true *)
Definition truthy_image (x : option PathOrUrl) : bool :=
  match x with
  | Some (AStr s) => negb (String.eqb s "")
  | Some (APath _) => true
  | None => false
  end.

(** [x or d] *)
Definition or_else (x : option string) (d : string) : string :=
  match x with
  | Some s => if String.eqb s "" then d else s
  | None => d
  end.

(** [str(x)], the text of a user-supplied image *)
Definition image_text (x : PathOrUrl) : string :=
  match x with AStr s => s | APath p => p end.

(** [x.startswith(p)]: a method of [str] only *)
Definition attr_startswith (x : PathOrUrl) (p : string) : M bool :=
  match x with
  | AStr s => ret (PyStr.startswith p s)
  | APath _ => raise (AttributeError "startswith")
  end.

(** [x.exists()]: a method of [Path] only *)
Definition attr_exists (x : PathOrUrl) : M bool :=
  match x with
  | APath p => path_exists p
  | AStr _ => raise (AttributeError "exists")
  end.

(** ** The class [Youtube2Zim] *)

Section Scraper.
Context `{Collaborators}.

Definition set_attr (f : Youtube2Zim -> Youtube2Zim) : M unit :=
  modify (with_self f).

Definition make_build_folder : M unit :=
  o <- get_self ;;
  mkdir (build_dir o) ;;
  present <- path_exists (assets_dir o) ;;
  when present (rmtree (assets_dir o) false) ;;
  copytree_assets (assets_dir o) ;;
  mkdir (cache_dir o) ;;
  mkdir (videos_dir o) ;;
  mkdir (channels_dir o).

(** One of the two image blocks of [check_branding_values]; [flag] is
    the option named in the error message. *)
Definition check_image (flag : string) (image : option PathOrUrl)
  (dest : string) (width height : Z) : M unit :=
  match image with
  | Some img =>
      when (truthy_image image)
        (http <- attr_startswith img "http" ;;
         (if http then save_file (image_text img) dest
          else
            present <- attr_exists img ;;
            if negb present
            then raise (IOError (flag +:+ " image could not be found: "
                                   +:+ image_text img))
            else shutil_move (image_text img) dest) ;;
         resize_image dest width height "thumbnail" None)
  | None => ret tt
  end.

Definition check_color (msg : string) (color : option string) : M unit :=
  match color with
  | Some c =>
      if truthy color && negb (is_hex_color c)
      then raise (ValueError (msg +:+ c))
      else ret tt
  | None => ret tt
  end.

Definition check_branding_values : M unit :=
  o <- get_self ;;
  if negb (truthy_image (profile_image o) || truthy_image (banner_image o)
           || truthy (main_color o) || truthy (secondary_color o))
  then ret tt
  else
    check_image "--profile" (profile_image o) (profile_path o) 100 100 ;;
    check_image "--banner" (banner_image o) (banner_path o) 1060 175 ;;
    check_color "--main-color is not a valid hex color: " (main_color o) ;;
    check_color "--secondary_color-color is not a valid hex color: "
      (secondary_color o).

Definition extract_playlists : M unit :=
  o <- get_self ;;
  playlist_ids <-
    (if is_user o || is_channel o then
       channel_json <-
         (if is_user o
          then get_channel_json (Some (youtube_id o)) true
          else get_channel_json (Some (youtube_id o)) false) ;;
       set_attr (set_main_channel_id (Some (ch_id channel_json))) ;;
       ids <- get_channel_playlists_json (ch_id channel_json) ;;
       ret (ids ++ [ch_uploads channel_json])%list
     else if is_playlist o then
       let playlist_ids := PyStr.split_comma (youtube_id o) in
       match playlist_ids with
       | first :: _ =>
           p <- Playlist_from_id first ;;
           set_attr (set_main_channel_id (Some (creator_id p))) ;;
           ret playlist_ids
       | [] => raise (IndexError "list index out of range")
       end
     else raise (NotImplementedError "unsupported collection_type")) ;;
  pls <- for_list (elements (list_to_set playlist_ids : gset string))
           Playlist_from_id ;;
  set_attr (set_playlists pls).

(** The loop of [extract_videos_list] over the playlists. *)
Fixpoint merge_playlists (pls : list Playlist) (all_videos : PyDict.t Video)
  : M (PyDict.t Video) :=
  match pls with
  | [] => ret all_videos
  | playlist :: r =>
      vs <- get_videos_json (playlist_id playlist) ;;
      merge_playlists r
        (PyDict.update all_videos
           (PyDict.comprehension (fun v => videoId (contentDetails v)) vs))
  end.

(** [doc.keys()] *)
Definition doc_keys (doc : Doc) : M (list string) :=
  match doc with
  | DocVideos d => ret (PyDict.keys d)
  | DocChannels d => ret (PyDict.keys d)
  | DocItems _ => raise (AttributeError "keys")
  end.

Definition extract_videos_list : M unit :=
  cached <- load_json "videos" ;;
  all_videos <-
    match cached with
    | Some doc => ret doc
    | None =>
        o <- get_self ;;
        all_videos <- merge_playlists (playlists o) PyDict.empty ;;
        save_json "videos" (DocVideos all_videos) ;;
        ret (DocVideos all_videos)
    end ;;
  ids <- doc_keys all_videos ;;
  set_attr (set_videos_ids ids).

Definition download_video_files : M unit :=
  o <- get_self ;;
  let options :=
    {| opt_cachedir := videos_dir o;
       opt_outtmpl :=
         joinpath (joinpath (videos_dir o) "%(id)s") "video.%(ext)s";
       opt_format := video_format o;
       opt_all_subtitles := all_subtitles o;
       opt_prefer_ffmpeg := low_quality o;
       opt_progress_hook :=
         if low_quality o then Some (video_format o) else None |} in
  emit (EvDownload options (videos_ids o)) ;;
  for_each (videos_ids o) (fun video_id =>
    mkdir (joinpath (videos_dir o) video_id) ;;
    for_each (ydl_files options video_id) (fun f =>
      write_file (joinpath (joinpath (videos_dir o) video_id) f.1) f.2)) ;;
  for_each (videos_ids o) (fun video_id =>
    resize_image (joinpath (joinpath (videos_dir o) video_id) "video.jpg")
      248 187 "cover" None).

Definition download_authors_branding : M unit :=
  o <- get_self ;;
  videos_channels_json <- load_json "videos_channels" ;;
  match videos_channels_json with
  | Some (DocChannels d) =>
      let uniq_channel_ids :=
        elements (list_to_set (map channelId (PyDict.values d))
                  : gset string) in
      for_each uniq_channel_ids (fun channel_id =>
        save_channel_branding (channels_dir o) (Some channel_id) false)
  | Some (DocVideos d) =>
      match d with
      | [] => ret tt
      | _ :: _ => raise (KeyError "channelId")
      end
  | Some (DocItems _) | None => raise (AttributeError "values")
  end.

(** The two local variables [profile_main] and [profile_secondary] of
    [update_metadata], bound only when [get_colors] ran. *)
Definition local_or (x : option string) (var : string)
  (local : option string) : M string :=
  if truthy x then ret (or_else x "")
  else match local with
       | Some v => ret v
       | None => raise (UnboundLocalError var)
       end.

Definition update_metadata : M unit :=
  o <- get_self ;;
  main_channel_json <- get_channel_json (main_channel_id o) false ;;
  save_channel_branding (channels_dir o) (main_channel_id o) true ;;
  let single := is_playlist o && (List.length (playlists o) =? 1)%nat in
  auto_title <-
    (if single
     then match playlists o with
          | p :: _ => ret (pl_title p)
          | [] => raise (IndexError "list index out of range")
          end
     else ret (PyStr.strip (ch_title main_channel_json))) ;;
  auto_description <-
    (if single
     then match playlists o with
          | p :: _ => ret (clean_text (pl_description p))
          | [] => raise (IndexError "list index out of range")
          end
     else ret (clean_text (ch_description main_channel_json))) ;;
  set_attr (set_title (Some (or_else (title o) auto_title))) ;;
  set_attr (set_description
              (Some (or_else (description o) auto_description))) ;;
  when (bool_decide (creator o = None))
    (if is_playlist o
     then set_attr (set_creator (Some "Youtube Channels"))
     else set_attr (set_creator
            (Some ("Youtube Channel “" +:+ ch_title main_channel_json
                   +:+ "”")))) ;;
  set_attr (set_publisher (Some (or_else (publisher o) "Kiwix"))) ;;
  set_attr (set_name (Some "youtube-{ident}_{lang}_all")) ;;
  let tags1 :=
    match tags o with
    | Some (t :: r) => t :: r
    | _ => ["youtube"]
    end in
  let tags2 :=
    if bool_decide ("_videos:yes" ∈ tags1) then tags1
    else (tags1 ++ ["_videos:yes"])%list in
  set_attr (set_tags (Some tags2)) ;;
  o1 <- get_self ;;
  set_attr (set_zim_info
    (zim_info_update (title o1) (description o1) (creator o1)
       (publisher o1) (name o1) (tags o1) (zim_info o1))) ;;
  has_profile <- path_exists (profile_path o) ;;
  when (negb has_profile)
    (match main_channel_id o with
     | Some c =>
         shutil_copy (joinpath (joinpath (channels_dir o) c) "profile.jpg")
           (profile_path o)
     | None => raise (TypeError "channel_id")
     end) ;;
  has_banner <- path_exists (banner_path o) ;;
  when (negb has_banner)
    (match main_channel_id o with
     | Some c =>
         shutil_copy (joinpath (joinpath (channels_dir o) c) "banner.jpg")
           (banner_path o)
     | None => raise (TypeError "channel_id")
     end) ;;
  colors <-
    (if bool_decide (main_color o = None)
        || bool_decide (secondary_color o = None)
     then fun w =>
            match files w !! profile_path o with
            | Some b => (Ok (Some (get_colors b)), w)
            | None => (Raise (FileNotFoundError (profile_path o)), w)
            end
     else ret None) ;;
  main <- local_or (main_color o) "profile_main" (fst <$> colors) ;;
  set_attr (set_main_color (Some main)) ;;
  secondary <- local_or (secondary_color o) "profile_secondary"
                 (snd <$> colors) ;;
  set_attr (set_secondary_color (Some secondary)) ;;
  resize_image (profile_path o) 48 48 "thumbnail"
    (Some (joinpath (build_dir o) "favicon.jpg")).

(** [s] without the prefix [p], when it has it. *)
Fixpoint strip_prefix (p s : string) : option string :=
  match p, s with
  | EmptyString, _ => Some s
  | String a p', String b s' =>
      if Ascii.eqb a b then strip_prefix p' s' else None
  | String _ _, EmptyString => None
  end.

Fixpoint has_slash (s : string) : bool :=
  match s with
  | EmptyString => false
  | String c r => Ascii.eqb c "/"%char || has_slash r
  end.

(** The names of the files directly inside [d]: [x.name] for the [x] of
    [d.iterdir()] with [x.is_file()]. *)
Definition file_names (d : string) (fs : gmap string string) : list string :=
  omap (fun kv =>
          match strip_prefix (d +:+ "/") kv.1 with
          | Some n => if has_slash n then None else Some n
          | None => None
          end)
       (map_to_list fs).

(** [Path.stem] of a name that ends with [".vtt"] *)
Definition stem_vtt (n : string) : string :=
  if String.eqb n ".vtt" then n
  else substring 0 (String.length n - 4) n.

Definition non_iso_langs : PyDict.t SubtitleInfo :=
  [("zh-Hans", {| sub_code := "zh-Hans";
                  sub_english := "Simplified Chinese";
                  sub_native := "简化字" |});
   ("zh-Hant", {| sub_code := "zh-Hant";
                  sub_english := "Traditional Chinese";
                  sub_native := "正體字" |});
   ("iw", {| sub_code := "iw"; sub_english := "Hebrew";
             sub_native := "עברית" |})].

Definition get_subtitles (video_id : string) : M (list SubtitleInfo) :=
  o <- get_self ;;
  let video_dir := joinpath (videos_dir o) video_id in
  names <- (fun w =>
              if bool_decide (video_dir ∈ dirs w)
              then (Ok (file_names video_dir (files w)), w)
              else (Raise (FileNotFoundError video_dir), w)) ;;
  languages <-
    for_list (filter (fun n => PyStr.endswith ".vtt" n = true) names)
      (fun n =>
         match PyStr.split_on "."%char (stem_vtt n) with
         | _ :: language :: _ => ret language
         | _ => raise (IndexError "list index out of range")
         end) ;;
  ret (map (fun language =>
              match PyDict.get language non_iso_langs with
              | Some info => info
              | None => {| sub_code := language;
                           sub_english := iso_to_name language;
                           sub_native := iso_to_native language |}
              end)
         languages).

(** [videos_channels[video_id]] *)
Definition author_of (videos_channels : option Doc) (video_id : string)
  : M Author :=
  match videos_channels with
  | Some (DocChannels d) =>
      match PyDict.get video_id d with
      | Some a => ret a
      | None => raise (KeyError video_id)
      end
  | Some (DocVideos _) => raise (TypeError "author")
  | Some (DocItems _) => raise (TypeError "list indices")
  | None => raise (TypeError "NoneType is not subscriptable")
  end.

(** The first loop of [make_html_files]: one page per video. *)
Definition write_articles : M unit :=
  o <- get_self ;;
  cached <- load_json "videos" ;;
  videos <-
    match cached with
    | Some (DocVideos d) => ret (PyDict.values d)
    | Some (DocChannels d) =>
        match d with
        | [] => ret []
        | _ :: _ => raise (KeyError "contentDetails")
        end
    | Some (DocItems _) | None => raise (AttributeError "values")
    end ;;
  videos_channels <- load_json "videos_channels" ;;
  for_each videos (fun video =>
    let video_id := videoId (contentDetails video) in
    let title := v_title (snippet video) in
    author <- author_of videos_channels video_id ;;
    subtitles <- get_subtitles video_id ;;
    write_file (joinpath (build_dir o) (get_slug title +:+ ".html"))
      (render_article
         {| a_video_id := video_id;
            a_video_format := video_format o;
            a_author := author;
            a_title := title;
            a_description :=
              PyStr.replace_newline (v_description (snippet video));
            a_date := format_date (videoPublishedAt (contentDetails video));
            a_subtitles := subtitles;
            a_url := "https://www.youtube.com/watch?v=" +:+ video_id;
            a_channel_id := v_channelId (snippet video);
            a_color := main_color o;
            a_background_color := secondary_color o |})).

Definition write_home : M unit :=
  o <- get_self ;;
  write_file (joinpath (build_dir o) "home.html")
    (render_home
       {| h_playlists := playlists o;
          h_video_format := video_format o;
          h_title := title o;
          h_description := description o;
          h_color := main_color o;
          h_background_color := secondary_color o |}).

Definition write_app_js : M unit :=
  o <- get_self ;;
  write_file (joinpath (assets_dir o) "app.js")
    (render_app_js (video_format o)).

Definition to_data_js (video : Video) : DataJsItem :=
  {| dj_id := videoId (contentDetails video);
     dj_title := v_title (snippet video);
     dj_slug := get_slug (v_title (snippet video));
     dj_description := PyStr.replace_newline (v_description (snippet video));
     dj_thumbnail :=
       joinpath (joinpath "videos" (videoId (contentDetails video)))
         "video.jpg" |}.

(** The playlist's videos as [data.js] lists them. *)
Definition data_js_array (playlist_videos : list Video) : list DataJsItem :=
  map to_data_js
    (PySort.sort (fun v => position (snippet v)) playlist_videos).

(** One [var json_<slug> = [...];] line of [data.js]. *)
Definition data_js_line (playlist : Playlist) (playlist_videos : list Video)
  : string :=
  "var json_" +:+ slug playlist +:+ " = "
    +:+ json_dumps (data_js_array playlist_videos) +:+ ";" +:+ "
".

Definition write_data_js : M unit :=
  o <- get_self ;;
  let data_js := joinpath (assets_dir o) "data.js" in
  write_file data_js "" ;;
  for_each (playlists o) (fun playlist =>
    playlist_videos <- load_json (playlist_key (playlist_id playlist)) ;;
    match playlist_videos with
    | Some (DocItems l) => append_file data_js (data_js_line playlist l)
    | _ => raise (AttributeError "sort")
    end).

Definition make_html_files : M unit :=
  write_articles ;;
  write_home ;;
  write_app_js ;;
  write_data_js.

(** Modelled from the spec: [make_zim_file] of zim.py (absent):
    "[pack(buildDir, outputDir, filename, metadata)]". *)
Definition make_zim_file (build outdir fname : string) (info : ZimInfo)
  : M unit :=
  emit (EvMakeZim build outdir fname info).

Definition run : M unit :=
  o <- get_self ;;
  present <- path_exists (build_dir o) ;;
  when (negb (keep_build_dir o) && present)
    (rmtree (cache_dir o) true ;; rmtree (build_dir o) false) ;;
  make_build_folder ;;
  ok <- credentials_ok ;;
  (if negb ok
   then raise (ValueError
          "Unable to connect to Youtube API v3. check `API_KEY`.")
   else ret tt) ;;
  check_branding_values ;;
  extract_playlists ;;
  extract_videos_list ;;
  when (negb (skip_download o)) download_video_files ;;
  o1 <- get_self ;;
  get_videos_authors_info (videos_ids o1) ;;
  download_authors_branding ;;
  update_metadata ;;
  make_html_files ;;
  o2 <- get_self ;;
  when (negb (no_zim o2))
    (make_zim_file (build_dir o2) (output_dir o2) (fname o2) (zim_info o2)).

End Scraper.

(** ** A strict hex-color pattern *)

Definition is_hex_digit (c : ascii) : bool :=
  let n := nat_of_ascii c in
  (((48 <=? n) && (n <=? 57)) || ((65 <=? n) && (n <=? 70))
   || ((97 <=? n) && (n <=? 102)))%nat.

Fixpoint all_hex (s : string) : bool :=
  match s with
  | EmptyString => true
  | String c r => is_hex_digit c && all_hex r
  end.

(** Modelled from the spec: [is_hex_color] of utils.py (absent): "supplied
    color strings must match a strict hex-color pattern"; a [#] followed by
    three or six hexadecimal digits. *)
Definition hex_color_pattern (s : string) : bool :=
  match s with
  | String c r =>
      Ascii.eqb c "#"%char && all_hex r
      && ((String.length r =? 3)%nat || (String.length r =? 6)%nat)
  | EmptyString => false
  end.

(** ** A small platform, for examples

    Two playlists of one channel that share a video: [PL1] holds [v1] at
    position 0 and [v2] at position 1, [PL2] holds [v2] at position 0 and
    [v3] at position 1. *)

Module Demo.

Definition video (pid id : string) (pos : Z) : Video :=
  {| contentDetails := {| videoId := id; videoPublishedAt := "2020-01-01" |};
     snippet := {| v_title := id +:+ " in " +:+ pid;
                   v_description := "";
                   v_channelId := "UC1";
                   position := pos |} |}.

Definition playlist_items (pid : string) : list Video :=
  if String.eqb pid "PL1" then [video "PL1" "v1" 0; video "PL1" "v2" 1]
  else if String.eqb pid "PL2" then [video "PL2" "v2" 0; video "PL2" "v3" 1]
  else if String.eqb pid "UU1" then
    [video "UU1" "v3" 2; video "UU1" "v1" 0; video "UU1" "v2" 1]
  else [].

#[global] Instance platform : Collaborators :=
  {| api_credentials_ok := true;
     api_channel := fun _ _ =>
       {| ch_id := "UC1"; ch_title := "  My Channel ";
          ch_description := "about"; ch_uploads := "UU1" |};
     api_channel_playlists := fun _ => ["PL1"; "PL2"; "PL1"];
     api_playlist := fun pid =>
       {| pj_title := "Playlist " +:+ pid; pj_description := "";
          pj_channelId := "UC-" +:+ pid; pj_channelTitle := "My Channel" |};
     api_playlist_items := playlist_items;
     api_video_author := fun _ =>
       {| channelId := "UC1"; channelTitle := "My Channel" |};
     api_channel_images := fun c => ("profile of " +:+ c, Some "banner");
     clean_text := fun s => s;
     get_slug := fun s => s;
     get_slug_js := fun s => s;
     is_hex_color := hex_color_pattern;
     get_colors := fun _ => ("#000000", "#ffffff");
     resize := fun b _ _ _ => b;
     http_get := fun u => "content of " +:+ u;
     ydl_files := fun _ _ => [("video.jpg", "thumb"); ("video.en.vtt", "")];
     render_article := fun c => a_title c;
     render_home := fun _ => "home";
     render_app_js := fun f => f;
     json_dumps := fun l => PyStr.join_comma (map dj_id l);
     format_date := fun s => s;
     iso_to_name := fun s => s;
     iso_to_native := fun s => s;
     assets_src := [("app.js", ""); ("data.js", "")] |}.

Definition scraper (kind : CollectionType) (ident : string) : Youtube2Zim :=
  {| collection_type := kind; youtube_id := ident; api_key := "key";
     video_format := "webm"; low_quality := false; all_subtitles := false;
     fname := "out.zim"; lang := "en"; tags := None; title := None;
     description := None; creator := None; publisher := None;
     name := None; profile_image := None; banner_image := None;
     main_color := None; secondary_color := None; output_dir := "out";
     playlists := []; videos_ids := []; main_channel_id := None;
     no_zim := false; debug := false; keep_build_dir := false;
     skip_download := false;
     zim_info := {| zi_language := "en"; zi_tags := None; zi_title := None;
                    zi_description := None; zi_creator := None;
                    zi_publisher := None; zi_name := None |} |}.

Definition world (o : Youtube2Zim) : World :=
  {| self := o; cache := ∅; files := ∅; dirs := ∅; trace := [] |}.

(** The run on the explicit playlist list ["PL1,PL2"], once its
    playlists are resolved. *)
Definition resolved : World :=
  world (set_main_channel_id (Some "UC1")
           (set_playlists
              [make_playlist "PL1" (api_playlist "PL1");
               make_playlist "PL2" (api_playlist "PL2")]
              (scraper PLAYLIST "PL1,PL2"))).

Definition channel_world : World := world (scraper CHANNEL "UC1").
Definition list_world : World := world (scraper PLAYLIST "PL1,PL2").

(** A channel run with its main channel resolved; [named] has a
    user-supplied name and title, [tagged] user-supplied tags. *)
Definition channel_resolved : World :=
  world (set_main_channel_id (Some "UC1") (scraper CHANNEL "UC1")).
Definition named : World :=
  world (set_title (Some "My title")
           (set_name (Some "my_archive")
              (set_main_channel_id (Some "UC1") (scraper CHANNEL "UC1")))).
Definition tagged : World :=
  world (set_tags (Some ["kids"])
           (set_main_channel_id (Some "UC1") (scraper CHANNEL "UC1"))).

(** A run with the main color ["red"], and one with a valid color. *)
Definition red : World :=
  world (set_main_color (Some "red") (scraper CHANNEL "UC1")).
Definition colored : World :=
  world (set_main_color (Some "#1a2b3c") (scraper CHANNEL "UC1")).

(** A run with the local profile image [logo.jpg], which exists. *)
Definition logo (image : PathOrUrl) : World :=
  {| self := {| collection_type := CHANNEL; youtube_id := "UC1";
                api_key := "key"; video_format := "webm";
                low_quality := false; all_subtitles := false;
                fname := "out.zim"; lang := "en"; tags := None;
                title := None; description := None; creator := None;
                publisher := None; name := None;
                profile_image := Some image; banner_image := None;
                main_color := None; secondary_color := None;
                output_dir := "out"; playlists := []; videos_ids := [];
                main_channel_id := None; no_zim := false; debug := false;
                keep_build_dir := false; skip_download := false;
                zim_info := zim_info (scraper CHANNEL "UC1") |};
     cache := ∅; files := {[ "logo.jpg" := "a picture" ]};
     dirs := {[ "out/build" ]}; trace := [] |}.

(** The steps of [run] between the branding checks and the page
    generation, and the world they leave for ["PL1,PL2"]. *)
Definition prepare : M unit :=
  (extract_playlists ;;
   extract_videos_list ;;
   download_video_files ;;
   o1 <- get_self ;;
   get_videos_authors_info (videos_ids o1) ;;
   download_authors_branding ;;
   update_metadata)%py.

Definition ready : World := (prepare list_world).2.

(** The same platform when it refuses the credentials. *)
Definition offline : Collaborators :=
  {| api_credentials_ok := false;
     api_channel := @api_channel platform;
     api_channel_playlists := @api_channel_playlists platform;
     api_playlist := @api_playlist platform;
     api_playlist_items := @api_playlist_items platform;
     api_video_author := @api_video_author platform;
     api_channel_images := @api_channel_images platform;
     clean_text := @clean_text platform;
     get_slug := @get_slug platform;
     get_slug_js := @get_slug_js platform;
     is_hex_color := @is_hex_color platform;
     get_colors := @get_colors platform;
     resize := @resize platform;
     http_get := @http_get platform;
     ydl_files := @ydl_files platform;
     render_article := @render_article platform;
     render_home := @render_home platform;
     render_app_js := @render_app_js platform;
     json_dumps := @json_dumps platform;
     format_date := @format_date platform;
     iso_to_name := @iso_to_name platform;
     iso_to_native := @iso_to_native platform;
     assets_src := @assets_src platform |}.

(** The merged Video Set of that run: [v2] is the record of [PL2]. *)
Definition merged : PyDict.t Video :=
  [("v1", video "PL1" "v1" 0); ("v2", video "PL2" "v2" 0);
   ("v3", video "PL2" "v3" 1)].

(** The world after the video extraction of [resolved]. *)
Definition extracted : World := (extract_videos_list resolved).2.

End Demo.

(** ** What the proofs speak of *)

(** The last element of [xs] whose key is [k]. *)
Fixpoint find_last {A} (key : A -> string) (k : string) (xs : list A)
  : option A :=
  match xs with
  | [] => None
  | x :: r =>
      match find_last key k r with
      | Some y => Some y
      | None => if String.eqb k (key x) then Some x else None
      end
  end.

(** What [get_videos_json] answers for a playlist in world [w]: the cached
    list when there is one, else the platform's. *)
Definition fetched `{Collaborators} (w : World) (pid : string) : list Video :=
  match cache w !! playlist_key pid with
  | Some (DocItems l) => l
  | _ => api_playlist_items pid
  end.

(** No per-playlist cache document holds anything but a list of videos. *)
Definition playlist_cache_ok (w : World) : Prop :=
  forall pid doc,
    cache w !! playlist_key pid = Some doc -> exists l, doc = DocItems l.

(** All videos of the resolved playlists, in the order they are merged. *)
Definition all_fetched `{Collaborators} (w : World) : list Video :=
  List.concat (map (fun p => fetched w (playlist_id p)) (playlists (self w))).

Definition video_key (v : Video) : string := videoId (contentDetails v).

(** The worlds that differ from [w] only by per-playlist cache documents
    that agree with what the platform serves, and by events. *)
Definition same_videos `{Collaborators} (w w' : World) : Prop :=
  self w' = self w
  ∧ files w' = files w
  ∧ dirs w' = dirs w
  ∧ cache w' !! "videos" = cache w !! "videos"
  ∧ playlist_cache_ok w'
  ∧ forall pid, fetched w' pid = fetched w pid.

(** The derived title and description of [update_metadata]. *)
Definition single_playlist (o : Youtube2Zim) : bool :=
  is_playlist o && (List.length (playlists o) =? 1)%nat.

Definition auto_title (o : Youtube2Zim) (chan : ChannelJson) : string :=
  if single_playlist o
  then match playlists o with p :: _ => pl_title p | [] => "" end
  else PyStr.strip (ch_title chan).

Definition auto_description `{Collaborators} (o : Youtube2Zim)
  (chan : ChannelJson) : string :=
  if single_playlist o
  then match playlists o with
       | p :: _ => clean_text (pl_description p)
       | [] => ""
       end
  else clean_text (ch_description chan).

(** The derived title in the spec's words: "the single playlist's title
    when the collection is an explicit playlist list of exactly one
    playlist, else the main channel's title". *)
Definition spec_title (o : Youtube2Zim) (chan : ChannelJson) : string :=
  if single_playlist o
  then match playlists o with p :: _ => pl_title p | [] => "" end
  else ch_title chan.

(** The tags after [update_metadata]. *)
Definition final_tags (t : option (list string)) : list string :=
  let tags1 := match t with Some (x :: r) => x :: r | _ => ["youtube"] end in
  if bool_decide ("_videos:yes" ∈ tags1) then tags1
  else (tags1 ++ ["_videos:yes"])%list.

(** A method keeps what [f] reads of the object. *)
Definition keeps {A X} (f : Youtube2Zim -> X) (m : M A) : Prop :=
  forall w, f (self (m w).2) = f (self w).

(** The metadata attributes of the object. *)
Definition metadata (o : Youtube2Zim) :=
  (title o, description o, creator o, publisher o, name o, tags o,
   zim_info o).

(** [w'] is [w] with the same object and some more events, none of
    them of playlist or video extraction. *)
Definition quiet_step (w w' : World) : Prop :=
  self w' = self w
  ∧ exists evs, trace w' = (trace w ++ evs)%list
                ∧ Forall (fun e => is_extraction e = false) evs.

(** The creator after [update_metadata]. *)
Definition creator_after (o : Youtube2Zim) (chan : ChannelJson)
  : option string :=
  match creator o with
  | Some x => Some x
  | None =>
      Some (if is_playlist o then "Youtube Channels"
            else "Youtube Channel “" +:+ ch_title chan +:+ "”")
  end.

(** The rule for the title in the spec's words: the user's non-empty
    title, else the derived title. *)
Definition title_as_specified `{Collaborators} (w : World) (c : string)
  : Prop :=
  let o := self w in
  let o' := self (update_metadata w).2 in
  (truthy (title o) = true -> title o' = title o)
  ∧ (truthy (title o) = false ->
     title o' = Some (spec_title o (api_channel (Some c) false))).

(** A color the user supplied that the pattern refuses. *)
Definition invalid_color `{Collaborators} (x : option string) : bool :=
  match x with
  | Some c => negb (String.eqb c "") && negb (is_hex_color c)
  | None => false
  end.

(** A method that only makes quiet steps, and one that raises after quiet
    steps only. *)
Definition quiet {A} (m : M A) : Prop := forall w, quiet_step w (m w).2.

Definition stops {A} (m : M A) (w : World) : Prop :=
  exists e w', m w = (Raise e, w') ∧ quiet_step w w'.

(** The cached videos of a playlist, [load_json(cache_dir,
    f"playlist_{id}_videos")]. *)
Definition cached_items (w : World) (pid : string) : list Video :=
  match cache w !! playlist_key pid with
  | Some (DocItems l) => l
  | _ => []
  end.

(** The text of [data.js]: one line per playlist, in the order of
    [self.playlists]. *)
Definition data_js_text `{Collaborators} (w : World) : string :=
  fold_left
    (fun text p =>
       text +:+ data_js_line p (cached_items w (playlist_id p)))
    (playlists (self w)) "".

(** Ascending order of an integer key, and of the position within the
    playlist. *)
Definition key_le {A} (key : A -> Z) (a b : A) : Prop := key a <= key b.

Definition by_position : Video -> Video -> Prop :=
  key_le (fun v => position (snippet v)).

(** A method leaves what [f] reads of the world as it was. *)
Definition preserves {A X} (f : World -> X) (m : M A) : Prop :=
  forall w, f (m w).2 = f w.

(** The object and the cache. *)
Definition self_and_cache (w : World) := (self w, cache w).

(** The packaging event. *)
Definition is_packaging (e : Event) : bool :=
  match e with
  | EvMakeZim _ _ _ _ => true
  | _ => false
  end.

(** A method whose every run relates the world before to the world
    after. *)
Definition steps {A} (R : relation World) (m : M A) : Prop :=
  forall w, R w (m w).2.

(** [w'] is [w] with more events, all of them in [Q]. *)
Definition adds (Q : Event -> Prop) : relation World :=
  fun w w' =>
    exists evs, trace w' = (trace w ++ evs)%list ∧ Forall Q evs.

(** What holds of the object in [w] still holds in [w']. *)
Definition stable (P : Youtube2Zim -> Prop) : relation World :=
  fun w w' => P (self w) -> P (self w').

(** More events, none of them the packaging. *)
Definition unpackaged : relation World :=
  adds (fun e => is_packaging e = false).

(** The packaging event of a finished run, unless [no_zim]. *)
Definition packaging (w : World) : list Event :=
  if no_zim (self w) then []
  else [EvMakeZim (build_dir (self w)) (output_dir (self w))
          (fname (self w)) (zim_info (self w))].

(** A method that, when it raises, has made [E]-steps only, and when it
    returns has made the step [S]. *)
Definition outcome {A} (E S : relation World) (m : M A) : Prop :=
  forall w, match m w with
            | (Ok _, w') => S w w'
            | (Raise _, w') => E w w'
            end.

(** [w'] is [w] with some files written: the same object, cache, folders
    and trace, and every file of [w] still there. *)
Definition writes_only : relation World :=
  fun w w' =>
    self w' = self w ∧ cache w' = cache w ∧ trace w' = trace w
    ∧ dirs w' = dirs w
    ∧ forall p, is_Some (files w !! p) -> is_Some (files w' !! p).


(** The slug of a video's title, the page it names, and what the page's
    template is given. *)
Definition title_slug `{Collaborators} (video : Video) : string :=
  get_slug (v_title (snippet video)).

Definition page_path `{Collaborators} (o : Youtube2Zim) (video : Video)
  : string :=
  joinpath (build_dir o) (title_slug video +:+ ".html").

Definition article `{Collaborators} (o : Youtube2Zim) (video : Video)
  (author : Author) (subtitles : list SubtitleInfo) : ArticleCtx :=
  {| a_video_id := videoId (contentDetails video);
     a_video_format := video_format o;
     a_author := author;
     a_title := v_title (snippet video);
     a_description := PyStr.replace_newline (v_description (snippet video));
     a_date := format_date (videoPublishedAt (contentDetails video));
     a_subtitles := subtitles;
     a_url := "https://www.youtube.com/watch?v="
                +:+ videoId (contentDetails video);
     a_channel_id := v_channelId (snippet video);
     a_color := main_color o;
     a_background_color := secondary_color o |}.

(** The file [p] with content [b], when [w] has it, is the same in
    [w']. *)
Definition file_kept (p b : string) : relation World :=
  fun w w' => files w !! p = Some b -> files w' !! p = Some b.

(** [w'] is [w] outside the folder [b]: when [b] is the build folder of
    the run it still is, and a path that is not [b] or below it names the
    same file, or the same folder, or nothing, in both. *)
Definition outside (b : string) : relation World :=
  fun w w' =>
    build_dir (self w) = b ->
    build_dir (self w') = b
    ∧ forall p, under b p = false ->
        files w' !! p = files w !! p ∧ (p ∈ dirs w' <-> p ∈ dirs w).

(** A method that can only return in a world where [Q] holds. *)
Definition returns_in {A} (m : M A) (Q : World -> Prop) : Prop :=
  forall w a w', m w = (Ok a, w') -> Q w'.

(** The metadata of the object is all there, and the metadata for the
    packager says the same. *)
Definition described (o : Youtube2Zim) : Prop :=
  is_Some (title o) ∧ is_Some (description o) ∧ is_Some (creator o)
  ∧ is_Some (publisher o) ∧ is_Some (name o)
  ∧ (exists t, tags o = Some t ∧ "_videos:yes" ∈ t)
  ∧ zi_title (zim_info o) = title o
  ∧ zi_description (zim_info o) = description o
  ∧ zi_creator (zim_info o) = creator o
  ∧ zi_publisher (zim_info o) = publisher o
  ∧ zi_name (zim_info o) = name o
  ∧ zi_tags (zim_info o) = tags o.

(** The names of the subtitle files of a video, and the language that
    the name of such a file gives: the second of the fields that the
    dots of its stem separate. *)
Definition subtitle_files (o : Youtube2Zim) (w : World) (video_id : string)
  : list string :=
  filter (fun n => PyStr.endswith ".vtt" n = true)
    (file_names (joinpath (videos_dir o) video_id) (files w)).

Definition language_of (n : string) : option string :=
  PyStr.split_on "."%char (stem_vtt n) !! 1%nat.

(** ** Further sample runs *)

Module Cases.

(** A channel run with its main channel resolved and a user-supplied main
    color; [blank] was given the empty string as main color, next to a
    secondary color. *)
Definition tinted : World :=
  Demo.world (set_main_color (Some "#1a2b3c")
                (set_main_channel_id (Some "UC1")
                   (Demo.scraper CHANNEL "UC1"))).
Definition blank : World :=
  Demo.world (set_main_color (Some "")
                (set_secondary_color (Some "#ffffff")
                   (set_main_channel_id (Some "UC1")
                      (Demo.scraper CHANNEL "UC1")))).


(** The prepared run of ["PL1,PL2"] when the cached list of [PL2] is
    gone. *)
Definition half : World :=
  with_cache (fun c => delete (playlist_key "PL2") c) Demo.ready.


(** The sample platform with a slug function that gives every title the
    slug ["page"]. *)
Definition one_slug : Collaborators :=
  {| api_credentials_ok := true;
     api_channel := @api_channel Demo.platform;
     api_channel_playlists := @api_channel_playlists Demo.platform;
     api_playlist := @api_playlist Demo.platform;
     api_playlist_items := @api_playlist_items Demo.platform;
     api_video_author := @api_video_author Demo.platform;
     api_channel_images := @api_channel_images Demo.platform;
     clean_text := @clean_text Demo.platform;
     get_slug := fun _ => "page";
     get_slug_js := @get_slug_js Demo.platform;
     is_hex_color := @is_hex_color Demo.platform;
     get_colors := @get_colors Demo.platform;
     resize := @resize Demo.platform;
     http_get := @http_get Demo.platform;
     ydl_files := @ydl_files Demo.platform;
     render_article := @render_article Demo.platform;
     render_home := @render_home Demo.platform;
     render_app_js := @render_app_js Demo.platform;
     json_dumps := @json_dumps Demo.platform;
     format_date := @format_date Demo.platform;
     iso_to_name := @iso_to_name Demo.platform;
     iso_to_native := @iso_to_native Demo.platform;
     assets_src := @assets_src Demo.platform |}.




(** A channel run, its main channel resolved, with a profile picture
    of the user's already in the build folder. *)
Definition pictured : World :=
  with_files (fun fs => <["out/build/profile.jpg" := "my picture"]> fs)
    Demo.channel_resolved.


(** A channel run, its main channel resolved, with the empty string as
    creator and as publisher. *)
Definition anonymous : World :=
  Demo.world (set_creator (Some "")
                (set_publisher (Some "")
                   (set_main_channel_id (Some "UC1")
                      (Demo.scraper CHANNEL "UC1")))).


(** The build folder and the cache that the prepared run of ["PL1,PL2"]
    leaves behind. *)
Definition again : World :=
  with_dirs (fun s => {["out/build"]} ∪ s) Demo.ready.






(** The prepared run of ["PL1,PL2"] with one more subtitle file for
    [v1], in Hebrew under its old code. *)
Definition subtitled : World :=
  with_files (fun fs => <["out/build/videos/v1/video.iw.vtt" := ""]> fs)
    Demo.ready.

End Cases.

(** * Properties *)

(** ** Dictionaries *)

Module PyDictFacts.
Import PyDict.

Section Facts.
Context {V : Type}.
Implicit Types (d : PyDict.t V) (k : string) (v : V).

Lemma get_set_eq d k v : get k (set k v d) = Some v.
Proof.
  induction d as [|[k' v'] r IH]; simpl.
  - by rewrite String.eqb_refl.
  - destruct (String.eqb k k') eqn:E; simpl.
    + by rewrite String.eqb_refl.
    + by rewrite E.
Qed.

Lemma get_set_ne d k k' v : k ≠ k' -> get k' (set k v d) = get k' d.
Proof.
  intros Hne. induction d as [|[k0 v0] r IH]; simpl.
  - destruct (String.eqb k' k) eqn:E; [|done].
    apply String.eqb_eq in E. congruence.
  - destruct (String.eqb k k0) eqn:E; simpl.
    + apply String.eqb_eq in E. subst k0.
      destruct (String.eqb k' k) eqn:E'; [|done].
      apply String.eqb_eq in E'. congruence.
    + by rewrite IH.
Qed.

Lemma get_set d k k' v :
  get k' (set k v d) = if String.eqb k' k then Some v else get k' d.
Proof.
  destruct (String.eqb k' k) eqn:E.
  - apply String.eqb_eq in E. subst. apply get_set_eq.
  - apply get_set_ne. intros ->. by rewrite String.eqb_refl in E.
Qed.

Lemma keys_set d k v :
  keys (set k v d) = if bool_decide (k ∈ keys d) then keys d
                     else (keys d ++ [k])%list.
Proof.
  induction d as [|[k' v'] r IH]; simpl; [done|].
  destruct (String.eqb k k') eqn:E; simpl.
  - apply String.eqb_eq in E. subst k'.
    rewrite bool_decide_true; [done | by left].
  - assert (k ≠ k') by (intros ->; by rewrite String.eqb_refl in E).
    rewrite IH. unfold keys. simpl.
    destruct (bool_decide (k ∈ map fst r)) eqn:B.
    + apply bool_decide_eq_true in B.
      rewrite bool_decide_true; [done | by right].
    + apply bool_decide_eq_false in B.
      rewrite bool_decide_false; [done|].
      intros [?|?]%elem_of_cons; done.
Qed.

Lemma NoDup_keys_set d k v : NoDup (keys d) -> NoDup (keys (set k v d)).
Proof.
  intros Hd. rewrite keys_set. case_bool_decide; [done|].
  apply NoDup_app. split_and!; [done | | apply NoDup_singleton].
  intros x Hx ->%list_elem_of_singleton. done.
Qed.

Lemma elem_of_keys_set d k k' v :
  k' ∈ keys (set k v d) <-> k' = k ∨ k' ∈ keys d.
Proof.
  rewrite keys_set. case_bool_decide.
  - split; [by right | intros [->|?]; done].
  - rewrite elem_of_app, list_elem_of_singleton. tauto.
Qed.

Lemma elem_of_keys_get d k : k ∈ keys d <-> is_Some (get k d).
Proof.
  induction d as [|[k' v'] r IH]; simpl.
  - split; [by intros ?%elem_of_nil | by intros [? ?]].
  - unfold keys in *. simpl. rewrite elem_of_cons, IH.
    destruct (String.eqb k k') eqn:E.
    + apply String.eqb_eq in E. split; eauto.
    + split; [intros [->|?]; [by rewrite String.eqb_refl in E|done]
             | by right].
Qed.

End Facts.

Section Last.
Context {A : Type} (key : A -> string).
Implicit Types (k : string) (xs ys : list A).

Lemma find_last_app k xs ys :
  find_last key k (xs ++ ys)
  = match find_last key k ys with
    | Some y => Some y
    | None => find_last key k xs
    end.
Proof.
  induction xs as [|x r IH]; simpl.
  - by destruct (find_last key k ys).
  - rewrite IH. by destruct (find_last key k ys).
Qed.

Lemma find_last_Some k xs y :
  find_last key k xs = Some y -> key y = k ∧ y ∈ xs.
Proof.
  induction xs as [|x r IH]; simpl; [done|].
  destruct (find_last key k r) as [z|] eqn:E.
  - intros [= ->]. destruct (IH eq_refl). split; [done | by right].
  - destruct (String.eqb k (key x)) eqn:E'; [|done].
    intros [= ->]. apply String.eqb_eq in E'. split; [done | by left].
Qed.

Lemma find_last_None k xs :
  find_last key k xs = None <-> k ∉ map key xs.
Proof.
  induction xs as [|x r IH]; simpl.
  - split; [intros _ ?%elem_of_nil; done | done].
  - rewrite not_elem_of_cons, <- IH.
    destruct (find_last key k r) eqn:E.
    + split; [done | by intros [_ ?]].
    + destruct (String.eqb k (key x)) eqn:E'.
      * apply String.eqb_eq in E'. split; [done | by intros [? _]].
      * split; [|done]. intros _. split; [|done].
        intros ->. by rewrite String.eqb_refl in E'.
Qed.

Lemma find_last_is_Some k xs :
  is_Some (find_last key k xs) <-> k ∈ map key xs.
Proof.
  rewrite <- not_eq_None_Some, find_last_None.
  split; [apply dec_stable | by intros ? ?].
Qed.

(** Filling a dictionary from a list keeps, for each key, the last
    element that has it. *)
Lemma get_fold_set k xs (d : PyDict.t A) :
  get k (fold_left (fun d x => set (key x) x d) xs d)
  = match find_last key k xs with
    | Some y => Some y
    | None => get k d
    end.
Proof.
  revert d. induction xs as [|x r IH]; intros d; simpl; [done|].
  rewrite IH, get_set.
  destruct (find_last key k r); [done|].
  by destruct (String.eqb k (key x)).
Qed.

Lemma keys_fold_set xs (d : PyDict.t A) :
  NoDup (keys d) ->
  NoDup (keys (fold_left (fun d x => set (key x) x d) xs d))
  ∧ forall k, k ∈ keys (fold_left (fun d x => set (key x) x d) xs d)
              <-> k ∈ keys d ∨ k ∈ map key xs.
Proof.
  revert d. induction xs as [|x r IH]; intros d Hd; simpl.
  - split; [done|]. intros k. rewrite elem_of_nil. tauto.
  - destruct (IH (set (key x) x d)) as [Hn He];
      [by apply NoDup_keys_set|].
    split; [done|]. intros k.
    rewrite He, elem_of_keys_set, elem_of_cons. tauto.
Qed.

Lemma get_comprehension k xs :
  get k (comprehension key xs) = find_last key k xs.
Proof.
  unfold comprehension. rewrite get_fold_set.
  by destruct (find_last key k xs).
Qed.

Lemma keys_comprehension xs :
  NoDup (keys (comprehension key xs))
  ∧ forall k, k ∈ keys (comprehension key xs) <-> k ∈ map key xs.
Proof.
  destruct (keys_fold_set xs empty) as [Hn He]; [constructor|].
  split; [done|]. intros k. unfold comprehension. rewrite He.
  unfold keys, empty. simpl. rewrite elem_of_nil. tauto.
Qed.

End Last.

Section Update.
Context {V : Type}.
Implicit Types (d other : PyDict.t V) (k : string).

Lemma find_last_fst_NoDup k other :
  NoDup (keys other) ->
  find_last fst k other = (fun v => (k, v)) <$> get k other.
Proof.
  induction other as [|[k' v'] r IH]; simpl; [done|].
  intros [Hk Hr]%NoDup_cons. rewrite (IH Hr).
  destruct (String.eqb k k') eqn:E.
  - apply String.eqb_eq in E. subst k'.
    destruct (get k r) eqn:G; [|done].
    exfalso. apply Hk, elem_of_keys_get. by rewrite G.
  - by destruct (get k r).
Qed.

(** [d.update(other)]: the values of [other] win, the rest of [d]
    stays. *)
Lemma get_update k d other :
  NoDup (keys other) ->
  get k (update d other)
  = match get k other with
    | Some v => Some v
    | None => get k d
    end.
Proof.
  intros Ho. unfold update.
  transitivity
    (match find_last fst k other with
     | Some kv => Some kv.2
     | None => get k d
     end).
  - clear Ho. revert d.
    induction other as [|[k' v'] r IH]; intros d; simpl; [done|].
    rewrite IH, get_set.
    destruct (find_last fst k r); [done|].
    by destruct (String.eqb k k').
  - rewrite find_last_fst_NoDup by done. by destruct (get k other).
Qed.

Lemma keys_update d other :
  NoDup (keys d) ->
  NoDup (keys (update d other))
  ∧ forall k, k ∈ keys (update d other) <-> k ∈ keys d ∨ k ∈ keys other.
Proof.
  unfold update. revert d.
  induction other as [|[k' v'] r IH]; intros d Hd; simpl.
  - split; [done|]. intros k. split; [by left|].
    by intros [?|?%elem_of_nil].
  - destruct (IH (set k' v' d)) as [Hn He]; [by apply NoDup_keys_set|].
    split; [done|]. intros k. rewrite He, elem_of_keys_set.
    change (keys ((k', v') :: r)) with (k' :: keys r).
    rewrite elem_of_cons. tauto.
Qed.

End Update.
End PyDictFacts.

(** ** Strings *)

Module PyStrFacts.

Lemma list_ascii_of_string_app (a b : string) :
  list_ascii_of_string (a +:+ b)
  = (list_ascii_of_string a ++ list_ascii_of_string b)%list.
Proof. induction a as [|c a IH]; simpl; [done | by rewrite IH]. Qed.

Lemma append_inj_r (s a b : string) : a +:+ s = b +:+ s -> a = b.
Proof.
  intros E. apply (f_equal list_ascii_of_string) in E.
  rewrite !list_ascii_of_string_app in E.
  apply app_inv_tail in E.
  rewrite <- (string_of_list_ascii_of_string a),
          <- (string_of_list_ascii_of_string b).
  by rewrite E.
Qed.

Lemma playlist_key_inj (p q : string) :
  playlist_key p = playlist_key q -> p = q.
Proof.
  unfold playlist_key. intros E.
  apply String.app_inj in E. by apply append_inj_r in E.
Qed.

Lemma playlist_key_videos (p : string) : playlist_key p ≠ "videos".
Proof. unfold playlist_key. simpl. discriminate. Qed.

(** [split] never answers the empty list. *)
Lemma split_on_nonempty (sep : ascii) (s : string) :
  PyStr.split_on sep s ≠ [].
Proof.
  destruct s as [|c r]; simpl; [done|].
  destruct (Ascii.eqb c sep); [done|].
  by destruct (PyStr.split_on sep r).
Qed.

(** Splitting the comma-joined ids gives the ids back. *)
Lemma split_string_no_comma (s : string) :
  PyStr.has_comma s = false -> PyStr.split_comma s = [s].
Proof.
  unfold PyStr.split_comma.
  induction s as [|c r IH]; simpl; [done|].
  intros [Hc Hr]%orb_false_iff. rewrite Hc, (IH Hr). done.
Qed.

Lemma split_append_comma (a b : string) :
  PyStr.has_comma a = false ->
  PyStr.split_comma (a +:+ "," +:+ b) = a :: PyStr.split_comma b.
Proof.
  unfold PyStr.split_comma.
  induction a as [|c r IH]; simpl; [done|].
  intros [Hc Hr]%orb_false_iff. rewrite Hc, (IH Hr). done.
Qed.

Lemma split_join_comma (ids : list string) :
  ids ≠ [] ->
  Forall (fun s => PyStr.has_comma s = false) ids ->
  PyStr.split_comma (PyStr.join_comma ids) = ids.
Proof.
  induction ids as [|a r IH]; [done|]. intros _ Hall.
  apply Forall_cons in Hall as [Ha Hr].
  destruct r as [|b r'].
  - simpl. by apply split_string_no_comma.
  - change (PyStr.join_comma (a :: b :: r'))
      with (a +:+ "," +:+ PyStr.join_comma (b :: r')).
    rewrite split_append_comma by done. f_equal. by apply IH.
Qed.

End PyStrFacts.

(** ** Running a method *)

Section Running.
Context {A B : Type}.

Lemma bind_ok (m : M A) (k : A -> M B) w a w' :
  m w = (Ok a, w') -> bind m k w = k a w'.
Proof. unfold bind. by intros ->. Qed.

Lemma bind_raise (m : M A) (k : A -> M B) w e w' :
  m w = (Raise e, w') -> bind m k w = (Raise e, w').
Proof. unfold bind. by intros ->. Qed.

End Running.

(** ** The video extraction pipeline *)

Section Extraction.
Context `{Collaborators}.
Import PyDictFacts PyStrFacts.

Lemma same_videos_refl w : playlist_cache_ok w -> same_videos w w.
Proof. by repeat split. Qed.

Lemma same_videos_trans w1 w2 w3 :
  same_videos w1 w2 -> same_videos w2 w3 -> same_videos w1 w3.
Proof.
  intros (?&?&?&?&?&Hf) (?&?&?&?&?&Hf').
  split_and!; try done; try congruence.
Qed.

Lemma get_videos_json_ok w pid :
  playlist_cache_ok w ->
  exists w', get_videos_json pid w = (Ok (fetched w pid), w')
             ∧ same_videos w w'.
Proof.
  intros Hok. unfold get_videos_json, fetched, bind, emit, modify,
    load_json. simpl.
  destruct (cache w !! playlist_key pid) as [doc|] eqn:E.
  - destruct (Hok _ _ E) as [l ->]. eexists. split; [done|].
    repeat split; simpl; try done.
  - eexists. split; [done|].
    repeat split; simpl; try done.
    + rewrite lookup_insert_ne; [done | apply playlist_key_videos].
    + intros q doc. simpl.
      destruct (decide (playlist_key pid = playlist_key q)) as [Eq|Ne].
      * rewrite <- Eq, lookup_insert_eq. intros [= <-]. eauto.
      * rewrite lookup_insert_ne by done. apply Hok.
    + intros q. unfold fetched. simpl.
      destruct (decide (playlist_key pid = playlist_key q)) as [Eq|Ne].
      * rewrite <- Eq, lookup_insert_eq.
        apply playlist_key_inj in Eq. subst q. by rewrite E.
      * by rewrite lookup_insert_ne.
Qed.

(** The merge loop returns, and its dictionary holds for every id the
    last video with that id among those already merged and those of the
    playlists, in order. *)
Lemma merge_playlists_ok pls d w :
  playlist_cache_ok w -> NoDup (PyDict.keys d) ->
  exists d' w',
    merge_playlists pls d w = (Ok d', w')
    ∧ same_videos w w'
    ∧ NoDup (PyDict.keys d')
    ∧ (forall k, k ∈ PyDict.keys d' <->
         k ∈ PyDict.keys d
         ∨ k ∈ map video_key
                 (List.concat (map (fun p => fetched w (playlist_id p)) pls)))
    ∧ (forall k, PyDict.get k d' =
         match find_last video_key k
                 (List.concat (map (fun p => fetched w (playlist_id p)) pls))
         with
         | Some v => Some v
         | None => PyDict.get k d
         end).
Proof.
  revert d w. induction pls as [|p r IH]; intros d w Hok Hd.
  - exists d, w. simpl.
    split; [done|]. split; [by apply same_videos_refl|].
    split; [done|]. split; [|done].
    intros k. rewrite elem_of_nil. tauto.
  - destruct (get_videos_json_ok w (playlist_id p) Hok) as (w1 & Hg & Hs).
    pose proof Hs as (_ & _ & _ & _ & Hok1 & Hf).
    set (vs := fetched w (playlist_id p)) in *.
    destruct (keys_comprehension video_key vs) as [Hcn Hce].
    destruct (keys_update d (PyDict.comprehension video_key vs) Hd)
      as [Hun Hue].
    destruct (IH _ w1 Hok1 Hun) as (d' & w' & Hm & Hs' & Hn & He & Hl).
    rewrite (map_ext _ _ (fun p => Hf (playlist_id p))) in He, Hl.
    exists d', w'.
    split; [simpl; rewrite (bind_ok _ _ _ _ _ Hg); exact Hm|].
    split; [by eapply same_videos_trans|].
    split; [done|]. split.
    + intros k. rewrite He, Hue, Hce. simpl.
      rewrite map_app, elem_of_app. fold vs. tauto.
    + intros k. rewrite Hl. simpl. rewrite find_last_app.
      destruct (find_last video_key k
                  (List.concat (map (fun p0 => fetched w (playlist_id p0)) r)));
        [done|].
      rewrite get_update by done. by rewrite get_comprehension.
Qed.

Lemma find_last_concat_None {A} (f : A -> list Video) k (l : list A) :
  (forall q, q ∈ l -> k ∉ map video_key (f q)) ->
  find_last video_key k (List.concat (map f l)) = None.
Proof.
  intros Hq. apply find_last_None. intros Hin.
  apply list_elem_of_fmap in Hin as (v & -> & Hv).
  apply list_elem_of_In, in_concat in Hv as (vs & Hvs & Hv).
  apply in_map_iff in Hvs as (q & <- & Hq').
  apply (Hq q); [by apply list_elem_of_In|].
  apply list_elem_of_fmap. exists v. split; [done | by apply list_elem_of_In].
Qed.

(** C1. With no cached [videos] document, [extract_videos_list] returns
    and saves one mapping keyed by video id: its keys are pairwise
    distinct and are exactly the ids of the videos of the resolved
    playlists; each id maps to the last video with that id in merging
    order, so a later playlist's record replaces an earlier one's. *)
Theorem extract_videos_list_merges w :
  cache w !! "videos" = None ->
  playlist_cache_ok w ->
  exists d w',
    extract_videos_list w = (Ok tt, w')
    ∧ cache w' !! "videos" = Some (DocVideos d)
    ∧ videos_ids (self w') = PyDict.keys d
    ∧ NoDup (PyDict.keys d)
    ∧ (forall k, k ∈ PyDict.keys d <-> k ∈ map video_key (all_fetched w))
    ∧ (forall k, PyDict.get k d = find_last video_key k (all_fetched w))
    ∧ (forall k v, PyDict.get k d = Some v ->
         video_key v = k ∧ v ∈ all_fetched w)
    ∧ (forall l1 p l2 k v,
         playlists (self w) = (l1 ++ p :: l2)%list ->
         find_last video_key k (fetched w (playlist_id p)) = Some v ->
         (forall q, q ∈ l2 ->
            k ∉ map video_key (fetched w (playlist_id q))) ->
         PyDict.get k d = Some v).
Proof.
  intros Hcold Hok.
  destruct (merge_playlists_ok (playlists (self w)) PyDict.empty w Hok)
    as (d & w1 & Hm & Hs & Hn & He & Hl); [constructor|].
  destruct Hs as (Hself & _ & _ & Hv & _ & _).
  fold (all_fetched w) in He, Hl.
  assert (Hget : forall k,
             PyDict.get k d = find_last video_key k (all_fetched w)).
  { intros k. rewrite Hl. by destruct (find_last video_key k (all_fetched w)). }
  exists d. eexists.
  split.
  { unfold extract_videos_list, bind, load_json, get_self.
    rewrite Hcold, Hm. simpl. reflexivity. }
  split; [simpl; apply lookup_insert_eq|].
  split; [done|]. split; [done|]. split.
  { intros k. rewrite He. unfold PyDict.keys, PyDict.empty. simpl.
    rewrite elem_of_nil. tauto. }
  split; [done|]. split.
  { intros k v. rewrite Hget. apply find_last_Some. }
  intros l1 p l2 k v Hpl Hp Hl2. rewrite Hget. unfold all_fetched.
  rewrite Hpl, map_app, concat_app. simpl.
  rewrite !find_last_app.
  rewrite (find_last_concat_None (fun q => fetched w (playlist_id q)))
    by done.
  by rewrite Hp.
Qed.

(** C2. A cached [videos] document is returned as it is: the cache, the
    files and the trace of requests are those of before, so no
    [get_videos_json] took place; and a second extraction after one that
    returned changes nothing at all. *)
Theorem extract_videos_list_warm :
  (forall w doc,
      cache w !! "videos" = Some doc ->
      cache (extract_videos_list w).2 = cache w
      ∧ trace (extract_videos_list w).2 = trace w
      ∧ files (extract_videos_list w).2 = files w
      ∧ (forall d, doc = DocVideos d ->
           extract_videos_list w
           = (Ok tt, with_self (set_videos_ids (PyDict.keys d)) w)))
  ∧ (forall w w1,
        extract_videos_list w = (Ok tt, w1) ->
        is_Some (cache w1 !! "videos")
        ∧ extract_videos_list w1 = (Ok tt, w1)).
Proof.
  split.
  - intros w doc Hdoc.
    unfold extract_videos_list, bind, load_json. rewrite Hdoc.
    destruct doc; simpl; split_and!; try done.
    all: by intros ? [= <-].
  - intros w w1.
    unfold extract_videos_list at 1. unfold bind, load_json, get_self.
    destruct (cache w !! "videos") as [doc|] eqn:Hdoc.
    + destruct doc as [d| |d]; simpl; intros [= <-]; simpl.
      all: split; [by rewrite Hdoc|].
      all: unfold extract_videos_list, bind, load_json; simpl.
      all: rewrite Hdoc; simpl; done.
    + destruct (merge_playlists (playlists (self w)) PyDict.empty w)
        as [[d|e] w2] eqn:Hm; simpl; [|discriminate].
      intros [= <-]. simpl.
      split; [by rewrite lookup_insert_eq|].
      unfold extract_videos_list, bind, load_json; simpl.
      rewrite lookup_insert_eq. simpl. done.
Qed.

End Extraction.

Lemma extract_videos_list_merges_witness :
  cache Demo.resolved !! "videos" = None
  ∧ playlist_cache_ok Demo.resolved
  ∧ exists d w',
      extract_videos_list Demo.resolved = (Ok tt, w')
      ∧ cache w' !! "videos" = Some (DocVideos d)
      ∧ NoDup (PyDict.keys d)
      ∧ (forall k, PyDict.get k d
                   = find_last video_key k (all_fetched Demo.resolved)).
Proof.
  assert (H1 : cache Demo.resolved !! "videos" = None) by reflexivity.
  assert (H2 : playlist_cache_ok Demo.resolved).
  { intros pid doc. simpl. rewrite lookup_empty. discriminate. }
  split; [exact H1|]. split; [exact H2|].
  destruct (extract_videos_list_merges Demo.resolved H1 H2)
    as (d & w' & E & Hc & _ & Hn & _ & Hg & _).
  exists d, w'. auto.
Defined.

Lemma extract_videos_list_warm_witness :
  extract_videos_list Demo.resolved = (Ok tt, Demo.extracted)
  ∧ cache Demo.extracted !! "videos" = Some (DocVideos Demo.merged)
  ∧ cache (extract_videos_list Demo.extracted).2 = cache Demo.extracted
  ∧ trace (extract_videos_list Demo.extracted).2 = trace Demo.extracted
  ∧ extract_videos_list Demo.extracted = (Ok tt, Demo.extracted).
Proof.
  assert (H1 : extract_videos_list Demo.resolved = (Ok tt, Demo.extracted))
    by (vm_compute; reflexivity).
  assert (H2 : cache Demo.extracted !! "videos"
               = Some (DocVideos Demo.merged))
    by (vm_compute; reflexivity).
  destruct extract_videos_list_warm as [Hwarm Hagain].
  destruct (Hwarm Demo.extracted _ H2) as (Hc & Ht & _).
  destruct (Hagain Demo.resolved Demo.extracted H1) as [_ Hsame].
  auto.
Defined.

(** ** The playlist resolver *)

Section Resolver.
Context `{Collaborators}.
Import PyStrFacts.

(** Resolving a list of ids asks the platform once per id, in order, and
    touches nothing else. *)
Lemma for_list_from_id (l : list string) w :
  exists w',
    for_list l Playlist_from_id w
    = (Ok (map (fun pid => make_playlist pid (api_playlist pid)) l), w')
    ∧ self w' = self w ∧ cache w' = cache w ∧ files w' = files w
    ∧ dirs w' = dirs w
    ∧ trace w' = (trace w ++ map EvPlaylist l)%list.
Proof.
  revert w. induction l as [|pid r IH]; intros w.
  - exists w. simpl. by rewrite app_nil_r.
  - destruct (IH (with_event (EvPlaylist pid) w))
      as (w' & E & Hs & Hc & Hf & Hd & Ht).
    exists w'. split.
    + simpl. unfold bind at 1. unfold Playlist_from_id at 1.
      unfold bind at 1. simpl. unfold bind at 1. rewrite E. done.
    + split_and!; try done. rewrite Ht. simpl. by rewrite <- app_assoc.
Qed.

Lemma get_channel_json_if (ident : option string) (b : bool) :
  (if b then get_channel_json ident true else get_channel_json ident false)
  = get_channel_json ident b.
Proof. by destruct b. Qed.

Lemma playlist_id_resolved (l : list string) :
  map playlist_id (map (fun pid => make_playlist pid (api_playlist pid)) l)
  = l.
Proof. induction l as [|x r IH]; simpl; [done | by rewrite IH]. Qed.

(** C3. For a user or a channel, [extract_playlists] returns; the ids of
    the resolved playlists are pairwise distinct, and they are the ids of
    the channel's playlists together with its uploads playlist, which is
    there whether the channel lists it or not. *)
Theorem extract_playlists_channel w :
  is_user (self w) || is_channel (self w) = true ->
  let chan := api_channel (Some (youtube_id (self w))) (is_user (self w)) in
  exists w',
    extract_playlists w = (Ok tt, w')
    ∧ main_channel_id (self w') = Some (ch_id chan)
    ∧ NoDup (map playlist_id (playlists (self w')))
    ∧ ch_uploads chan ∈ map playlist_id (playlists (self w'))
    ∧ (forall pid,
         pid ∈ map playlist_id (playlists (self w')) <->
         pid ∈ api_channel_playlists (ch_id chan) ∨ pid = ch_uploads chan)
    ∧ (forall p, p ∈ playlists (self w') ->
         p = make_playlist (playlist_id p) (api_playlist (playlist_id p))).
Proof.
  intros Hkind chan.
  set (ids := (api_channel_playlists (ch_id chan) ++ [ch_uploads chan])%list).
  set (w1 := with_self (set_main_channel_id (Some (ch_id chan)))
               (with_event (EvChannel (Some (youtube_id (self w)))
                              (is_user (self w))) w)).
  set (w2 := with_event (EvChannelPlaylists (ch_id chan)) w1).
  destruct (for_list_from_id (elements (list_to_set ids : gset string)) w2)
    as (w3 & E & Hs & _).
  eexists. split.
  { unfold extract_playlists, bind, get_self. rewrite Hkind.
    rewrite get_channel_json_if.
    unfold get_channel_json, get_channel_playlists_json, set_attr, bind,
      emit, modify, ret.
    fold chan. fold w1. fold w2. fold ids. rewrite E. reflexivity. }
  simpl. rewrite playlist_id_resolved.
  split; [by rewrite Hs|].
  split; [apply NoDup_elements|].
  split; [apply elem_of_elements, elem_of_list_to_set; subst ids;
          rewrite elem_of_app, list_elem_of_singleton; by right|].
  split.
  - intros pid. rewrite elem_of_elements, elem_of_list_to_set. subst ids.
    by rewrite elem_of_app, list_elem_of_singleton.
  - intros p (pid & -> & _)%list_elem_of_fmap. done.
Qed.

(** C8. For an explicit playlist list, [extract_playlists] returns; the
    identifier is split on commas, every id of the split is resolved on
    its own, and the main channel is the creator of the first id. *)
Theorem extract_playlists_list w :
  collection_type (self w) = PLAYLIST ->
  exists first rest w',
    PyStr.split_comma (youtube_id (self w)) = first :: rest
    ∧ extract_playlists w = (Ok tt, w')
    ∧ main_channel_id (self w')
      = Some (creator_id (make_playlist first (api_playlist first)))
    ∧ playlists (self w')
      = map (fun pid => make_playlist pid (api_playlist pid))
          (elements (list_to_set (PyStr.split_comma (youtube_id (self w)))
                     : gset string))
    ∧ NoDup (map playlist_id (playlists (self w')))
    ∧ (forall pid,
         pid ∈ map playlist_id (playlists (self w')) <->
         pid ∈ PyStr.split_comma (youtube_id (self w))).
Proof.
  intros Hkind.
  destruct (PyStr.split_comma (youtube_id (self w))) as [|first rest] eqn:Hsplit.
  { by apply split_on_nonempty in Hsplit. }
  set (w1 := with_self
               (set_main_channel_id
                  (Some (creator_id (make_playlist first (api_playlist first)))))
               (with_event (EvPlaylist first) w)).
  destruct (for_list_from_id
              (elements (list_to_set (first :: rest) : gset string)) w1)
    as (w3 & E & Hs & _).
  exists first, rest. eexists. split; [done|]. split.
  { unfold extract_playlists, bind, get_self, is_user, is_channel,
      is_playlist.
    rewrite Hkind. simpl. rewrite Hsplit.
    unfold Playlist_from_id, set_attr, bind, emit, modify, ret in *.
    subst w1. simpl in E |- *. rewrite E. reflexivity. }
  cbn [self with_self playlists set_playlists main_channel_id].
  rewrite playlist_id_resolved.
  split; [by rewrite Hs|]. split; [done|].
  split; [apply NoDup_elements|].
  intros pid. rewrite elem_of_elements.
  change ({[first]} ∪ list_to_set rest : gset string)
    with (list_to_set (first :: rest) : gset string).
  by rewrite elem_of_list_to_set.
Qed.

End Resolver.

Lemma extract_playlists_channel_witness :
  is_user (self Demo.channel_world) || is_channel (self Demo.channel_world)
  = true
  ∧ exists w',
      extract_playlists Demo.channel_world = (Ok tt, w')
      ∧ NoDup (map playlist_id (playlists (self w')))
      ∧ "UU1" ∈ map playlist_id (playlists (self w')).
Proof.
  split; [reflexivity|].
  destruct (extract_playlists_channel Demo.channel_world eq_refl)
    as (w' & E & _ & Hn & Hu & _).
  exists w'. auto.
Defined.

Lemma extract_playlists_list_witness :
  collection_type (self Demo.list_world) = PLAYLIST
  ∧ exists w',
      extract_playlists Demo.list_world = (Ok tt, w')
      ∧ main_channel_id (self w') = Some "UC-PL1"
      ∧ (forall pid, pid ∈ map playlist_id (playlists (self w')) <->
                     pid ∈ ["PL1"; "PL2"]).
Proof.
  split; [reflexivity|].
  destruct (extract_playlists_list Demo.list_world eq_refl)
    as (first & rest & w' & Hsplit & E & Hm & _ & _ & Hids).
  injection Hsplit as <- <-.
  exists w'. auto.
Defined.

(** ** Stepping through a method *)

Section Stepping.
Context {A B : Type}.
Implicit Types (k : A -> M B) (w : World).

Lemma bind_ret (a : A) k w : bind (ret a) k w = k a w.
Proof. done. Qed.

Lemma bind_get_self (k : Youtube2Zim -> M B) w :
  bind get_self k w = k (self w) w.
Proof. done. Qed.

Lemma bind_modify f (k : unit -> M B) w : bind (modify f) k w = k tt (f w).
Proof. done. Qed.

Lemma bind_snd (m : M A) k w :
  (bind m k w).2
  = match m w with
    | (Ok a, w1) => (k a w1).2
    | (Raise _, w1) => w1
    end.
Proof. unfold bind. by destruct (m w) as [[?|?] ?]. Qed.

Lemma keeps_bind {X} (f : Youtube2Zim -> X) (m : M A) k :
  keeps f m -> (forall a, keeps f (k a)) -> keeps f (bind m k).
Proof.
  intros Hm Hk w. rewrite bind_snd. specialize (Hm w).
  destruct (m w) as [[a|e] w1]; simpl in *; [|done].
  by rewrite Hk.
Qed.

End Stepping.

Section Keeping.
Context `{Collaborators} {X : Type} (f : Youtube2Zim -> X).

Lemma keeps_ret {A} (a : A) : keeps f (ret a).
Proof. done. Qed.

Lemma keeps_raise {A} e : keeps f (raise (A := A) e).
Proof. done. Qed.

Lemma keeps_path_exists p : keeps f (path_exists p).
Proof. done. Qed.

Lemma keeps_when c m : keeps f m -> keeps f (when c m).
Proof. by destruct c. Qed.

Lemma keeps_shutil_copy src dst : keeps f (shutil_copy src dst).
Proof. intros w. unfold shutil_copy. by destruct (files w !! src). Qed.

Lemma keeps_resize_image p a b m to : keeps f (resize_image p a b m to).
Proof. intros w. unfold resize_image. by destruct (files w !! p). Qed.

Lemma keeps_local_or x var l : keeps f (local_or x var l).
Proof. intros w. unfold local_or. by destruct (truthy x), l. Qed.

Lemma keeps_modify_self g :
  (forall o, f (g o) = f o) -> keeps f (modify (with_self g)).
Proof. intros Hg w. simpl. apply Hg. Qed.

Lemma keeps_if {A} (c : bool) (a b : M A) :
  keeps f a -> keeps f b -> keeps f (if c then a else b).
Proof. by destruct c. Qed.

Lemma keeps_read_colors p :
  keeps f (fun w0 : World =>
             match files w0 !! p with
             | Some b => (Ok (Some (get_colors b)), w0)
             | None => (Raise (FileNotFoundError p), w0)
             end).
Proof. intros w. by destruct (files w !! p). Qed.

End Keeping.

(** ** Metadata reconciliation *)

Ltac keeps_tac :=
  repeat first
    [ apply keeps_bind; [|intros ?]
    | apply keeps_ret | apply keeps_raise | apply keeps_path_exists
    | apply keeps_when | apply keeps_shutil_copy
    | apply keeps_resize_image | apply keeps_local_or
    | apply keeps_if | apply keeps_read_colors
    | apply keeps_modify_self; intros ?; reflexivity ].

Section Metadata.
Context `{Collaborators}.

Lemma bind_ok_snd {A B} (m : M A) (k : A -> M B) w a :
  (m w).1 = Ok a -> bind m k w = k a (m w).2.
Proof. unfold bind. destruct (m w) as [r w1]. simpl. by intros ->. Qed.

Lemma bind_when {B} c m (k : unit -> M B) w :
  bind (when c m) k w = if c then bind m k w else k tt w.
Proof. by destruct c. Qed.

Lemma save_channel_branding_ok dir c b w :
  (save_channel_branding dir (Some c) b w).1 = Ok tt
  ∧ self (save_channel_branding dir (Some c) b w).2 = self w.
Proof.
  unfold save_channel_branding, bind, emit, modify, mkdir, write_file,
    modify.
  simpl. by destruct b, ((api_channel_images c).2).
Qed.

Lemma auto_title_ok {B} o chan (k : string -> M B) w :
  bind (if is_playlist o && (List.length (playlists o) =? 1)%nat
        then match playlists o with
             | p :: _ => ret (pl_title p)
             | [] => raise (IndexError "list index out of range")
             end
        else ret (PyStr.strip (ch_title chan))) k w
  = k (auto_title o chan) w.
Proof.
  unfold auto_title, single_playlist.
  destruct (is_playlist o); simpl; [|done].
  by destruct (playlists o) as [|p [|q r]].
Qed.

Lemma auto_description_ok {B} o chan (k : string -> M B) w :
  bind (if is_playlist o && (List.length (playlists o) =? 1)%nat
        then match playlists o with
             | p :: _ => ret (clean_text (pl_description p))
             | [] => raise (IndexError "list index out of range")
             end
        else ret (clean_text (ch_description chan))) k w
  = k (auto_description o chan) w.
Proof.
  unfold auto_description, single_playlist.
  destruct (is_playlist o); simpl; [|done].
  by destruct (playlists o) as [|p [|q r]].
Qed.

(** The metadata attributes once [update_metadata] is over, whether it
    returned or a later branding step raised. *)
Lemma update_metadata_metadata w c :
  main_channel_id (self w) = Some c ->
  let o := self w in
  let chan := api_channel (Some c) false in
  let t := Some (or_else (title o) (auto_title o chan)) in
  let d := Some (or_else (description o) (auto_description o chan)) in
  let p := Some (or_else (publisher o) "Kiwix") in
  let n := Some "youtube-{ident}_{lang}_all" in
  let tg := Some (final_tags (tags o)) in
  metadata (self (update_metadata w).2)
  = (t, d, creator_after o chan, p, n, tg,
     zim_info_update t d (creator_after o chan) p n tg (zim_info o)).
Proof.
  intros Hc o chan t d p n tg.
  unfold update_metadata. rewrite bind_get_self. fold o.
  replace (main_channel_id o) with (Some c).
  unfold get_channel_json. unfold bind at 1. unfold bind at 1.
  unfold emit at 1, modify at 1. unfold ret at 1. fold chan.
  destruct (save_channel_branding_ok (channels_dir o) c true
              (with_event (EvChannel (Some c) false) w)) as [Hb Hs].
  rewrite (bind_ok_snd _ _ _ _ Hb).
  remember (save_channel_branding (channels_dir o) (Some c) true
              (with_event (EvChannel (Some c) false) w)).2 as wb eqn:Hwb.
  clear Hwb Hb. simpl in Hs. cbv zeta.
  rewrite auto_title_ok, auto_description_ok.
  unfold set_attr. rewrite !bind_modify. rewrite bind_when.
  unfold creator_after.
  destruct (creator o) as [cr|] eqn:Hcr.
  - rewrite bool_decide_false by done.
    rewrite !bind_modify, bind_get_self, bind_modify.
    match goal with
    | |- context [(bind ?m ?k ?w0).2] =>
        rewrite (keeps_bind metadata m k ltac:(keeps_tac)
                   ltac:(intros ?; keeps_tac) w0)
    end.
    unfold metadata. simpl. rewrite Hs. fold o. rewrite Hcr. reflexivity.
  - rewrite bool_decide_true by done.
    destruct (is_playlist o) eqn:Hp.
    all: rewrite !bind_modify, bind_get_self, bind_modify.
    all: match goal with
         | |- context [(bind ?m ?k ?w0).2] =>
             rewrite (keeps_bind metadata m k ltac:(keeps_tac)
                        ltac:(intros ?; keeps_tac) w0)
         end.
    all: unfold metadata; simpl; rewrite Hs; fold o; rewrite ?Hp;
      reflexivity.
Qed.

Lemma or_else_truthy x d : truthy x = true -> Some (or_else x d) = x.
Proof.
  destruct x as [s|]; simpl; [|done].
  by destruct (String.eqb s "").
Qed.

Lemma or_else_falsy x d : truthy x = false -> or_else x d = d.
Proof.
  destruct x as [s|]; simpl; [|done].
  by destruct (String.eqb s "").
Qed.

(** C4, amended. After [update_metadata], a non-empty user title is the
    final title; with none (or an empty one) the final title is the title
    of the single playlist when the collection is a playlist list that
    resolved to exactly one playlist, and else the main channel's title
    with the white space around it stripped.  The description follows
    the same rule, its derived value being the cleaned description of
    that playlist, or of the main channel. *)
Theorem update_metadata_title w c :
  main_channel_id (self w) = Some c ->
  let o := self w in
  let chan := api_channel (Some c) false in
  let o' := self (update_metadata w).2 in
  (truthy (title o) = true -> title o' = title o)
  ∧ (truthy (title o) = false ->
     forall p, is_playlist o = true -> playlists o = [p] ->
               title o' = Some (pl_title p))
  ∧ (truthy (title o) = false -> single_playlist o = false ->
     title o' = Some (PyStr.strip (ch_title chan)))
  ∧ (truthy (description o) = true -> description o' = description o)
  ∧ (truthy (description o) = false ->
     forall p, is_playlist o = true -> playlists o = [p] ->
               description o' = Some (clean_text (pl_description p)))
  ∧ (truthy (description o) = false -> single_playlist o = false ->
     description o' = Some (clean_text (ch_description chan)))
  ∧ zi_title (zim_info o') = title o'
  ∧ zi_description (zim_info o') = description o'.
Proof.
  intros Hc o chan o'.
  pose proof (update_metadata_metadata w c Hc) as Hm.
  cbv zeta in Hm. fold o chan o' in Hm. unfold metadata in Hm.
  injection Hm as Ht Hd _ _ _ _ Hz.
  rewrite Hz, Ht, Hd. simpl.
  split_and!; try done.
  - apply or_else_truthy.
  - intros Hu p Hp Hpl. rewrite or_else_falsy by done.
    unfold auto_title, single_playlist. by rewrite Hp, Hpl.
  - intros Hu Hs. rewrite or_else_falsy by done.
    unfold auto_title. by rewrite Hs.
  - apply or_else_truthy.
  - intros Hu p Hp Hpl. rewrite or_else_falsy by done.
    unfold auto_description, single_playlist. by rewrite Hp, Hpl.
  - intros Hu Hs. rewrite or_else_falsy by done.
    unfold auto_description. by rewrite Hs.
Qed.

(** C5. Whatever name the user supplied, [update_metadata] replaces it by
    the unformatted template, in the object and in the metadata handed
    to the packager. *)
Theorem update_metadata_name_overwritten w c n :
  main_channel_id (self w) = Some c ->
  name (self w) = Some n ->
  name (self (update_metadata w).2) = Some "youtube-{ident}_{lang}_all"
  ∧ zi_name (zim_info (self (update_metadata w).2))
    = Some "youtube-{ident}_{lang}_all".
Proof.
  intros Hc _.
  pose proof (update_metadata_metadata w c Hc) as Hm.
  cbv zeta in Hm. unfold metadata in Hm.
  injection Hm as _ _ _ _ Hn _ Hz.
  by rewrite Hz, Hn.
Qed.

(** C6. After [update_metadata] the tags are the user's tags, or
    ["youtube"] when there are none, with ["_videos:yes"] appended at the
    end when it was not among them; it then occurs exactly once, and
    with no user tags the list is ["youtube"; "_videos:yes"]. *)
Theorem update_metadata_tags w c :
  main_channel_id (self w) = Some c ->
  let o := self w in
  let o' := self (update_metadata w).2 in
  (tags o = None ∨ tags o = Some [] ->
   tags o' = Some ["youtube"; "_videos:yes"])
  ∧ (forall l, tags o = Some l -> l ≠ [] -> "_videos:yes" ∉ l ->
       tags o' = Some (l ++ ["_videos:yes"])%list
       ∧ count_occ string_dec (l ++ ["_videos:yes"])%list "_videos:yes"
         = 1%nat)
  ∧ (forall l, tags o = Some l -> "_videos:yes" ∈ l -> tags o' = Some l)
  ∧ zi_tags (zim_info o') = tags o'.
Proof.
  intros Hc o o'.
  pose proof (update_metadata_metadata w c Hc) as Hm.
  cbv zeta in Hm. fold o o' in Hm. unfold metadata in Hm.
  injection Hm as _ _ _ _ _ Ht Hz.
  rewrite Hz, Ht. simpl. split_and!; try done.
  - by intros [-> | ->].
  - intros l -> Hne Hnot. unfold final_tags.
    destruct l as [|x r]; [done|].
    rewrite bool_decide_false by done. split; [done|].
    rewrite count_occ_app.
    rewrite (proj1 (count_occ_not_In string_dec (x :: r) _))
      by (by rewrite <- list_elem_of_In).
    cbn [count_occ]. by destruct (string_dec _ _).
  - intros l -> Hin. unfold final_tags.
    destruct l as [|x r]; [by apply elem_of_nil in Hin|].
    by rewrite bool_decide_true.
Qed.

End Metadata.

(** The channel of the example has the title ["  My Channel "]: the final
    title is ["My Channel"], not the channel's title as it stands. *)
Lemma update_metadata_title_counterexample :
  main_channel_id (self Demo.channel_resolved) = Some "UC1"
  ∧ ¬ title_as_specified Demo.channel_resolved "UC1".
Proof.
  split; [reflexivity|]. intros [_ Hd].
  specialize (Hd eq_refl). vm_compute in Hd. discriminate.
Qed.

Lemma update_metadata_title_witness :
  main_channel_id (self Demo.channel_resolved) = Some "UC1"
  ∧ main_channel_id (self Demo.named) = Some "UC1"
  ∧ title (self (update_metadata Demo.channel_resolved).2)
    = Some "My Channel"
  ∧ title (self (update_metadata Demo.named).2) = Some "My title".
Proof.
  destruct (update_metadata_title Demo.channel_resolved "UC1" eq_refl)
    as (_ & _ & Hchan & _).
  destruct (update_metadata_title Demo.named "UC1" eq_refl) as (Huser & _).
  split; [reflexivity|]. split; [reflexivity|].
  split; [exact (Hchan eq_refl eq_refl) | exact (Huser eq_refl)].
Defined.

Lemma update_metadata_name_overwritten_witness :
  main_channel_id (self Demo.named) = Some "UC1"
  ∧ name (self Demo.named) = Some "my_archive"
  ∧ name (self (update_metadata Demo.named).2)
    = Some "youtube-{ident}_{lang}_all"
  ∧ name (self (update_metadata Demo.named).2) ≠ name (self Demo.named).
Proof.
  destruct (update_metadata_name_overwritten Demo.named "UC1" "my_archive"
              eq_refl eq_refl) as [Hn _].
  split; [reflexivity|]. split; [reflexivity|]. split; [exact Hn|].
  rewrite Hn. discriminate.
Defined.

Lemma update_metadata_tags_witness :
  main_channel_id (self Demo.tagged) = Some "UC1"
  ∧ main_channel_id (self Demo.channel_resolved) = Some "UC1"
  ∧ tags (self (update_metadata Demo.tagged).2)
    = Some ["kids"; "_videos:yes"]
  ∧ tags (self (update_metadata Demo.channel_resolved).2)
    = Some ["youtube"; "_videos:yes"].
Proof.
  destruct (update_metadata_tags Demo.tagged "UC1" eq_refl)
    as (_ & Happend & _).
  destruct (update_metadata_tags Demo.channel_resolved "UC1" eq_refl)
    as (Hnone & _).
  split; [reflexivity|]. split; [reflexivity|]. split.
  - apply (Happend ["kids"] eq_refl); [discriminate|].
    intros Hin. by apply list_elem_of_singleton in Hin.
  - apply Hnone. by left.
Defined.

(** ** Quiet steps *)

Section Quiet.
Context `{Collaborators}.

Lemma quiet_step_refl w : quiet_step w w.
Proof. split; [done|]. exists []. by rewrite app_nil_r. Qed.

Lemma quiet_step_trans w1 w2 w3 :
  quiet_step w1 w2 -> quiet_step w2 w3 -> quiet_step w1 w3.
Proof.
  intros [Hs (evs & Ht & Hq)] [Hs' (evs' & Ht' & Hq')].
  split; [congruence|]. exists (evs ++ evs')%list.
  split; [by rewrite Ht', Ht, app_assoc | by apply Forall_app].
Qed.

Lemma quiet_step_same w w' :
  self w' = self w -> trace w' = trace w -> quiet_step w w'.
Proof. intros Hs Ht. split; [done|]. exists []. by rewrite app_nil_r. Qed.

Lemma quiet_ret {A} (a : A) : quiet (ret a).
Proof. intros w. apply quiet_step_refl. Qed.

Lemma quiet_raise {A} e : quiet (raise (A := A) e).
Proof. intros w. apply quiet_step_refl. Qed.

Lemma quiet_bind {A B} (m : M A) (k : A -> M B) :
  quiet m -> (forall a, quiet (k a)) -> quiet (bind m k).
Proof.
  intros Hm Hk w. rewrite bind_snd. specialize (Hm w).
  destruct (m w) as [[a|e] w1]; simpl in *; [|done].
  eapply quiet_step_trans; [done | apply Hk].
Qed.

Lemma quiet_if {A} (c : bool) (a b : M A) :
  quiet a -> quiet b -> quiet (if c then a else b).
Proof. by destruct c. Qed.

Lemma quiet_when c m : quiet m -> quiet (when c m).
Proof. destruct c; [done | intros _; apply quiet_ret]. Qed.

Lemma quiet_for_each {A} (l : list A) body :
  (forall x, quiet (body x)) -> quiet (for_each l body).
Proof.
  intros Hb. induction l as [|x r IH]; simpl; [apply quiet_ret|].
  apply quiet_bind; [apply Hb | by intros _].
Qed.

Lemma quiet_get_self : quiet get_self.
Proof. intros w. apply quiet_step_refl. Qed.

Lemma quiet_path_exists p : quiet (path_exists p).
Proof. intros w. apply quiet_step_refl. Qed.

Lemma quiet_modify f :
  (forall w, self (f w) = self w ∧ trace (f w) = trace w) ->
  quiet (modify f).
Proof. intros Hf w. by apply quiet_step_same; apply Hf. Qed.

Lemma quiet_mkdir d : quiet (mkdir d).
Proof. by apply quiet_modify. Qed.

Lemma quiet_write_file p s : quiet (write_file p s).
Proof. by apply quiet_modify. Qed.

Lemma quiet_rmtree d i : quiet (rmtree d i).
Proof.
  unfold rmtree. apply quiet_bind; [apply quiet_path_exists|].
  intros present. repeat apply quiet_if.
  - by apply quiet_modify.
  - apply quiet_ret.
  - apply quiet_raise.
Qed.

Lemma quiet_emit e : is_extraction e = false -> quiet (emit e).
Proof.
  intros He w. split; [done|]. exists [e]. split; [done|].
  by apply Forall_singleton.
Qed.

Lemma quiet_shutil_move src dst : quiet (shutil_move src dst).
Proof.
  intros w. unfold shutil_move.
  destruct (files w !! src); apply quiet_step_refl || by apply quiet_step_same.
Qed.

Lemma quiet_resize_image p a b m to : quiet (resize_image p a b m to).
Proof.
  intros w. unfold resize_image.
  destruct (files w !! p); apply quiet_step_refl || by apply quiet_step_same.
Qed.

Lemma quiet_save_file url p : quiet (save_file url p).
Proof.
  unfold save_file. apply quiet_bind; [by apply quiet_emit|].
  intros _. apply quiet_write_file.
Qed.

Lemma quiet_attr_startswith img p : quiet (attr_startswith img p).
Proof. destruct img; [apply quiet_ret | apply quiet_raise]. Qed.

Lemma quiet_attr_exists img : quiet (attr_exists img).
Proof. destruct img; [apply quiet_raise | apply quiet_path_exists]. Qed.

Lemma quiet_check_image flag image dest a b :
  quiet (check_image flag image dest a b).
Proof.
  unfold check_image. destruct image as [img|]; [|apply quiet_ret].
  apply quiet_when. apply quiet_bind; [apply quiet_attr_startswith|].
  intros http. apply quiet_bind; [|intros _; apply quiet_resize_image].
  apply quiet_if; [apply quiet_save_file|].
  apply quiet_bind; [apply quiet_attr_exists|].
  intros present. apply quiet_if; [apply quiet_raise | apply quiet_shutil_move].
Qed.

Lemma quiet_check_color msg color : quiet (check_color msg color).
Proof.
  unfold check_color. destruct color; [|apply quiet_ret].
  apply quiet_if; [apply quiet_raise | apply quiet_ret].
Qed.

Lemma quiet_make_build_folder : quiet make_build_folder.
Proof.
  unfold make_build_folder.
  apply quiet_bind; [apply quiet_get_self | intros o].
  apply quiet_bind; [apply quiet_mkdir | intros _].
  apply quiet_bind; [apply quiet_path_exists | intros present].
  apply quiet_bind; [apply quiet_when, quiet_rmtree | intros _].
  apply quiet_bind; [|intros _].
  { unfold copytree_assets. apply quiet_bind; [apply quiet_mkdir|].
    intros _. apply quiet_for_each. intros f. apply quiet_write_file. }
  repeat (apply quiet_bind; [apply quiet_mkdir | intros _]).
  apply quiet_mkdir.
Qed.

Lemma quiet_credentials_ok : quiet credentials_ok.
Proof.
  unfold credentials_ok. apply quiet_bind; [by apply quiet_emit|].
  intros _. apply quiet_ret.
Qed.

(** Raising now, or after quiet steps. *)
Lemma stops_bind_now {A B} (m : M A) (k : A -> M B) w :
  stops m w -> stops (bind m k) w.
Proof.
  intros (e & w' & E & Hq). exists e, w'.
  split; [by apply bind_raise | done].
Qed.

Lemma stops_bind_later {A B} (m : M A) (k : A -> M B) w :
  quiet m ->
  (forall a w1, self w1 = self w -> stops (k a) w1) ->
  stops (bind m k) w.
Proof.
  intros Hm Hk. specialize (Hm w).
  destruct (m w) as [[a|e] w1] eqn:E; simpl in Hm.
  - destruct (Hk a w1 (proj1 Hm)) as (e & w' & E' & Hq).
    exists e, w'. split; [by rewrite (bind_ok _ _ _ _ _ E)|].
    by eapply quiet_step_trans.
  - exists e, w1. split; [by apply bind_raise | done].
Qed.

Lemma stops_bind_get_self {B} (k : Youtube2Zim -> M B) w :
  stops (k (self w)) w -> stops (bind get_self k) w.
Proof. intros (e & w' & E & Hq). by exists e, w'. Qed.

End Quiet.

(** ** Branding checks *)

Section Branding.
Context `{Collaborators}.

Lemma invalid_color_truthy x : invalid_color x = true -> truthy x = true.
Proof.
  destruct x as [c|]; simpl; [|done]. by intros [? _]%andb_true_iff.
Qed.

Lemma check_color_raises msg x w :
  invalid_color x = true ->
  exists c, x = Some c
            ∧ check_color msg x w = (Raise (ValueError (msg +:+ c)), w).
Proof.
  destruct x as [c|]; simpl; [|done]. intros Hx. exists c.
  split; [done|]. unfold check_color. simpl.
  apply andb_true_iff in Hx as [-> ->]. done.
Qed.

Lemma check_color_accepts msg x w :
  invalid_color x = false -> check_color msg x w = (Ok tt, w).
Proof.
  destruct x as [c|]; simpl; [|done]. unfold check_color. simpl.
  by intros ->.
Qed.

Lemma check_image_unsupplied flag image dest a b w :
  truthy_image image = false ->
  check_image flag image dest a b w = (Ok tt, w).
Proof.
  unfold check_image. destruct image as [img|]; [|done]. by intros ->.
Qed.

Lemma guard_supplied (a b c d : bool) :
  c || d = true -> negb (a || b || c || d) = false.
Proof. destruct a, b, c, d; simpl; done. Qed.

Lemma check_branding_values_stops w :
  invalid_color (main_color (self w))
  || invalid_color (secondary_color (self w)) = true ->
  stops check_branding_values w.
Proof.
  intros Hbad. unfold check_branding_values. apply stops_bind_get_self.
  rewrite guard_supplied.
  2:{ apply orb_true_iff in Hbad as [Hb|Hb];
        apply invalid_color_truthy in Hb; rewrite Hb;
        by rewrite ?orb_true_r. }
  apply stops_bind_later; [apply quiet_check_image | intros _ w1 _].
  apply stops_bind_later; [apply quiet_check_image | intros _ w2 _].
  destruct (invalid_color (main_color (self w))) eqn:Hm.
  - apply stops_bind_now.
    destruct (check_color_raises "--main-color is not a valid hex color: "
                _ w2 Hm) as (c & _ & E).
    eexists _, w2. split; [exact E | apply quiet_step_refl].
  - simpl in Hbad.
    apply stops_bind_later; [apply quiet_check_color | intros _ w3 _].
    destruct (check_color_raises
                "--secondary_color-color is not a valid hex color: "
                _ w3 Hbad) as (c & _ & E).
    eexists _, w3. split; [exact E | apply quiet_step_refl].
Qed.

Lemma run_stops w :
  invalid_color (main_color (self w))
  || invalid_color (secondary_color (self w)) = true ->
  stops run w.
Proof.
  intros Hbad. unfold run. apply stops_bind_get_self.
  apply stops_bind_later; [apply quiet_path_exists | intros present w1 Hs1].
  rewrite <- Hs1 in Hbad.
  apply stops_bind_later; [|intros _ w2 Hs2].
  { apply quiet_when, quiet_bind; [apply quiet_rmtree|].
    intros _. apply quiet_rmtree. }
  rewrite <- Hs2 in Hbad.
  apply stops_bind_later; [apply quiet_make_build_folder | intros _ w3 Hs3].
  rewrite <- Hs3 in Hbad.
  apply stops_bind_later; [apply quiet_credentials_ok | intros ok w4 Hs4].
  rewrite <- Hs4 in Hbad.
  apply stops_bind_later; [|intros _ w5 Hs5].
  { apply quiet_if; [apply quiet_raise | apply quiet_ret]. }
  rewrite <- Hs5 in Hbad.
  apply stops_bind_now. by apply check_branding_values_stops.
Qed.

(** C7. A supplied main or secondary color that the hex-color pattern
    refuses makes [check_branding_values] raise, and makes [run] raise
    with no playlist or video request made; with no image supplied the
    error is the [ValueError] that names the color and the world is as
    before.  A valid color alone is accepted.  On the pattern of the spec,
    ["red"] and ["#1a2b3"] are refused and ["#1a2b3c"] is valid. *)
Theorem invalid_color_fails_early :
  (forall w,
      invalid_color (main_color (self w))
      || invalid_color (secondary_color (self w)) = true ->
      (exists e w', check_branding_values w = (Raise e, w')
                    ∧ quiet_step w w')
      ∧ (exists e w', run w = (Raise e, w') ∧ quiet_step w w')
      ∧ (truthy_image (profile_image (self w)) = false ->
         truthy_image (banner_image (self w)) = false ->
         exists msg c,
           (main_color (self w) = Some c ∨ secondary_color (self w) = Some c)
           ∧ check_branding_values w
             = (Raise (ValueError (msg +:+ c)), w)))
  ∧ (forall w,
        truthy_image (profile_image (self w)) = false ->
        truthy_image (banner_image (self w)) = false ->
        invalid_color (main_color (self w)) = false ->
        invalid_color (secondary_color (self w)) = false ->
        check_branding_values w = (Ok tt, w))
  ∧ hex_color_pattern "red" = false
  ∧ hex_color_pattern "#1a2b3" = false
  ∧ hex_color_pattern "#1a2b3c" = true.
Proof.
  split; [|split; [|done]].
  - intros w Hbad. split; [by apply check_branding_values_stops|].
    split; [by apply run_stops|].
    intros Hp Hb. unfold check_branding_values. rewrite bind_get_self.
    rewrite guard_supplied.
    2:{ apply orb_true_iff in Hbad as [Hx|Hx];
          apply invalid_color_truthy in Hx; rewrite Hx;
          by rewrite ?orb_true_r. }
    rewrite (bind_ok _ _ _ _ _ (check_image_unsupplied _ _ _ _ _ w Hp)).
    rewrite (bind_ok _ _ _ _ _ (check_image_unsupplied _ _ _ _ _ w Hb)).
    destruct (invalid_color (main_color (self w))) eqn:Hm.
    + destruct (check_color_raises
                  "--main-color is not a valid hex color: " _ w Hm)
        as (c & Hc & E).
      exists "--main-color is not a valid hex color: ", c.
      split; [by left|]. by rewrite (bind_raise _ _ _ _ _ E).
    + simpl in Hbad.
      rewrite (bind_ok _ _ _ _ _ (check_color_accepts _ _ w Hm)).
      destruct (check_color_raises
                  "--secondary_color-color is not a valid hex color: "
                  _ w Hbad) as (c & Hc & E).
      exists "--secondary_color-color is not a valid hex color: ", c.
      split; [by right | done].
  - intros w Hp Hb Hm Hs. unfold check_branding_values.
    rewrite bind_get_self.
    destruct (negb _); [done|].
    rewrite (bind_ok _ _ _ _ _ (check_image_unsupplied _ _ _ _ _ w Hp)).
    rewrite (bind_ok _ _ _ _ _ (check_image_unsupplied _ _ _ _ _ w Hb)).
    rewrite (bind_ok _ _ _ _ _ (check_color_accepts _ _ w Hm)).
    by apply check_color_accepts.
Qed.

(** C10. A local profile image never reaches [shutil.move]: whether the
    attribute is a [str] or a [Path], one of the two method calls on it
    raises [AttributeError], and the world, the file tree included, is as
    before. *)
Theorem check_branding_values_local_image w img :
  profile_image (self w) = Some img ->
  truthy_image (Some img) = true ->
  (forall s, img = AStr s -> PyStr.startswith "http" s = false) ->
  exists attr, check_branding_values w = (Raise (AttributeError attr), w).
Proof.
  intros Himg Ht Hlocal. unfold check_branding_values.
  rewrite bind_get_self, Himg, Ht. unfold check_image. rewrite Ht.
  destruct img as [s|p].
  - exists "exists".
    unfold attr_startswith, attr_exists, bind, ret, raise.
    by rewrite (Hlocal s eq_refl).
  - by exists "startswith".
Qed.

End Branding.

Lemma invalid_color_fails_early_witness :
  invalid_color (main_color (self Demo.red))
  || invalid_color (secondary_color (self Demo.red)) = true
  ∧ (exists e w', run Demo.red = (Raise e, w') ∧ quiet_step Demo.red w')
  ∧ check_branding_values Demo.colored = (Ok tt, Demo.colored).
Proof.
  destruct invalid_color_fails_early as (Hbad & Hgood & _).
  destruct (Hbad Demo.red eq_refl) as (_ & Hrun & _).
  split; [reflexivity|]. split; [exact Hrun|].
  apply (Hgood Demo.colored); reflexivity.
Defined.

Lemma check_branding_values_local_image_witness :
  profile_image (self (Demo.logo (AStr "logo.jpg")))
  = Some (AStr "logo.jpg")
  ∧ files (Demo.logo (AStr "logo.jpg")) !! "logo.jpg" = Some "a picture"
  ∧ exists attr,
      check_branding_values (Demo.logo (AStr "logo.jpg"))
      = (Raise (AttributeError attr), Demo.logo (AStr "logo.jpg")).
Proof.
  split; [reflexivity|]. split; [reflexivity|].
  apply (check_branding_values_local_image
           (Demo.logo (AStr "logo.jpg")) (AStr "logo.jpg"));
    [reflexivity | reflexivity |].
  intros s [= <-]. reflexivity.
Defined.

(** ** Sorting by position *)

Module PySortFacts.

Section Facts.
Context {A : Type} (key : A -> Z).
Implicit Types (x : A) (l : list A).

Lemma insert_perm x l : PySort.insert key x l ≡ₚ x :: l.
Proof.
  induction l as [|y r IH]; simpl; [done|].
  destruct (key y <? key x); [|done].
  rewrite IH. apply Permutation_swap.
Qed.

Lemma sort_perm l : PySort.sort key l ≡ₚ l.
Proof.
  induction l as [|x r IH]; simpl; [done|].
  unfold PySort.sort in *. by rewrite insert_perm, IH.
Qed.

Lemma insert_sorted x l :
  StronglySorted (key_le key) l -> StronglySorted (key_le key) (PySort.insert key x l).
Proof.
  induction 1 as [|y r Hr IH Hy]; simpl.
  - repeat constructor.
  - destruct (key y <? key x) eqn:E.
    + constructor; [done|].
      rewrite insert_perm. constructor; [|done].
      unfold key_le. apply Z.ltb_lt in E. lia.
    + apply Z.ltb_ge in E. constructor; [by constructor|].
      constructor; [done|].
      eapply Forall_impl; [exact Hy|]. unfold key_le. intros z Hz. lia.
Qed.

Lemma sort_sorted l : StronglySorted (key_le key) (PySort.sort key l).
Proof.
  induction l as [|x r IH]; simpl; [constructor|].
  by apply insert_sorted.
Qed.

(** Stability: the elements with one key keep their order. *)
Lemma insert_stable z x l :
  List.filter (fun y => key y =? z) (PySort.insert key x l)
  = List.filter (fun y => key y =? z) (x :: l).
Proof.
  induction l as [|y r IH]; simpl; [done|].
  destruct (key y <? key x) eqn:E; [|done].
  simpl. simpl in IH. rewrite IH.
  destruct (key y =? z) eqn:Ey, (key x =? z) eqn:Ex; try done.
  apply Z.eqb_eq in Ey, Ex. apply Z.ltb_lt in E. lia.
Qed.

Lemma sort_stable z l :
  List.filter (fun y => key y =? z) (PySort.sort key l)
  = List.filter (fun y => key y =? z) l.
Proof.
  induction l as [|x r IH]; simpl; [done|].
  unfold PySort.sort in *. rewrite insert_stable. simpl. by rewrite IH.
Qed.

End Facts.
End PySortFacts.

(** ** Page generation *)

Section Pages.
Context `{Collaborators}.
Import PySortFacts.

Lemma preserves_bind {A B X} (f : World -> X) (m : M A) (k : A -> M B) :
  preserves f m -> (forall a, preserves f (k a)) -> preserves f (bind m k).
Proof.
  intros Hm Hk w. rewrite bind_snd. specialize (Hm w).
  destruct (m w) as [[a|e] w1]; simpl in *; [|done].
  by rewrite Hk.
Qed.

Lemma bind_bind {A B C} (m : M A) (k : A -> M B) (k' : B -> M C) w :
  bind (bind m k) k' w = bind m (fun a => bind (k a) k') w.
Proof. unfold bind. by destruct (m w) as [[a|e] w1]. Qed.

Lemma preserves_ret {A X} (f : World -> X) (a : A) : preserves f (ret a).
Proof. done. Qed.

Lemma preserves_raise {A X} (f : World -> X) e :
  preserves f (raise (A := A) e).
Proof. done. Qed.

Lemma preserves_for_each {A X} (f : World -> X) (l : list A) body :
  (forall x, preserves f (body x)) -> preserves f (for_each l body).
Proof.
  intros Hb. induction l as [|x r IH]; simpl; [done|].
  apply preserves_bind; [apply Hb | by intros _].
Qed.

Lemma preserves_for_list {A B X} (f : World -> X) (l : list A)
  (g : A -> M B) :
  (forall x, preserves f (g x)) -> preserves f (for_list l g).
Proof.
  intros Hg. induction l as [|x r IH]; simpl; [done|].
  apply preserves_bind; [apply Hg | intros y].
  apply preserves_bind; [apply IH | by intros ys].
Qed.

Lemma preserves_write_file p s : preserves self_and_cache (write_file p s).
Proof. done. Qed.

Lemma preserves_get_subtitles video_id :
  preserves self_and_cache (get_subtitles video_id).
Proof.
  unfold get_subtitles.
  apply preserves_bind; [done | intros o].
  apply preserves_bind.
  { intros w. by destruct (bool_decide _). }
  intros names. apply preserves_bind; [|done].
  apply preserves_for_list. intros n.
  by destruct (PyStr.split_on _ _) as [|? [|? ?]].
Qed.

Lemma preserves_author_of doc video_id :
  preserves self_and_cache (author_of doc video_id).
Proof.
  unfold author_of. destruct doc as [[d|l|d]|]; try done.
  by destruct (PyDict.get video_id d).
Qed.

Lemma preserves_write_articles : preserves self_and_cache write_articles.
Proof.
  unfold write_articles.
  apply preserves_bind; [done | intros o].
  apply preserves_bind; [done | intros cached].
  apply preserves_bind.
  { destruct cached as [[d|l|d]|]; try done. by destruct d. }
  intros videos. apply preserves_bind; [done | intros videos_channels].
  apply preserves_for_each. intros video.
  apply preserves_bind; [apply preserves_author_of | intros author].
  apply preserves_bind; [apply preserves_get_subtitles | intros subtitles].
  apply preserves_write_file.
Qed.

(** The loop of [write_data_js], started with [text] already written. *)
Lemma write_data_js_loop (pls : list Playlist) (path text : string) w :
  files w !! path = Some text ->
  (forall p, p ∈ pls ->
     exists l, cache w !! playlist_key (playlist_id p) = Some (DocItems l)) ->
  exists w',
    for_each pls (fun playlist =>
      playlist_videos <- load_json (playlist_key (playlist_id playlist)) ;;
      match playlist_videos with
      | Some (DocItems l) => append_file path (data_js_line playlist l)
      | _ => raise (AttributeError "sort")
      end) w = (Ok tt, w')
    ∧ self w' = self w ∧ cache w' = cache w
    ∧ files w' !! path
      = Some (fold_left
                (fun text p =>
                   text +:+ data_js_line p (cached_items w (playlist_id p)))
                pls text).
Proof.
  revert text w. induction pls as [|p r IH]; intros text w Hf Hc.
  - exists w. by simpl.
  - destruct (Hc p) as [l Hl]; [by left|].
    set (w1 := with_files
                 (fun fs => <[path := text +:+ data_js_line p l]> fs) w).
    destruct (IH (text +:+ data_js_line p l) w1) as (w' & E & Hs & Hca & Hfi).
    { subst w1. simpl. apply lookup_insert_eq. }
    { intros q Hq. apply Hc. by right. }
    exists w'. split.
    + assert (Hstep :
        (playlist_videos <- load_json (playlist_key (playlist_id p)) ;;
         match playlist_videos with
         | Some (DocItems l) => append_file path (data_js_line p l)
         | _ => raise (AttributeError "sort")
         end) w = (Ok tt, w1)).
      { unfold bind, load_json. rewrite Hl.
        unfold append_file, modify, with_files. simpl. by rewrite Hf. }
      simpl. rewrite (bind_ok _ _ _ _ _ Hstep). exact E.
    + split; [done|]. split; [done|].
      rewrite Hfi. simpl. unfold cached_items. subst w1. simpl.
      by rewrite Hl.
Qed.

(** C9. When the pages of the videos are written and every playlist has
    its cached list of videos, [make_html_files] returns and [data.js]
    holds one line per playlist whose array is the playlist's cached
    videos sorted by position: ascending, the same videos, and videos at
    one position in the order they had. *)
Theorem data_js_ordered w :
  (write_articles w).1 = Ok tt ->
  (forall p, p ∈ playlists (self w) ->
     exists l, cache w !! playlist_key (playlist_id p) = Some (DocItems l)) ->
  (exists w',
      make_html_files w = (Ok tt, w')
      ∧ files w' !! joinpath (assets_dir (self w)) "data.js"
        = Some (data_js_text w))
  ∧ forall l,
      exists sorted,
        data_js_array l = map to_data_js sorted
        ∧ StronglySorted by_position sorted
        ∧ sorted ≡ₚ l
        ∧ forall z,
            List.filter (fun v => position (snippet v) =? z) sorted
            = List.filter (fun v => position (snippet v) =? z) l.
Proof.
  intros Harticles Hcached. split.
  - pose proof (preserves_write_articles w) as Hp.
    destruct (write_articles w) as [r w1] eqn:E1. simpl in Harticles, Hp.
    subst r. injection Hp as Hs1 Hc1.
    set (w2 := with_files
                 (fun fs => <[joinpath (build_dir (self w1)) "home.html" :=
                               render_home
                                 {| h_playlists := playlists (self w1);
                                    h_video_format := video_format (self w1);
                                    h_title := title (self w1);
                                    h_description := description (self w1);
                                    h_color := main_color (self w1);
                                    h_background_color :=
                                      secondary_color (self w1) |}]> fs) w1).
    set (w3 := with_files
                 (fun fs => <[joinpath (assets_dir (self w2)) "app.js" :=
                               render_app_js (video_format (self w2))]> fs)
                 w2).
    set (w4 := with_files
                 (fun fs => <[joinpath (assets_dir (self w3)) "data.js" := ""]>
                              fs) w3).
    destruct (write_data_js_loop (playlists (self w3))
                (joinpath (assets_dir (self w3)) "data.js") "" w4)
      as (w' & E & _ & _ & Hf).
    { subst w4. simpl. apply lookup_insert_eq. }
    { intros p Hp. subst w4 w3 w2. simpl in Hp |- *.
      rewrite Hs1 in Hp. rewrite Hc1. by apply Hcached. }
    exists w'. split.
    + unfold make_html_files. rewrite (bind_ok _ _ _ _ _ E1).
      unfold write_home, write_app_js, write_data_js.
      cbv beta. rewrite bind_bind, bind_get_self.
      unfold write_file at 1. rewrite bind_modify. fold w2.
      rewrite bind_bind, bind_get_self.
      unfold write_file at 1. rewrite bind_modify. fold w3.
      rewrite bind_get_self. cbv zeta.
      unfold write_file at 1. rewrite bind_modify. fold w4.
      exact E.
    + replace (self w) with (self w3) by (subst w3 w2; simpl; done).
      rewrite Hf. unfold data_js_text. f_equal.
      subst w4 w3 w2. unfold cached_items. simpl. by rewrite Hs1, Hc1.
  - intros l. exists (PySort.sort (fun v => position (snippet v)) l).
    split; [done|]. split; [apply sort_sorted|].
    split; [apply sort_perm | intros z; apply sort_stable].
Qed.

End Pages.

Lemma data_js_ordered_witness :
  (write_articles Demo.ready).1 = Ok tt
  ∧ exists w',
      make_html_files Demo.ready = (Ok tt, w')
      ∧ files w' !! "out/build/assets/data.js"
        = Some "var json_Playlist PL1 = v1,v2;
var json_Playlist PL2 = v2,v3;
".
Proof.
  assert (H1 : (write_articles Demo.ready).1 = Ok tt)
    by (vm_compute; reflexivity).
  assert (H2 : forall p, p ∈ playlists (self Demo.ready) ->
            exists l, cache Demo.ready !! playlist_key (playlist_id p)
                      = Some (DocItems l)).
  { intros p Hp.
    assert (Hpl : playlists (self Demo.ready)
                  = [make_playlist "PL1" (api_playlist "PL1");
                     make_playlist "PL2" (api_playlist "PL2")])
      by (vm_compute; reflexivity).
    rewrite Hpl in Hp.
    apply elem_of_cons in Hp as [->|Hp];
      [exists (api_playlist_items "PL1"); vm_compute; reflexivity|].
    apply list_elem_of_singleton in Hp as ->.
    exists (api_playlist_items "PL2"). vm_compute. reflexivity. }
  destruct (data_js_ordered Demo.ready H1 H2) as [(w' & E & Hf) _].
  split; [exact H1|]. exists w'. split; [exact E|].
  replace "out/build/assets/data.js"
    with (joinpath (assets_dir (self Demo.ready)) "data.js")
    by (vm_compute; reflexivity).
  rewrite Hf. vm_compute. reflexivity.
Defined.

(** ** More on the playlist resolver *)

Section ResolverRequests.
Context `{Collaborators}.
Import PyStrFacts.

(** X1. A collection type that is neither user, channel nor playlist makes
    [extract_playlists] raise [NotImplementedError] at once: nothing is
    asked of the platform and the world is as before. *)
Theorem extract_playlists_unsupported w s :
  collection_type (self w) = OTHER s ->
  extract_playlists w
  = (Raise (NotImplementedError "unsupported collection_type"), w).
Proof.
  intros Hkind.
  unfold extract_playlists, bind, get_self, is_user, is_channel, is_playlist.
  by rewrite Hkind.
Qed.




End ResolverRequests.

Lemma extract_playlists_unsupported_witness :
  collection_type
    (self (Demo.world (Demo.scraper (OTHER "video") "abc")))
  = OTHER "video"
  ∧ extract_playlists (Demo.world (Demo.scraper (OTHER "video") "abc"))
    = (Raise (NotImplementedError "unsupported collection_type"),
       Demo.world (Demo.scraper (OTHER "video") "abc")).
Proof.
  split; [reflexivity|].
  by apply (extract_playlists_unsupported _ "video").
Defined.


(** ** Paths *)

Module PathFacts.

Lemma append_cons (c : ascii) (a b : string) :
  String c a +:+ b = String c (a +:+ b).
Proof. reflexivity. Qed.

Lemma append_nil_r (a : string) : a +:+ "" = a.
Proof.
  induction a as [|c a IH]; [done|]. by rewrite append_cons, IH.
Qed.

Lemma append_assoc (a b c : string) : (a +:+ b) +:+ c = a +:+ (b +:+ c).
Proof.
  induction a as [|x a IH]; [done|]. by rewrite !append_cons, IH.
Qed.

Lemma eqb_app (a x y : string) :
  String.eqb (a +:+ x) (a +:+ y) = String.eqb x y.
Proof.
  induction a as [|c a IH]; [done|]. rewrite !append_cons. simpl.
  by rewrite Ascii.eqb_refl.
Qed.

Lemma prefix_app (a x y : string) :
  String.prefix (a +:+ x) (a +:+ y) = String.prefix x y.
Proof.
  induction a as [|c a IH]; [done|]. rewrite !append_cons. simpl.
  by destruct (ascii_dec c c).
Qed.

(** Below a common stem, [under] only looks at what follows it. *)
Lemma under_app (a x y : string) : under (a +:+ x) (a +:+ y) = under x y.
Proof.
  unfold under. by rewrite eqb_app, append_assoc, prefix_app.
Qed.

Lemma under_sibling (b x y : string) :
  under x y = false -> under (b +:+ x) (b +:+ y) = false.
Proof. by rewrite under_app. Qed.

Lemma under_parent (b x : string) :
  under x "" = false -> under (b +:+ x) b = false.
Proof.
  intros Hx. rewrite <- (append_nil_r b) at 2. by rewrite under_app.
Qed.

Lemma under_refl (d : string) : under d d = true.
Proof. unfold under. by rewrite String.eqb_refl. Qed.

End PathFacts.

(** ** The build folder *)

Section BuildFolder.
Context `{Collaborators}.
Import PathFacts.

Lemma for_each_write_file {A} (l : list A) (g h : A -> string) w :
  for_each l (fun f => write_file (g f) (h f)) w
  = (Ok tt,
     with_files (fun fs => fold_left (fun fs f => <[g f := h f]> fs) l fs) w).
Proof.
  revert w. induction l as [|x r IH]; intros w; simpl.
  - by destruct w.
  - unfold bind, write_file at 1, modify. rewrite IH. by destruct w.
Qed.

Lemma fold_insert_is_Some {A} (l : list A) (g h : A -> string)
  (fs : gmap string string) k :
  is_Some (fs !! k) ∨ k ∈ map g l ->
  is_Some (fold_left (fun fs f => <[g f := h f]> fs) l fs !! k).
Proof.
  revert fs. induction l as [|x r IH]; intros fs; simpl.
  - intros [?|?%elem_of_nil]; done.
  - intros Hk. apply IH.
    destruct (decide (g x = k)) as [<-|Hne].
    + left. rewrite lookup_insert_eq. eauto.
    + rewrite lookup_insert_ne by done.
      destruct Hk as [?|[?|?]%elem_of_cons]; [by left | congruence | by right].
Qed.

Lemma cache_not_under_assets o : under (assets_dir o) (cache_dir o) = false.
Proof. unfold assets_dir, cache_dir, joinpath. by apply under_sibling. Qed.

Lemma build_not_under_assets o : under (assets_dir o) (build_dir o) = false.
Proof. unfold assets_dir, joinpath. by apply under_parent. Qed.

Lemma build_not_under_cache o : under (cache_dir o) (build_dir o) = false.
Proof. unfold cache_dir, joinpath. by apply under_parent. Qed.

Lemma make_build_folder_run w :
  exists w',
    make_build_folder w = (Ok tt, w')
    ∧ self w' = self w ∧ cache w' = cache w ∧ trace w' = trace w
    ∧ build_dir (self w) ∈ dirs w'
    ∧ assets_dir (self w) ∈ dirs w'
    ∧ cache_dir (self w) ∈ dirs w'
    ∧ videos_dir (self w) ∈ dirs w'
    ∧ channels_dir (self w) ∈ dirs w'
    ∧ forall f, f ∈ assets_src ->
        is_Some (files w' !! joinpath (assets_dir (self w)) f.1).
Proof.
  set (o := self w).
  set (w1 := with_dirs (fun s => {[build_dir o]} ∪ s) w).
  set (present := bool_decide (assets_dir o ∈ dirs w1)
                  || bool_decide (is_Some (files w1 !! assets_dir o))).
  assert (Hwhen : exists w2,
    when present (rmtree (assets_dir o) false) w1 = (Ok tt, w2)
    ∧ self w2 = o ∧ cache w2 = cache w ∧ trace w2 = trace w
    ∧ build_dir o ∈ dirs w2).
  { destruct present eqn:Hp.
    - exists (remove_tree (assets_dir o) w1). split.
      + simpl when. unfold rmtree, bind, path_exists. fold present.
        by rewrite Hp.
      + split; [done|]. split.
        { simpl. subst o. by rewrite cache_not_under_assets. }
        split; [done|]. simpl. apply elem_of_filter.
        split; [apply build_not_under_assets | set_solver].
    - exists w1. split; [done|]. split; [done|]. split; [done|].
      split; [done|]. simpl. set_solver. }
  destruct Hwhen as (w2 & E2 & Hs2 & Hc2 & Ht2 & Hd2).
  eexists. split.
  { unfold make_build_folder. rewrite bind_get_self. fold o.
    unfold mkdir at 1. rewrite bind_modify. fold w1.
    unfold bind at 1, path_exists at 1. fold present.
    rewrite (bind_ok _ _ _ _ _ E2).
    unfold copytree_assets, mkdir. rewrite bind_bind, bind_modify.
    unfold bind at 1. rewrite for_each_write_file.
    rewrite !bind_modify. reflexivity. }
  simpl. rewrite Hs2, Hc2, Ht2.
  split; [done|]. split; [done|]. split; [done|].
  split; [set_solver|]. split; [set_solver|]. split; [set_solver|].
  split; [set_solver|]. split; [set_solver|].
  intros f Hf. apply fold_insert_is_Some. right.
  apply list_elem_of_fmap. by exists f.
Qed.


(** Removing a tree keeps what is not under it. *)
Lemma present_remove_tree d p w :
  under d p = false ->
  (bool_decide (p ∈ dirs (remove_tree d w))
   || bool_decide (is_Some (files (remove_tree d w) !! p)))
  = (bool_decide (p ∈ dirs w) || bool_decide (is_Some (files w !! p))).
Proof.
  intros Hu. simpl. f_equal; apply bool_decide_ext.
  - rewrite elem_of_filter. tauto.
  - split.
    + intros [x Hx]. apply map_lookup_filter_Some in Hx as [? _]. eauto.
    + intros [x Hx]. exists x. by apply map_lookup_filter_Some.
Qed.



End BuildFolder.


(** ** Steps of a method, for any preorder on worlds *)

Section Steps.
Context (R : relation World) `{!PreOrder R}.

Lemma steps_ret {A} (a : A) : steps R (ret a).
Proof. intros w. simpl. reflexivity. Qed.

Lemma steps_raise {A} e : steps R (raise (A := A) e).
Proof. intros w. simpl. reflexivity. Qed.

Lemma steps_bind {A B} (m : M A) (k : A -> M B) :
  steps R m -> (forall a, steps R (k a)) -> steps R (bind m k).
Proof.
  intros Hm Hk w. rewrite bind_snd. specialize (Hm w).
  destruct (m w) as [[a|e] w1]; simpl in *; [|done].
  etrans; [done | apply Hk].
Qed.

(** The same, knowing what [m] can return. *)
Lemma steps_bind_val {A B} (Q : A -> Prop) (m : M A) (k : A -> M B) :
  steps R m -> (forall w a, (m w).1 = Ok a -> Q a) ->
  (forall a, Q a -> steps R (k a)) -> steps R (bind m k).
Proof.
  intros Hm Hq Hk w. rewrite bind_snd. specialize (Hm w).
  specialize (Hq w).
  destruct (m w) as [[a|e] w1]; simpl in *; [|done].
  etrans; [done | by apply Hk, Hq].
Qed.

Lemma steps_when c m : steps R m -> steps R (when c m).
Proof. destruct c; [done | intros _; apply steps_ret]. Qed.

Lemma steps_for_each {A} (l : list A) body :
  (forall x, steps R (body x)) -> steps R (for_each l body).
Proof.
  intros Hb. induction l as [|x r IH]; simpl; [apply steps_ret|].
  apply steps_bind; [apply Hb | by intros _].
Qed.

Lemma steps_for_list {A B} (l : list A) (g : A -> M B) :
  (forall x, steps R (g x)) -> steps R (for_list l g).
Proof.
  intros Hg. induction l as [|x r IH]; simpl; [apply steps_ret|].
  apply steps_bind; [apply Hg | intros y].
  apply steps_bind; [apply IH | intros ys; apply steps_ret].
Qed.

Lemma steps_same {A} (m : M A) : (forall w, (m w).2 = w) -> steps R m.
Proof. intros Hm w. rewrite Hm. reflexivity. Qed.

End Steps.

Ltac steps_struct :=
  repeat first
    [ apply steps_bind; [apply _ | | intros ?]
    | apply steps_ret; apply _
    | apply steps_raise; apply _
    | apply steps_when; [apply _ |]
    | apply steps_for_each; [apply _ | intros ?]
    | apply steps_for_list; [apply _ | intros ?]
    | match goal with
      | |- steps _ (if ?c then _ else _) => destruct c
      | |- steps _ (match ?x with _ => _ end) => destruct x
      end ].

(** ** Packaging comes last *)

Section Packaging.
Context `{Collaborators}.

#[global] Instance unpackaged_preorder : PreOrder unpackaged.
Proof.
  split.
  - intros w. exists []. by rewrite app_nil_r.
  - intros w1 w2 w3 (e1 & H1 & Q1) (e2 & H2 & Q2).
    exists (e1 ++ e2)%list. split; [by rewrite H2, H1, app_assoc|].
    by apply Forall_app.
Qed.

Ltac leaf :=
  intros w; 
  repeat (simpl; case_match; simpl);
  first [ reflexivity
        | (eexists [_]; split; [reflexivity | by repeat constructor])
        | (exists []; split; [by rewrite app_nil_r | constructor]) ].

Lemma steps_make_build_folder : steps unpackaged make_build_folder.
Proof.
  unfold make_build_folder, copytree_assets, rmtree, mkdir, write_file.
  steps_struct. all: leaf.
Qed.

Lemma steps_rmtree d i : steps unpackaged (rmtree d i).
Proof. unfold rmtree. steps_struct. all: leaf. Qed.

Lemma steps_credentials_ok : steps unpackaged credentials_ok.
Proof. unfold credentials_ok, emit. steps_struct. all: leaf. Qed.

Lemma steps_check_branding_values : steps unpackaged check_branding_values.
Proof.
  unfold check_branding_values, check_image, check_color, attr_startswith,
    attr_exists, save_file, resize_image, shutil_move, write_file, emit.
  steps_struct. all: leaf.
Qed.

Lemma steps_extract_playlists : steps unpackaged extract_playlists.
Proof.
  unfold extract_playlists, get_channel_json, get_channel_playlists_json,
    Playlist_from_id, set_attr, emit.
  steps_struct. all: leaf.
Qed.

Lemma steps_get_videos_json pid : steps unpackaged (get_videos_json pid).
Proof.
  unfold get_videos_json, load_json, save_json, emit.
  steps_struct. all: leaf.
Qed.

Lemma steps_merge_playlists pls d : steps unpackaged (merge_playlists pls d).
Proof.
  revert d. induction pls as [|p r IH]; intros d; simpl.
  - apply steps_ret; apply _.
  - apply steps_bind; [apply _ | apply steps_get_videos_json | intros vs].
    apply IH.
Qed.

Lemma steps_extract_videos_list : steps unpackaged extract_videos_list.
Proof.
  unfold extract_videos_list, doc_keys, load_json, save_json, set_attr.
  steps_struct. all: try apply steps_merge_playlists. all: leaf.
Qed.

Lemma steps_download_video_files : steps unpackaged download_video_files.
Proof.
  unfold download_video_files, resize_image, mkdir, write_file, emit.
  cbv zeta. steps_struct. all: leaf.
Qed.

Lemma steps_get_videos_authors_info ids :
  steps unpackaged (get_videos_authors_info ids).
Proof.
  unfold get_videos_authors_info, load_json, save_json, emit.
  steps_struct. all: leaf.
Qed.

Lemma steps_save_channel_branding dir c b :
  steps unpackaged (save_channel_branding dir c b).
Proof.
  unfold save_channel_branding, mkdir, write_file, emit.
  steps_struct. all: leaf.
Qed.

Lemma steps_download_authors_branding :
  steps unpackaged download_authors_branding.
Proof.
  unfold download_authors_branding, load_json.
  steps_struct. all: try apply steps_save_channel_branding. all: leaf.
Qed.

Lemma steps_update_metadata : steps unpackaged update_metadata.
Proof.
  unfold update_metadata, get_channel_json, set_attr, shutil_copy,
    local_or, resize_image, write_file, emit.
  cbv zeta.
  steps_struct. all: try apply steps_save_channel_branding. all: leaf.
Qed.

Lemma steps_get_subtitles v : steps unpackaged (get_subtitles v).
Proof.
  unfold get_subtitles. steps_struct. all: leaf.
Qed.

Lemma steps_make_html_files : steps unpackaged make_html_files.
Proof.
  unfold make_html_files, write_articles, write_home, write_app_js,
    write_data_js, author_of, load_json, append_file, write_file.
  cbv zeta.
  steps_struct. all: try apply steps_get_subtitles. all: leaf.
Qed.

(** A run that ends with the packaging after unpackaged steps. *)
Lemma outcome_bind {A B} (S : relation World) (m : M A) (k : A -> M B) :
  (forall a b c, unpackaged a b -> S b c -> S a c) ->
  steps unpackaged m ->
  (forall a, outcome unpackaged S (k a)) ->
  outcome unpackaged S (bind m k).
Proof.
  intros HS Hm Hk w. unfold bind. specialize (Hm w).
  destruct (m w) as [[a|e] w1]; simpl in Hm; [|done].
  specialize (Hk a w1).
  destruct (k a w1) as [[b|e] w2]; [by eapply HS | by etrans].
Qed.

(** X5. [run] hands the build to the packager only as its very last act:
    a run that raises has made no packaging request, and a run that
    returns has made exactly one, after all other events, with the final
    metadata, or none when [no_zim] is set. *)
Theorem run_packages_last w :
  match run w with
  | (Raise _, w') =>
      exists evs, trace w' = (trace w ++ evs)%list
                  ∧ Forall (fun e => is_packaging e = false) evs
  | (Ok _, w') =>
      exists evs, trace w' = (trace w ++ evs ++ packaging w')%list
                  ∧ Forall (fun e => is_packaging e = false) evs
  end.
Proof.
  set (S := fun w w' : World =>
              exists evs, trace w' = (trace w ++ evs ++ packaging w')%list
                          ∧ Forall (fun e => is_packaging e = false) evs).
  assert (HS : forall a b c, unpackaged a b -> S b c -> S a c).
  { intros a b c (e1 & H1 & Q1) (e2 & H2 & Q2).
    exists (e1 ++ e2)%list. split; [|by apply Forall_app].
    by rewrite H2, H1, <- !app_assoc. }
  assert (Hrun : outcome unpackaged S run).
  { unfold run.
    apply outcome_bind; [done | by apply steps_same; [apply _|] | intros o].
    apply outcome_bind; [done | by apply steps_same; [apply _|] | intros present].
    apply outcome_bind; [done | | intros _].
    { apply steps_when; [apply _|].
      apply steps_bind; [apply _ | apply steps_rmtree | intros _].
      apply steps_rmtree. }
    apply outcome_bind; [done | apply steps_make_build_folder | intros _].
    apply outcome_bind; [done | apply steps_credentials_ok | intros ok].
    apply outcome_bind; [done | | intros _].
    { destruct (negb ok); [apply steps_raise | apply steps_ret]; apply _. }
    apply outcome_bind;
      [done | apply steps_check_branding_values | intros _].
    apply outcome_bind; [done | apply steps_extract_playlists | intros _].
    apply outcome_bind; [done | apply steps_extract_videos_list | intros _].
    apply outcome_bind; [done | | intros _].
    { apply steps_when; [apply _ | apply steps_download_video_files]. }
    apply outcome_bind; [done | by apply steps_same; [apply _|] | intros o1].
    apply outcome_bind;
      [done | apply steps_get_videos_authors_info | intros _].
    apply outcome_bind;
      [done | apply steps_download_authors_branding | intros _].
    apply outcome_bind; [done | apply steps_update_metadata | intros _].
    apply outcome_bind; [done | apply steps_make_html_files | intros _].
    intros w1. unfold bind, get_self, make_zim_file, emit, modify.
    unfold S, packaging.
    destruct (no_zim (self w1)) eqn:Hz; simpl; rewrite Hz; exists [].
    - split; [by rewrite app_nil_r | constructor].
    - split; [done | constructor]. }
  specialize (Hrun w). by destruct (run w) as [[[]|e] w'].
Qed.

End Packaging.

(** ** Colors *)

Section Colors.
Context `{Collaborators}.

#[global] Instance stable_preorder P : PreOrder (stable P).
Proof.
  split; [intros w Hw; exact Hw|].
  intros w1 w2 w3 H1 H2 Hp. apply H2, H1, Hp.
Qed.

Lemma local_or_truthy x var l w a :
  truthy (Some x) = true -> (local_or (Some x) var l w).1 = Ok a -> a = x.
Proof.
  unfold local_or, truthy, or_else.
  destruct (String.eqb x ""); simpl; [done|]. by intros _ [= ->].
Qed.

Ltac stable_leaf :=
  let w0 := fresh "w" in
  let Hw := fresh "Hw" in
  intros w0 Hw; repeat (simpl; case_match; simpl); done.

(** X6. A non-empty main or secondary color supplied by the user is still
    there after [update_metadata], whether the other color was derived
    from the profile image or not, and whether the method returned or
    raised. *)
Theorem update_metadata_keeps_colors w x :
  truthy (Some x) = true ->
  (main_color (self w) = Some x ->
   main_color (self (update_metadata w).2) = Some x)
  ∧ (secondary_color (self w) = Some x ->
     secondary_color (self (update_metadata w).2) = Some x).
Proof.
  intros Ht. split; intros Hx.
  - unfold update_metadata. rewrite bind_get_self, Hx.
    match goal with
    | |- main_color (self (?m w).2) = _ =>
        assert (Hm : steps (stable (fun o => main_color o = Some x)) m)
    end; [|by apply Hm].
    unfold get_channel_json, save_channel_branding, set_attr, shutil_copy,
      resize_image, mkdir, write_file, emit.
    cbv zeta.
    repeat first
      [ match goal with
        | |- steps _ (bind (local_or (Some x) _ _) _) =>
            apply (steps_bind_val _ (fun a => a = x));
            [unfold local_or; steps_struct; stable_leaf
            | intros ? ? ?; eapply local_or_truthy; eauto | intros ? ->]
        end
      | apply steps_bind; [apply _ | | intros ?]
      | apply steps_ret; apply _
      | apply steps_raise; apply _
      | apply steps_when; [apply _ |]
      | match goal with
        | |- steps _ (if ?c then _ else _) => destruct c
        | |- steps _ (match ?y with _ => _ end) => destruct y
        end ].
    all: try (unfold local_or; steps_struct).
    all: stable_leaf.
  - unfold update_metadata. rewrite bind_get_self, Hx.
    match goal with
    | |- secondary_color (self (?m w).2) = _ =>
        assert (Hm : steps (stable (fun o => secondary_color o = Some x)) m)
    end; [|by apply Hm].
    unfold get_channel_json, save_channel_branding, set_attr, shutil_copy,
      resize_image, mkdir, write_file, emit.
    cbv zeta.
    repeat first
      [ match goal with
        | |- steps _ (bind (local_or (Some x) _ _) _) =>
            apply (steps_bind_val _ (fun a => a = x));
            [unfold local_or; steps_struct; stable_leaf
            | intros ? ? ?; eapply local_or_truthy; eauto | intros ? ->]
        end
      | apply steps_bind; [apply _ | | intros ?]
      | apply steps_ret; apply _
      | apply steps_raise; apply _
      | apply steps_when; [apply _ |]
      | match goal with
        | |- steps _ (if ?c then _ else _) => destruct c
        | |- steps _ (match ?y with _ => _ end) => destruct y
        end ].
    all: try (unfold local_or; steps_struct).
    all: stable_leaf.
Qed.

End Colors.

Lemma update_metadata_keeps_colors_witness :
  truthy (Some "#1a2b3c") = true
  ∧ main_color (self Cases.tinted) = Some "#1a2b3c"
  ∧ (update_metadata Cases.tinted).1 = Ok tt
  ∧ main_color (self (update_metadata Cases.tinted).2) = Some "#1a2b3c".
Proof.
  split; [reflexivity|]. split; [reflexivity|]. split; [by vm_compute|].
  apply (proj1 (update_metadata_keeps_colors Cases.tinted "#1a2b3c" eq_refl)).
  reflexivity.
Defined.

(** ** An empty color *)

Section EmptyColor.
Context `{Collaborators}.

Lemma bind_path_exists {B} p (k : bool -> M B) w :
  bind (path_exists p) k w
  = k (bool_decide (p ∈ dirs w) || bool_decide (is_Some (files w !! p))) w.
Proof. done. Qed.

Lemma bind_shutil_copy {B} src dst (k : unit -> M B) w :
  is_Some (files w !! src) ->
  exists b, bind (shutil_copy src dst) k w
            = k tt (with_files (fun fs => <[dst := b]> fs) w).
Proof. intros [b Hb]. exists b. unfold bind, shutil_copy. by rewrite Hb. Qed.

Lemma save_channel_branding_files dir c b p w :
  is_Some (files w !! p) ->
  is_Some (files (save_channel_branding dir (Some c) b w).2 !! p).
Proof.
  unfold save_channel_branding, bind, emit, modify, mkdir, write_file,
    modify. simpl. intros Hp.
  destruct b, ((api_channel_images c).2); simpl;
    rewrite ?lookup_insert_is_Some'; auto.
Qed.

Lemma save_channel_branding_dirs dir c b p w :
  p ∈ dirs w -> p ∈ dirs (save_channel_branding dir (Some c) b w).2.
Proof.
  unfold save_channel_branding, bind, emit, modify, mkdir, write_file,
    modify. simpl.
  destruct b, ((api_channel_images c).2); simpl; set_solver.
Qed.

Lemma save_channel_branding_profile dir c b w :
  is_Some (files (save_channel_branding dir (Some c) b w).2
             !! joinpath (joinpath dir c) "profile.jpg").
Proof.
  unfold save_channel_branding, bind, emit, modify, mkdir, write_file,
    modify. simpl.
  destruct b, ((api_channel_images c).2); simpl;
    rewrite ?lookup_insert_is_Some'; auto.
Qed.

Lemma save_channel_branding_banner dir c w :
  is_Some (api_channel_images c).2 ->
  is_Some (files (save_channel_branding dir (Some c) true w).2
             !! joinpath (joinpath dir c) "banner.jpg").
Proof.
  unfold save_channel_branding, bind, emit, modify, mkdir, write_file,
    modify. simpl. intros [b ->]. simpl.
  rewrite ?lookup_insert_is_Some'; auto.
Qed.

(** X7. When the main color is the empty string and a secondary color is
    given, [update_metadata] raises [UnboundLocalError]: neither color is
    [None], so no color is read from the profile image, but the empty main
    color is false and falls back on the local [profile_main], which was
    never bound.  (The main channel is known, and the banner is there or
    the channel has one, so that the method gets that far.) *)
Theorem update_metadata_empty_main_color w c s :
  main_channel_id (self w) = Some c ->
  main_color (self w) = Some "" ->
  secondary_color (self w) = Some s ->
  is_Some (api_channel_images c).2
  ∨ (path_exists (banner_path (self w)) w).1 = Ok true ->
  (update_metadata w).1 = Raise (UnboundLocalError "profile_main").
Proof.
  intros Hc Hm Hs Hb.
  unfold update_metadata. rewrite bind_get_self, Hc, Hm, Hs.
  unfold get_channel_json. unfold bind at 1. unfold bind at 1.
  unfold emit at 1, modify at 1. unfold ret at 1.
  set (w0 := with_event (EvChannel (Some c) false) w).
  pose proof (save_channel_branding_profile (channels_dir (self w)) c true w0)
    as Hprofile.
  assert (Hbanner :
    is_Some (files (save_channel_branding (channels_dir (self w)) (Some c)
                      true w0).2
               !! joinpath (joinpath (channels_dir (self w)) c) "banner.jpg")
    ∨ bool_decide (banner_path (self w) ∈
         dirs (save_channel_branding (channels_dir (self w)) (Some c)
                 true w0).2)
      || bool_decide (is_Some
           (files (save_channel_branding (channels_dir (self w)) (Some c)
                     true w0).2 !! banner_path (self w))) = true).
  { destruct Hb as [Hb|Hb].
    - left. by apply save_channel_branding_banner.
    - right. unfold path_exists in Hb. simpl in Hb. injection Hb as Hb.
      apply orb_true_iff in Hb as [Hb|Hb]; apply orb_true_iff;
        apply bool_decide_eq_true in Hb.
      + left. apply bool_decide_eq_true.
        by apply save_channel_branding_dirs.
      + right. apply bool_decide_eq_true.
        by apply save_channel_branding_files. }
  destruct (save_channel_branding_ok (channels_dir (self w)) c true w0)
    as [Hok _].
  rewrite (bind_ok_snd _ _ _ _ Hok).
  remember (save_channel_branding (channels_dir (self w)) (Some c) true w0).2
    as wb eqn:Hwb. clear Hwb Hok Hb.
  cbv zeta.
  rewrite auto_title_ok, auto_description_ok.
  unfold set_attr. rewrite !bind_modify. rewrite bind_when.
  assert (Hend : forall w1,
    (is_Some (files wb !! joinpath (joinpath (channels_dir (self w)) c)
                            "banner.jpg")
       -> is_Some (files w1 !! joinpath (joinpath (channels_dir (self w)) c)
                                 "banner.jpg")) ->
    (bool_decide (banner_path (self w) ∈ dirs wb)
     || bool_decide (is_Some (files wb !! banner_path (self w))) = true
       -> bool_decide (banner_path (self w) ∈ dirs w1)
          || bool_decide (is_Some (files w1 !! banner_path (self w)))
          = true) ->
    ((has_banner <- path_exists (banner_path (self w)) ;;
      when (negb has_banner)
        (shutil_copy
           (joinpath (joinpath (channels_dir (self w)) c) "banner.jpg")
           (banner_path (self w))) ;;
      colors <- ret None ;;
      main <- local_or (Some "") "profile_main" (fst <$> colors) ;;
      modify (with_self (set_main_color (Some main))) ;;
      secondary <- local_or (Some s) "profile_secondary" (snd <$> colors) ;;
      modify (with_self (set_secondary_color (Some secondary))) ;;
      resize_image (profile_path (self w)) 48 48 "thumbnail"
        (Some (joinpath (build_dir (self w)) "favicon.jpg"))) w1).1
    = Raise (UnboundLocalError "profile_main")).
  { intros w1 Hf Hd. rewrite bind_path_exists.
    destruct (bool_decide (banner_path (self w) ∈ dirs w1)
              || bool_decide (is_Some (files w1 !! banner_path (self w))))
      eqn:E; rewrite bind_when; cbv [negb]; [reflexivity|].
    destruct Hbanner as [Hbanner|Hbanner];
      [|specialize (Hd Hbanner); congruence].
    destruct (bind_shutil_copy
      (joinpath (joinpath (channels_dir (self w)) c) "banner.jpg")
      (banner_path (self w))
      (fun _ =>
        colors <- ret None ;;
        main <- local_or (Some "") "profile_main" (fst <$> colors) ;;
        modify (with_self (set_main_color (Some main))) ;;
        secondary <- local_or (Some s) "profile_secondary" (snd <$> colors) ;;
        modify (with_self (set_secondary_color (Some secondary))) ;;
        resize_image (profile_path (self w)) 48 48 "thumbnail"
          (Some (joinpath (build_dir (self w)) "favicon.jpg")))
      w1 (Hf Hbanner)) as [b ->].
    reflexivity. }
  destruct (bool_decide (creator (self w) = None)), (is_playlist (self w)).
  all: rewrite !bind_modify, bind_get_self, bind_modify.
  all: rewrite bind_path_exists.
  all: match goal with
       | |- context [when (negb ?b)] => destruct b eqn:E
       end.
  all: rewrite bind_when; cbv [negb].
  all: try (apply Hend; simpl; auto).
  all: match goal with
       | |- (bind (shutil_copy ?src ?dst) ?k ?w1).1 = _ =>
           destruct (bind_shutil_copy src dst k w1) as [b ->];
             [simpl; exact Hprofile|]
       end.
  all: apply Hend; simpl.
  all: try (rewrite lookup_insert_is_Some'; auto).
  all: intros Hx; apply orb_true_iff in Hx as [Hx|Hx];
         apply orb_true_iff; [by left|right].
  all: apply bool_decide_eq_true in Hx; apply bool_decide_eq_true.
  all: rewrite lookup_insert_is_Some'; auto.
Qed.
End EmptyColor.

Lemma update_metadata_empty_main_color_witness :
  main_channel_id (self Cases.blank) = Some "UC1"
  ∧ main_color (self Cases.blank) = Some ""
  ∧ secondary_color (self Cases.blank) = Some "#ffffff"
  ∧ (check_branding_values Cases.blank).1 = Ok tt
  ∧ (update_metadata Cases.blank).1
    = Raise (UnboundLocalError "profile_main").
Proof.
  split; [reflexivity|]. split; [reflexivity|]. split; [reflexivity|].
  split; [by vm_compute|].
  apply (update_metadata_empty_main_color Cases.blank "UC1" "#ffffff");
    [reflexivity | reflexivity | reflexivity |].
  left. by eexists.
Defined.

(** ** Page generation works from the cache *)

Section Offline.
Context `{Collaborators}.

#[global] Instance writes_only_preorder : PreOrder writes_only.
Proof.
  split.
  - intros w. unfold writes_only. auto.
  - intros w1 w2 w3 (Hs1 & Hc1 & Ht1 & Hd1 & Hf1)
      (Hs2 & Hc2 & Ht2 & Hd2 & Hf2).
    unfold writes_only. rewrite Hs2, Hc2, Ht2, Hd2.
    split; [done|]. split; [done|]. split; [done|]. split; [done|].
    intros p Hp. apply Hf2, Hf1, Hp.
Qed.

Ltac writes_leaf :=
  intros ?; repeat (simpl; case_match; simpl);
  first [ (unfold writes_only; simpl; split_and!; try done;
           intros ? ?; rewrite lookup_insert_is_Some'; auto) ].

Lemma steps_writes_get_subtitles v : steps writes_only (get_subtitles v).
Proof. unfold get_subtitles. steps_struct. all: writes_leaf. Qed.

Lemma steps_writes_write_articles : steps writes_only write_articles.
Proof.
  unfold write_articles, author_of, load_json, write_file. cbv zeta.
  steps_struct. all: try apply steps_writes_get_subtitles. all: writes_leaf.
Qed.

Lemma steps_writes_write_home : steps writes_only write_home.
Proof. unfold write_home, write_file. steps_struct. all: writes_leaf. Qed.

Lemma steps_writes_write_app_js : steps writes_only write_app_js.
Proof. unfold write_app_js, write_file. steps_struct. all: writes_leaf. Qed.

Lemma steps_writes_write_data_js : steps writes_only write_data_js.
Proof.
  unfold write_data_js, load_json, append_file, write_file. cbv zeta.
  steps_struct. all: writes_leaf.
Qed.

Lemma steps_writes_make_html_files : steps writes_only make_html_files.
Proof.
  unfold make_html_files.
  apply steps_bind; [apply _ | apply steps_writes_write_articles | intros _].
  apply steps_bind; [apply _ | apply steps_writes_write_home | intros _].
  apply steps_bind; [apply _ | apply steps_writes_write_app_js | intros _].
  apply steps_writes_write_data_js.
Qed.

(** X8. [make_html_files] only writes files: whether it returns or raises,
    it makes no request, leaves the object, the cached documents and the
    folders as they were, and every file that was there is still there
    (possibly rewritten). *)
Theorem make_html_files_writes_only w :
  self (make_html_files w).2 = self w
  ∧ cache (make_html_files w).2 = cache w
  ∧ trace (make_html_files w).2 = trace w
  ∧ dirs (make_html_files w).2 = dirs w
  ∧ forall p, is_Some (files w !! p) ->
              is_Some (files (make_html_files w).2 !! p).
Proof. apply steps_writes_make_html_files. Qed.

End Offline.

(** ** A playlist without its cached list *)

Section MissingList.
Context `{Collaborators}.

Lemma for_each_app {A} (l1 l2 : list A) body w :
  for_each (l1 ++ l2) body w
  = match for_each l1 body w with
    | (Ok _, w1) => for_each l2 body w1
    | (Raise e, w1) => (Raise e, w1)
    end.
Proof.
  revert w. induction l1 as [|x r IH]; intros w; simpl; [done|].
  unfold bind. destruct (body x w) as [[[]|e] w1]; [apply IH | done].
Qed.

(** X9. [data.js] is written playlist by playlist: when the pages of the
    videos are written but some playlist has no cached list of videos,
    [make_html_files] raises [AttributeError] at that playlist, and leaves
    a [data.js] that holds the lines of the playlists before it only. *)
Theorem make_html_files_missing_list w before p after :
  (write_articles w).1 = Ok tt ->
  playlists (self w) = (before ++ p :: after)%list ->
  (forall q, q ∈ before ->
     exists l, cache w !! playlist_key (playlist_id q) = Some (DocItems l)) ->
  (forall l, cache w !! playlist_key (playlist_id p) <> Some (DocItems l)) ->
  exists w',
    make_html_files w = (Raise (AttributeError "sort"), w')
    ∧ files w' !! joinpath (assets_dir (self w)) "data.js"
      = Some (fold_left
                (fun text q =>
                   text +:+ data_js_line q (cached_items w (playlist_id q)))
                before "").
Proof.
  intros Harticles Hpl Hbefore Hp.
  pose proof (preserves_write_articles w) as Hpres.
  destruct (write_articles w) as [r w1] eqn:E1. simpl in Harticles, Hpres.
  subst r. injection Hpres as Hs1 Hc1.
  set (w2 := with_files
               (fun fs => <[joinpath (build_dir (self w1)) "home.html" :=
                             render_home
                               {| h_playlists := playlists (self w1);
                                  h_video_format := video_format (self w1);
                                  h_title := title (self w1);
                                  h_description := description (self w1);
                                  h_color := main_color (self w1);
                                  h_background_color :=
                                    secondary_color (self w1) |}]> fs) w1).
  set (w3 := with_files
               (fun fs => <[joinpath (assets_dir (self w2)) "app.js" :=
                             render_app_js (video_format (self w2))]> fs)
               w2).
  set (w4 := with_files
               (fun fs => <[joinpath (assets_dir (self w3)) "data.js" := ""]>
                            fs) w3).
  destruct (write_data_js_loop before
              (joinpath (assets_dir (self w3)) "data.js") "" w4)
    as (w' & E & Hs' & Hc' & Hf).
  { subst w4. simpl. apply lookup_insert_eq. }
  { intros q Hq. subst w4 w3 w2. simpl. rewrite Hc1. by apply Hbefore. }
  exists w'. split.
  - unfold make_html_files. rewrite (bind_ok _ _ _ _ _ E1).
    unfold write_home, write_app_js, write_data_js.
    cbv beta. rewrite bind_bind, bind_get_self.
    unfold write_file at 1. rewrite bind_modify. fold w2.
    rewrite bind_bind, bind_get_self.
    unfold write_file at 1. rewrite bind_modify. fold w3.
    rewrite bind_get_self. cbv zeta.
    unfold write_file at 1. rewrite bind_modify. fold w4.
    replace (playlists (self w3)) with (before ++ p :: after)%list
      by (subst w3 w2; simpl; by rewrite Hs1).
    rewrite for_each_app, E. simpl. unfold bind, load_json.
    replace (cache w') with (cache w)
      by (rewrite Hc'; subst w4 w3 w2; simpl; done).
    destruct (cache w !! playlist_key (playlist_id p)) as [[d|l|d]|] eqn:Ec;
      try done.
    by destruct (Hp l).
  - replace (self w) with (self w3) by (subst w3 w2; simpl; done).
    rewrite Hf. f_equal.
    subst w4 w3 w2. unfold cached_items. simpl. by rewrite Hc1.
Qed.

End MissingList.

Lemma make_html_files_missing_list_witness :
  (write_articles Cases.half).1 = Ok tt
  ∧ playlists (self Cases.half)
    = [make_playlist "PL1" (api_playlist "PL1");
       make_playlist "PL2" (api_playlist "PL2")]
  ∧ cache Cases.half !! playlist_key "PL2" = None
  ∧ exists w',
      make_html_files Cases.half = (Raise (AttributeError "sort"), w')
      ∧ files w' !! "out/build/assets/data.js"
        = Some "var json_Playlist PL1 = v1,v2;
".
Proof.
  assert (H1 : (write_articles Cases.half).1 = Ok tt)
    by (vm_compute; reflexivity).
  assert (Hpl : playlists (self Cases.half)
                = ([make_playlist "PL1" (api_playlist "PL1")]
                   ++ make_playlist "PL2" (api_playlist "PL2") :: [])%list)
    by (vm_compute; reflexivity).
  assert (Hnone : cache Cases.half !! playlist_key "PL2" = None)
    by (vm_compute; reflexivity).
  destruct (make_html_files_missing_list Cases.half _ _ _ H1 Hpl)
    as (w' & E & Hf).
  { intros q ->%list_elem_of_singleton.
    exists (api_playlist_items "PL1"). vm_compute. reflexivity. }
  { intros l. change (playlist_id (make_playlist "PL2" (api_playlist "PL2")))
      with "PL2". by rewrite Hnone. }
  split; [exact H1|]. split; [exact Hpl|]. split; [exact Hnone|].
  exists w'. split; [exact E|].
  replace "out/build/assets/data.js"
    with (joinpath (assets_dir (self Cases.half)) "data.js")
    by (vm_compute; reflexivity).
  rewrite Hf. vm_compute. reflexivity.
Defined.

(** ** One page per title *)

Section ArticlePages.
Context `{Collaborators}.
Import PyStrFacts PyDictFacts.

Lemma page_path_inj o v x :
  page_path o v = page_path o x -> title_slug v = title_slug x.
Proof.
  unfold page_path, joinpath. intros E.
  apply String.app_inj in E. apply String.app_inj in E.
  by apply append_inj_r in E.
Qed.

Lemma get_subtitles_world video_id w : (get_subtitles video_id w).2 = w.
Proof.
  assert (Hs : steps eq (get_subtitles video_id)); [|by rewrite <- Hs].
  unfold get_subtitles. steps_struct.
  all: intros ?; repeat (simpl; case_match; simpl); reflexivity.
Qed.

Lemma author_of_world doc video_id w w0 :
  (author_of doc video_id w).2 = w
  ∧ (author_of doc video_id w).1 = (author_of doc video_id w0).1.
Proof.
  unfold author_of. destruct doc as [[d|l|d]|]; try done.
  by destruct (PyDict.get video_id d).
Qed.

(** One turn of the loop of [write_articles]. *)
Lemma write_article o doc video (k : unit -> M unit) w w0 w' :
  (author <- author_of doc (videoId (contentDetails video)) ;;
   subtitles <- get_subtitles (videoId (contentDetails video)) ;;
   write_file (page_path o video)
     (render_article (article o video author subtitles))) w = (Ok tt, w') ->
  exists author subtitles,
    (author_of doc (videoId (contentDetails video)) w0).1 = Ok author
    ∧ w' = with_files
             (fun fs => <[page_path o video :=
                           render_article
                             (article o video author subtitles)]> fs) w.
Proof.
  unfold bind at 1.
  destruct (author_of_world doc (videoId (contentDetails video)) w w0)
    as [Hw Ha].
  destruct (author_of doc (videoId (contentDetails video)) w)
    as [[a|e] w1]; simpl in Hw, Ha; [subst w1 | done].
  unfold bind.
  pose proof (get_subtitles_world (videoId (contentDetails video)) w) as Hs.
  destruct (get_subtitles (videoId (contentDetails video)) w)
    as [[subs|e] w1]; simpl in Hs; [subst w1 | done].
  intros [= <-]. by exists a, subs.
Qed.

Lemma write_articles_loop o doc (videos : list Video) w w0 w' :
  for_each videos (fun video =>
    author <- author_of doc (videoId (contentDetails video)) ;;
    subtitles <- get_subtitles (videoId (contentDetails video)) ;;
    write_file (page_path o video)
      (render_article (article o video author subtitles))) w = (Ok tt, w') ->
  (forall p, p ∉ map (page_path o) videos -> files w' !! p = files w !! p)
  ∧ forall v, v ∈ videos ->
      exists v' author subtitles,
        find_last title_slug (title_slug v) videos = Some v'
        ∧ (author_of doc (videoId (contentDetails v')) w0).1 = Ok author
        ∧ files w' !! page_path o v
          = Some (render_article (article o v' author subtitles)).
Proof.
  revert w. induction videos as [|x r IH]; intros w; simpl.
  - intros [= <-]. split; [done | by intros v ?%elem_of_nil].
  - unfold bind at 1.
    match goal with
    | |- context [match ?m w with _ => _ end] => destruct (m w) as [[[]|e] w1] eqn:E
    end; [|done].
    apply (write_article o doc x (fun _ => ret tt) w w0 w1) in E
      as (a & subs & Ha & ->).
    intros Hr. destruct (IH _ Hr) as [Hout Hin]. split.
    + intros p [Hx Hp]%not_elem_of_cons. rewrite Hout by done. simpl.
      by rewrite lookup_insert_ne.
    + intros v Hv.
      destruct (find_last title_slug (title_slug v) r) as [v'|] eqn:Ef.
      * destruct (find_last_Some _ _ _ _ Ef) as [Hk Hv'].
        destruct (Hin v' Hv') as (v'' & a' & subs' & Ef' & Ha' & Hf').
        rewrite Hk, Ef in Ef'. injection Ef' as <-.
        exists v', a', subs'. split; [done|]. split; [done|].
        rewrite <- Hf'. unfold page_path. by rewrite Hk.
      * apply elem_of_cons in Hv as [->|Hv].
        2:{ apply find_last_None in Ef. destruct Ef.
            apply list_elem_of_fmap. by exists v. }
        rewrite String.eqb_refl. exists x, a, subs.
        split; [done|]. split; [done|].
        rewrite Hout; [simpl; apply lookup_insert_eq|].
        intros (y & Hy & Hyr)%list_elem_of_fmap.
        apply page_path_inj in Hy.
        apply find_last_None in Ef. apply Ef.
        apply list_elem_of_fmap. by exists y.
Qed.

(** X10. When [write_articles] returns, every cached video has the page
    named after the slug of its title; the page is rendered from the last
    video, in the order of the cache, whose title has that slug, with its
    author from the cached authors.  So two videos whose titles share a
    slug share one page, which shows the later one. *)
Theorem write_articles_pages w d w' :
  cache w !! "videos" = Some (DocVideos d) ->
  write_articles w = (Ok tt, w') ->
  forall v, v ∈ PyDict.values d ->
    exists v' author subtitles,
      find_last title_slug (title_slug v) (PyDict.values d) = Some v'
      ∧ (author_of (cache w !! "videos_channels")
           (videoId (contentDetails v')) w).1 = Ok author
      ∧ files w' !! page_path (self w) v
        = Some (render_article (article (self w) v' author subtitles)).
Proof.
  intros Hd. unfold write_articles.
  rewrite bind_get_self. unfold bind at 1, load_json at 1. rewrite Hd.
  rewrite bind_ret. unfold bind at 1, load_json at 1.
  intros Hloop.
  by destruct (write_articles_loop _ _ _ _ w _ Hloop) as [_ Hin].
Qed.

End ArticlePages.

Lemma write_articles_pages_witness :
  cache Demo.ready !! "videos" = Some (DocVideos Demo.merged)
  ∧ exists w',
      @write_articles Cases.one_slug Demo.ready = (Ok tt, w')
      ∧ files w' !! "out/build/page.html" = Some "v3 in PL2".
Proof.
  assert (Hd : cache Demo.ready !! "videos" = Some (DocVideos Demo.merged))
    by (vm_compute; reflexivity).
  assert (E : @write_articles Cases.one_slug Demo.ready
              = (Ok tt, (@write_articles Cases.one_slug Demo.ready).2))
    by (vm_compute; reflexivity).
  split; [exact Hd|]. eexists. split; [exact E|].
  destruct (@write_articles_pages Cases.one_slug Demo.ready Demo.merged _
              Hd E (Demo.video "PL1" "v1" 0))
    as (v' & author & subtitles & Hlast & _ & Hf).
  { apply elem_of_cons. by left. }
  vm_compute in Hlast. injection Hlast as <-.
  exact Hf.
Defined.

(** ** The authors' pictures *)

Section AuthorsBranding.
Context `{Collaborators}.



End AuthorsBranding.


(** ** Branding images *)

Section RemoteImage.
Context `{Collaborators}.




End RemoteImage.


(** ** Supplied images are kept *)

Section KeptImages.
Context `{Collaborators}.
Import PathFacts.

#[global] Instance file_kept_preorder p b : PreOrder (file_kept p b).
Proof.
  split; [intros w Hw; exact Hw|].
  intros w1 w2 w3 H1 H2 Hp. apply H2, H1, Hp.
Qed.

(** Where the file is there, the copy that would replace it is skipped. *)
Lemma steps_unless_exists p b (k : bool -> M unit) :
  steps (file_kept p b) (k true) ->
  steps (file_kept p b) (bind (path_exists p) k).
Proof.
  intros Hk w Hf. rewrite bind_path_exists.
  replace (bool_decide (is_Some (files w !! p))) with true
    by (symmetry; apply bool_decide_eq_true; eauto).
  rewrite orb_true_r. by apply Hk.
Qed.

Ltac other_path :=
  unfold profile_path, banner_path, channels_dir, joinpath;
  rewrite ?append_assoc;
  let E := fresh "E" in
  intros E; repeat apply String.app_inj in E;
  cbv [String.append] in E; discriminate E.

Ltac kept_leaf :=
  let w0 := fresh "w" in
  let Hw := fresh "Hw" in
  intros w0 Hw; repeat (simpl; case_match; simpl); simpl;
  first [ exact Hw
        | congruence
        | (rewrite lookup_insert_ne; [first [exact Hw | congruence] | other_path]) ].

Lemma update_metadata_file_kept w p b :
  p = profile_path (self w) ∨ p = banner_path (self w) ->
  file_kept p b w (update_metadata w).2.
Proof.
  intros Hp. unfold update_metadata. rewrite bind_get_self.
  match goal with
  | |- file_kept p b w (?m w).2 =>
      assert (Hm : steps (file_kept p b) m); [|by apply Hm]
  end.
  unfold get_channel_json, save_channel_branding, set_attr, shutil_copy,
    resize_image, local_or, mkdir, write_file, emit.
  cbv zeta.
  destruct Hp as [-> | ->].
  all:
    repeat first
      [ match goal with
        | |- steps (file_kept ?q _) (bind (path_exists ?q) _) =>
            apply steps_unless_exists; cbv [negb]
        end
      | apply steps_bind; [apply _ | | intros ?]
      | apply steps_ret; apply _
      | apply steps_raise; apply _
      | apply steps_when; [apply _ |]
      | match goal with
        | |- steps _ (if ?c then _ else _) => destruct c
        | |- steps _ (match ?y with _ => _ end) => destruct y
        end ].
  all: kept_leaf.
Qed.

(** X13. [update_metadata] takes the channel's pictures only where none
    is there: a [profile.jpg] or [banner.jpg] already in the build folder,
    such as the one [check_branding_values] stored for the user, has the
    same content afterwards, whether the method returned or raised. *)
Theorem update_metadata_keeps_images w b :
  (files w !! profile_path (self w) = Some b ->
   files (update_metadata w).2 !! profile_path (self w) = Some b)
  ∧ (files w !! banner_path (self w) = Some b ->
     files (update_metadata w).2 !! banner_path (self w) = Some b).
Proof.
  split.
  - apply (update_metadata_file_kept w (profile_path (self w)) b). by left.
  - apply (update_metadata_file_kept w (banner_path (self w)) b). by right.
Qed.

End KeptImages.

Lemma update_metadata_keeps_images_witness :
  files Cases.pictured !! profile_path (self Cases.pictured)
  = Some "my picture"
  ∧ (update_metadata Cases.pictured).1 = Ok tt
  ∧ files (update_metadata Cases.pictured).2
      !! profile_path (self Cases.pictured)
    = Some "my picture".
Proof.
  assert (Hf : files Cases.pictured !! profile_path (self Cases.pictured)
               = Some "my picture") by (vm_compute; reflexivity).
  split; [exact Hf|]. split; [by vm_compute|].
  exact (proj1 (update_metadata_keeps_images Cases.pictured "my picture") Hf).
Defined.

(** ** Creator and publisher *)

Section Creator.
Context `{Collaborators}.

(** X14. After [update_metadata], a creator the user gave is kept as it
    is, the empty string included (the test is [is None]); with none, it
    is ["Youtube Channels"] for a playlist run and else names the main
    channel by its title as the platform gives it, not stripped.  The
    publisher is the user's when not empty and else ["Kiwix"].  Both are
    what the packager's metadata holds, and its language is untouched. *)
Theorem update_metadata_creator_publisher w c :
  main_channel_id (self w) = Some c ->
  let o := self w in
  let chan := api_channel (Some c) false in
  let o' := self (update_metadata w).2 in
  (forall x, creator o = Some x -> creator o' = Some x)
  ∧ (creator o = None -> is_playlist o = true ->
     creator o' = Some "Youtube Channels")
  ∧ (creator o = None -> is_playlist o = false ->
     creator o' = Some ("Youtube Channel “" +:+ ch_title chan +:+ "”"))
  ∧ (truthy (publisher o) = true -> publisher o' = publisher o)
  ∧ (truthy (publisher o) = false -> publisher o' = Some "Kiwix")
  ∧ zi_creator (zim_info o') = creator o'
  ∧ zi_publisher (zim_info o') = publisher o'
  ∧ zi_language (zim_info o') = zi_language (zim_info o).
Proof.
  intros Hc o chan o'.
  pose proof (update_metadata_metadata w c Hc) as Hm.
  cbv zeta in Hm. fold o chan o' in Hm. unfold metadata in Hm.
  injection Hm as _ _ Hcr Hp _ _ Hz.
  rewrite Hz, Hcr, Hp. simpl. unfold creator_after.
  split; [by intros x ->|]. split; [by intros -> ->|].
  split; [by intros -> ->|].
  split; [apply or_else_truthy|].
  split; [by intros Hf; rewrite or_else_falsy|]. done.
Qed.

End Creator.

Lemma update_metadata_creator_publisher_witness :
  main_channel_id (self Cases.anonymous) = Some "UC1"
  ∧ creator (self Cases.anonymous) = Some ""
  ∧ creator (self (update_metadata Cases.anonymous).2) = Some ""
  ∧ publisher (self (update_metadata Cases.anonymous).2) = Some "Kiwix"
  ∧ creator (self (update_metadata Demo.channel_resolved).2)
    = Some "Youtube Channel “  My Channel ”".
Proof.
  split; [reflexivity|]. split; [reflexivity|].
  destruct (update_metadata_creator_publisher Cases.anonymous "UC1" eq_refl)
    as (Hkept & _ & _ & _ & Hkiwix & _).
  destruct (update_metadata_creator_publisher Demo.channel_resolved "UC1"
              eq_refl) as (_ & _ & Hchannel & _).
  split; [by apply Hkept|]. split; [by apply Hkiwix|].
  by apply Hchannel.
Defined.

(** ** The clean-up comes before the probe *)

Section CleanUp.
Context `{Collaborators}.
Import PathFacts.

Lemma under_child (b x : string) : under b (joinpath b x) = true.
Proof.
  unfold under, joinpath. rewrite prefix_app.
  rewrite append_cons. simpl.
  destruct (ascii_dec "/" "/"); [|done].
  apply orb_true_iff. right. by destruct x.
Qed.

(** The clean-up at the start of [run], and what is left of the cache. *)
Lemma run_cleanup_cache w c :
  (c = true ->
   bool_decide (build_dir (self w) ∈ dirs w)
   || bool_decide (is_Some (files w !! build_dir (self w))) = true) ->
  exists w',
    when c (rmtree (cache_dir (self w)) true ;;
            rmtree (build_dir (self w)) false) w = (Ok tt, w')
    ∧ self w' = self w ∧ trace w' = trace w
    ∧ cache w' = if c then ∅ else cache w.
Proof.
  intros Hc. destruct c; [|by exists w].
  specialize (Hc eq_refl). simpl when.
  set (w1 := (rmtree (cache_dir (self w)) true w).2).
  assert (E1 : rmtree (cache_dir (self w)) true w = (Ok tt, w1)
               ∧ self w1 = self w ∧ trace w1 = trace w
               ∧ bool_decide (build_dir (self w) ∈ dirs w1)
                 || bool_decide (is_Some (files w1 !! build_dir (self w)))
                 = true).
  { subst w1. unfold rmtree, bind, path_exists.
    destruct (bool_decide (cache_dir (self w) ∈ dirs w)
              || bool_decide (is_Some (files w !! cache_dir (self w)))).
    - cbn [fst snd]. split; [done|]. split; [done|]. split; [done|].
      change (modify (remove_tree (cache_dir (self w))) w).2
        with (remove_tree (cache_dir (self w)) w).
      rewrite present_remove_tree; [done | apply build_not_under_cache].
    - by simpl. }
  destruct E1 as (E1 & Hs1 & Ht1 & Hp1).
  exists (remove_tree (build_dir (self w)) w1). split.
  - rewrite (bind_ok _ _ _ _ _ E1).
    unfold rmtree, bind, path_exists. by rewrite Hp1.
  - split; [done|]. split; [done|]. simpl. rewrite Hs1.
    unfold cache_dir. by rewrite under_child.
Qed.

(** X15. [run] cleans up before it probes the credentials: when the
    platform refuses them, a build folder that was there has already been
    removed, and the cached documents with it, unless [keep_build_dir] is
    set, in which case the cache is as it was. *)
Theorem run_bad_credentials_cache w :
  api_credentials_ok = false ->
  (keep_build_dir (self w) = false ->
   build_dir (self w) ∈ dirs w ->
   cache (run w).2 = ∅)
  ∧ (keep_build_dir (self w) = true -> cache (run w).2 = cache w).
Proof.
  intros Hbad.
  set (c := negb (keep_build_dir (self w))
            && (bool_decide (build_dir (self w) ∈ dirs w)
                || bool_decide (is_Some (files w !! build_dir (self w))))).
  destruct (run_cleanup_cache w c) as (w1 & E1 & Hs1 & Ht1 & Hc1).
  { subst c. by intros [_ ?]%andb_true_iff. }
  destruct (make_build_folder_run w1)
    as (w2 & E2 & Hs2 & Hc2 & Ht2 & _).
  assert (Hrun : cache (run w).2 = if c then ∅ else cache w).
  { unfold run. rewrite bind_get_self.
    unfold bind at 1, path_exists at 1. fold c.
    rewrite (bind_ok _ _ _ _ _ E1), (bind_ok _ _ _ _ _ E2).
    unfold credentials_ok, bind, emit, modify, ret. rewrite Hbad. simpl.
    by rewrite Hc2, Hc1. }
  rewrite Hrun. subst c. split.
  - intros -> Hd. by rewrite (bool_decide_eq_true_2 _ Hd).
  - by intros ->.
Qed.

End CleanUp.

Lemma run_bad_credentials_cache_witness :
  @api_credentials_ok Demo.offline = false
  ∧ keep_build_dir (self Cases.again) = false
  ∧ build_dir (self Cases.again) ∈ dirs Cases.again
  ∧ is_Some (cache Cases.again !! "videos")
  ∧ cache (@run Demo.offline Cases.again).2 = ∅.
Proof.
  assert (Hd : build_dir (self Cases.again) ∈ dirs Cases.again).
  { apply (bool_decide_unpack _). vm_compute. exact I. }
  split; [reflexivity|]. split; [reflexivity|]. split; [exact Hd|].
  split; [by vm_compute; eexists|].
  exact (proj1 (@run_bad_credentials_cache Demo.offline Cases.again eq_refl)
           eq_refl Hd).
Defined.

(** ** Pages need the video folders *)

Section VideoFolders.
Context `{Collaborators}.


End VideoFolders.


(** ** Nothing outside the build folder *)

Module UnderFacts.
Import PathFacts.

Lemma prefix_nil (s : string) : String.prefix "" s = true.
Proof. by destruct s. Qed.

Lemma prefix_app_r (a x s : string) :
  String.prefix a x = true -> String.prefix a (x +:+ s) = true.
Proof.
  revert x. induction a as [|c a IH]; intros x;
    [intros _; apply prefix_nil|].
  destruct x as [|c' x]; [done|]. rewrite append_cons. simpl.
  destruct (ascii_dec c c'); [apply IH | done].
Qed.

Lemma prefix_app_l (a s p : string) :
  String.prefix (a +:+ s) p = true -> String.prefix a p = true.
Proof.
  revert p. induction a as [|c a IH]; intros p;
    [intros _; apply prefix_nil|].
  rewrite append_cons. destruct p as [|c' p]; [done|]. simpl.
  destruct (ascii_dec c c'); [apply IH | done].
Qed.

Lemma prefix_refl_app (a s : string) : String.prefix a (a +:+ s) = true.
Proof.
  induction a as [|c a IH]; [apply prefix_nil|].
  rewrite append_cons. simpl. by destruct (ascii_dec c c).
Qed.

Lemma under_joinpath (b x : string) : under b (joinpath b x) = true.
Proof.
  unfold under, joinpath. rewrite <- append_assoc, prefix_refl_app.
  apply orb_true_r.
Qed.

Lemma under_join (b x y : string) :
  under b x = true -> under b (joinpath x y) = true.
Proof.
  unfold under at 1. intros [E|P]%orb_true_iff.
  - apply String.eqb_eq in E as <-. apply under_joinpath.
  - unfold under, joinpath. rewrite (prefix_app_r _ _ _ P).
    apply orb_true_r.
Qed.

Lemma under_join_false (b x p : string) :
  under b p = false -> under (joinpath b x) p = false.
Proof.
  intros Hp. destruct (under (joinpath b x) p) eqn:E; [|done].
  rewrite <- Hp. symmetry. unfold under in E.
  apply orb_true_iff in E as [E|E].
  - apply String.eqb_eq in E as <-. apply under_joinpath.
  - unfold under. unfold joinpath in E.
    rewrite !append_assoc, <- append_assoc in E.
    rewrite (prefix_app_l _ _ _ E). apply orb_true_r.
Qed.

End UnderFacts.

Section Outside.
Context `{Collaborators}.
Import PathFacts UnderFacts.
Variable b : string.

#[global] Instance outside_preorder : PreOrder (outside b).
Proof.
  split.
  - by intros w Hb.
  - intros w1 w2 w3 H1 H2 Hb.
    destruct (H1 Hb) as [Hb2 Hf1]. destruct (H2 Hb2) as [Hb3 Hf2].
    split; [done|]. intros p Hp.
    destruct (Hf1 p Hp) as [E1 D1]. destruct (Hf2 p Hp) as [E2 D2].
    split; [by rewrite E2 | by rewrite D2].
Qed.

(** The build folder of the object is [b] wherever the object is read. *)
Lemma outside_get_self {B} (k : Youtube2Zim -> M B) :
  (forall o, build_dir o = b -> steps (outside b) (k o)) ->
  steps (outside b) (bind get_self k).
Proof. intros Hk w Hb. rewrite bind_get_self. by apply Hk. Qed.

Lemma outside_bind_raise {A B} e (k : A -> M B) :
  steps (outside b) (bind (raise e) k).
Proof. by intros w Hb. Qed.

(** A step that keeps the build folder, the files and the folders. *)
Lemma outside_frame {A} (m : M A) :
  (forall w, build_dir (self (m w).2) = build_dir (self w)
             ∧ files (m w).2 = files w ∧ dirs (m w).2 = dirs w) ->
  steps (outside b) m.
Proof.
  intros Hm w Hb. destruct (Hm w) as (Hs & Hf & Hd).
  rewrite Hs, Hf, Hd. by split.
Qed.

Lemma outside_write_file k v :
  under b k = true -> steps (outside b) (write_file k v).
Proof.
  intros Hk w Hb. split; [done|]. intros p Hp. split; [|done].
  simpl. apply lookup_insert_ne. congruence.
Qed.

Lemma outside_append_file k v :
  under b k = true -> steps (outside b) (append_file k v).
Proof.
  intros Hk w Hb. split; [done|]. intros p Hp. split; [|done].
  simpl. apply lookup_insert_ne. congruence.
Qed.

Lemma outside_mkdir k : under b k = true -> steps (outside b) (mkdir k).
Proof.
  intros Hk w Hb. split; [done|]. intros p Hp. split; [done|].
  simpl. rewrite elem_of_union, elem_of_singleton.
  split; [intros [->|?]; [congruence | done] | by right].
Qed.

Lemma outside_remove_tree d w :
  (forall p, under b p = false -> under d p = false) ->
  outside b w (remove_tree d w).
Proof.
  intros Hd Hb. split; [done|]. intros p Hp. specialize (Hd p Hp).
  simpl. split.
  - destruct (files w !! p) as [x|] eqn:E.
    + by apply map_lookup_filter_Some.
    + apply map_lookup_filter_None. left. done.
  - rewrite elem_of_filter. tauto.
Qed.

Lemma outside_rmtree d i :
  (forall p, under b p = false -> under d p = false) ->
  steps (outside b) (rmtree d i).
Proof.
  intros Hd w. unfold rmtree, bind, path_exists.
  destruct (_ || _); [by apply outside_remove_tree|].
  destruct i; reflexivity.
Qed.

Lemma outside_shutil_copy src dst :
  under b dst = true -> steps (outside b) (shutil_copy src dst).
Proof.
  intros Hk w. unfold shutil_copy.
  destruct (files w !! src); [by apply outside_write_file | reflexivity].
Qed.

Lemma outside_resize_image path width height method to :
  under b (default path to) = true ->
  steps (outside b) (resize_image path width height method to).
Proof.
  intros Hk w. unfold resize_image.
  destruct (files w !! path); [by apply outside_write_file | reflexivity].
Qed.

Lemma outside_save_channel_branding o c save_banner :
  build_dir o = b ->
  steps (outside b) (save_channel_branding (channels_dir o) c save_banner).
Proof.
  intros Ho. unfold save_channel_branding, channels_dir. rewrite Ho.
  destruct c as [c|]; [|apply steps_raise; apply _].
  apply steps_bind; [apply _ | by apply outside_frame | intros _].
  apply steps_bind; [apply _ | | intros _].
  { apply outside_mkdir. apply under_join, under_joinpath. }
  apply steps_bind; [apply _ | | intros _].
  { apply outside_write_file. apply under_join, under_join, under_joinpath. }
  destruct save_banner, ((api_channel_images c).2);
    try (apply steps_ret; apply _).
  apply outside_write_file. apply under_join, under_join, under_joinpath.
Qed.

Lemma outside_check_image flag image dest width height :
  under b dest = true ->
  steps (outside b) (check_image flag image dest width height).
Proof.
  intros Hk. unfold check_image.
  destruct image as [[s|p]|]; [| |apply steps_ret; apply _].
  - apply steps_when; [apply _|]. simpl attr_startswith.
    apply steps_bind; [apply _ | apply steps_ret; apply _ | intros http].
    apply steps_bind; [apply _ | | intros _].
    + destruct http.
      * unfold save_file.
        apply steps_bind; [apply _ | by apply outside_frame | intros _].
        by apply outside_write_file.
      * apply outside_bind_raise.
    + by apply outside_resize_image.
  - apply steps_when; [apply _|]. apply outside_bind_raise.
Qed.

Ltac build_folder :=
  unfold profile_path, banner_path, assets_dir, cache_dir, videos_dir,
    channels_dir;
  repeat match goal with
         | Ho : build_dir ?o = _ |- context [build_dir ?o] => rewrite Ho
         end;
  simpl default.

Ltac below :=
  build_folder;
  repeat first [ apply under_refl | apply under_joinpath | apply under_join ].

Ltac outside_leaf :=
  first
    [ apply outside_write_file; below
    | apply outside_append_file; below
    | apply outside_mkdir; below
    | apply outside_shutil_copy; below
    | apply outside_resize_image; below
    | (apply outside_save_channel_branding; assumption)
    | (apply outside_check_image; below)
    | (apply outside_rmtree; build_folder; intros ? ?;
         first [assumption | by apply under_join_false])
    | (apply outside_frame; intros ?;
         repeat (simpl; case_match; simpl); simpl; done) ].

Ltac outside_walk :=
  repeat first
    [ apply outside_get_self; intros ? ?
    | outside_leaf
    | apply steps_bind; [apply _ | | intros ?]
    | apply steps_ret; apply _
    | apply steps_raise; apply _
    | apply steps_when; [apply _ |]
    | apply steps_for_each; [apply _ | intros ?]
    | apply steps_for_list; [apply _ | intros ?]
    | match goal with
      | |- steps _ (if ?c then _ else _) => destruct c
      | |- steps _ (match ?x with _ => _ end) => destruct x
      end ].









Lemma outside_update_metadata : steps (outside b) update_metadata.
Proof.
  unfold update_metadata, get_channel_json, set_attr, local_or, emit.
  cbv zeta. outside_walk.
Qed.



End Outside.

Section BuildFolderOnly.
Context `{Collaborators}.


End BuildFolderOnly.


(** ** What a run that returns has built *)

Section Returns.
Context `{Collaborators}.

Lemma bind_Ok_inv {A B} (m : M A) (k : A -> M B) w b w' :
  bind m k w = (Ok b, w') ->
  exists a w1, m w = (Ok a, w1) ∧ k a w1 = (Ok b, w').
Proof.
  unfold bind. destruct (m w) as [[a|e] w1]; [|done]. by exists a, w1.
Qed.

Lemma returns_in_last {A B} (m : M A) (k : A -> M B) Q :
  (forall a, returns_in (k a) Q) -> returns_in (bind m k) Q.
Proof.
  intros Hk w b w' (a & w1 & _ & E)%bind_Ok_inv. by eapply Hk.
Qed.

(** Without a main channel [update_metadata] raises. *)
Lemma update_metadata_needs_channel w :
  main_channel_id (self w) = None ->
  (update_metadata w).1 = Raise (TypeError "channel_id").
Proof.
  intros Hc. unfold update_metadata. rewrite bind_get_self, Hc.
  reflexivity.
Qed.

(** The colors and the pictures that [update_metadata] leaves when it
    returns. *)
Lemma update_metadata_returns_branded w a w' :
  update_metadata w = (Ok a, w') ->
  is_Some (main_color (self w')) ∧ is_Some (secondary_color (self w'))
  ∧ is_Some (files w' !! profile_path (self w))
  ∧ is_Some (files w' !! joinpath (build_dir (self w)) "favicon.jpg").
Proof.
  unfold update_metadata. rewrite bind_get_self. cbv zeta.
  match goal with
  | |- ?m w = _ -> ?Q =>
      assert (Hm : returns_in m
                (fun w' =>
                   is_Some (main_color (self w'))
                   ∧ is_Some (secondary_color (self w'))
                   ∧ is_Some (files w' !! profile_path (self w))
                   ∧ is_Some (files w' !! joinpath (build_dir (self w))
                                            "favicon.jpg")));
        [|by apply Hm]
  end.
  repeat match goal with
         | |- returns_in (bind ?m _) _ =>
             lazymatch m with
             | set_attr (set_main_color _) => fail
             | _ => apply returns_in_last; intros ?
             end
         end.
  intros w1 r w1' E.
  unfold bind, set_attr, modify, local_or, resize_image, write_file, modify,
    ret, raise in E.
  simpl in E. repeat case_match; simplify_eq; simpl.
  all: split; [by eexists|]; split; [by eexists|].
  all: rewrite !lookup_insert_is_Some'; eauto.
Qed.


Lemma final_tags_videos t : "_videos:yes" ∈ final_tags t.
Proof.
  unfold final_tags. cbv zeta. case_bool_decide; [done|].
  apply elem_of_app. right. by apply list_elem_of_singleton.
Qed.

Lemma update_metadata_returns_described w a w' :
  update_metadata w = (Ok a, w') -> described (self w').
Proof.
  intros E. destruct (main_channel_id (self w)) as [c|] eqn:Hc.
  2:{ apply update_metadata_needs_channel in Hc. by rewrite E in Hc. }
  pose proof (update_metadata_metadata w c Hc) as Hm.
  cbv zeta in Hm. rewrite E in Hm. unfold metadata in Hm. simpl in Hm.
  injection Hm as Ht Hd Hcr Hp Hn Htg Hz.
  unfold described. rewrite Hz, Ht, Hd, Hcr, Hp, Hn, Htg. simpl.
  split; [by eexists|]. split; [by eexists|].
  split; [unfold creator_after; destruct (creator (self w)); by eexists|].
  split; [by eexists|]. split; [by eexists|].
  split; [|done]. eexists. split; [done | apply final_tags_videos].
Qed.

(** The three files that [make_html_files] writes besides the pages of
    the videos. *)
Lemma make_html_files_returns_pages w w' :
  make_html_files w = (Ok tt, w') ->
  self w' = self w
  ∧ (forall p, is_Some (files w !! p) -> is_Some (files w' !! p))
  ∧ is_Some (files w' !! joinpath (build_dir (self w)) "home.html")
  ∧ is_Some (files w' !! joinpath (assets_dir (self w)) "app.js")
  ∧ is_Some (files w' !! joinpath (assets_dir (self w)) "data.js").
Proof.
  intros E.
  destruct (steps_writes_make_html_files w) as (Hs & _ & _ & _ & Hf).
  rewrite E in Hs, Hf. simpl in Hs, Hf.
  split; [done|]. split; [done|].
  unfold make_html_files in E.
  apply bind_Ok_inv in E as ([] & w1 & E1 & E).
  apply bind_Ok_inv in E as ([] & w2 & E2 & E).
  apply bind_Ok_inv in E as ([] & w3 & E3 & E).
  destruct (steps_writes_write_articles w) as (Hs1 & _).
  rewrite E1 in Hs1. simpl in Hs1.
  destruct (steps_writes_write_app_js w2) as (Hs3 & _ & _ & _ & Hf3).
  rewrite E3 in Hs3, Hf3. simpl in Hs3, Hf3.
  destruct (steps_writes_write_data_js w3) as (_ & _ & _ & _ & Hf4).
  rewrite E in Hf4. simpl in Hf4.
  unfold write_home, write_file in E2. rewrite bind_get_self in E2.
  injection E2 as <-.
  unfold write_app_js, write_file in E3. rewrite bind_get_self in E3.
  injection E3 as <-.
  unfold write_data_js in E. rewrite bind_get_self in E. cbv zeta in E.
  unfold write_file at 1 in E. rewrite bind_modify in E.
  match type of E with
  | for_each ?l ?body ?w4 = _ =>
      assert (Hloop : steps writes_only (for_each l body))
  end.
  { unfold load_json, append_file. steps_struct.
    all: intros ?; repeat (simpl; case_match; simpl);
      unfold writes_only; simpl; split_and!; try done;
      intros ? ?; rewrite lookup_insert_is_Some'; auto. }
  match type of E with
  | _ ?w4 = _ => destruct (Hloop w4) as (_ & _ & _ & _ & Hf5)
  end.
  rewrite E in Hf5. simpl in Hf5. rewrite <- Hs1.
  split; [|split].
  - apply Hf4. simpl. rewrite lookup_insert_is_Some'.
    right. rewrite lookup_insert_is_Some'. by left.
  - apply Hf4. simpl. rewrite lookup_insert_is_Some'. by left.
  - apply Hf5. rewrite lookup_insert_is_Some'. by left.
Qed.

(** X18. A run that returns has built everything: title, description,
    creator, publisher, name and tags are set, with the [_videos:yes]
    tag, and the metadata for the packager holds the same values; both
    colors are set; and the build folder has [profile.jpg], [favicon.jpg],
    [home.html], [assets/app.js] and [assets/data.js]. *)
Theorem run_returns_built w w' :
  run w = (Ok tt, w') ->
  described (self w')
  ∧ is_Some (main_color (self w')) ∧ is_Some (secondary_color (self w'))
  ∧ is_Some (files w' !! profile_path (self w'))
  ∧ is_Some (files w' !! joinpath (build_dir (self w')) "favicon.jpg")
  ∧ is_Some (files w' !! joinpath (build_dir (self w')) "home.html")
  ∧ is_Some (files w' !! joinpath (assets_dir (self w')) "app.js")
  ∧ is_Some (files w' !! joinpath (assets_dir (self w')) "data.js").
Proof.
  revert w'.
  assert (Hrun : returns_in run (fun w' =>
    described (self w')
    ∧ is_Some (main_color (self w')) ∧ is_Some (secondary_color (self w'))
    ∧ is_Some (files w' !! profile_path (self w'))
    ∧ is_Some (files w' !! joinpath (build_dir (self w')) "favicon.jpg")
    ∧ is_Some (files w' !! joinpath (build_dir (self w')) "home.html")
    ∧ is_Some (files w' !! joinpath (assets_dir (self w')) "app.js")
    ∧ is_Some (files w' !! joinpath (assets_dir (self w')) "data.js")));
    [|intros w'; apply Hrun].
  unfold run.
  repeat match goal with
         | |- returns_in (bind ?m _) _ =>
             lazymatch m with
             | update_metadata => fail
             | _ => apply returns_in_last; intros ?
             end
         end.
  intros w5 r w7 E.
  apply bind_Ok_inv in E as (r6 & w6 & E6 & E).
  apply bind_Ok_inv in E as ([] & w8 & E8 & E).
  assert (Hend : self w7 = self w8 ∧ files w7 = files w8).
  { rewrite bind_get_self in E. unfold when, make_zim_file, emit, modify,
      ret in E.
    destruct (negb (no_zim (self w8))); by simplify_eq. }
  destruct Hend as [-> ->].
  pose proof (update_metadata_returns_described _ _ _ E6) as Hd.
  destruct (update_metadata_returns_branded _ _ _ E6)
    as (Hm & Hs & Hp & Hfav).
  destruct (outside_update_metadata (build_dir (self w5)) w5 eq_refl)
    as [Hb _].
  rewrite E6 in Hb. simpl in Hb.
  destruct (make_html_files_returns_pages _ _ E8)
    as (Hs8 & Hkept & Hhome & Happ & Hdata).
  rewrite Hs8. unfold profile_path, assets_dir in *. rewrite Hb.
  split; [done|]. split; [done|]. split; [done|].
  split; [by apply Hkept|]. split; [by apply Hkept|].
  rewrite Hb in Hhome, Happ, Hdata. done.
Qed.

End Returns.

Lemma run_returns_built_witness :
  exists w',
    run Demo.list_world = (Ok tt, w')
    ∧ title (self w') = Some "My Channel"
    ∧ zi_title (zim_info (self w')) = Some "My Channel"
    ∧ is_Some (files w' !! "out/build/home.html").
Proof.
  assert (E : run Demo.list_world = (Ok tt, (run Demo.list_world).2))
    by (vm_compute; reflexivity).
  destruct (run_returns_built _ _ E)
    as ((_ & _ & _ & _ & _ & _ & Hz & _) & _ & _ & _ & _ & Hhome & _).
  eexists. split; [exact E|].
  assert (Ht : title (self (run Demo.list_world).2) = Some "My Channel")
    by (vm_compute; reflexivity).
  split; [exact Ht|]. split; [by rewrite Hz|]. exact Hhome.
Defined.

(** ** Subtitles *)

Section Subtitles.
Context `{Collaborators}.

Lemma non_iso_langs_code language info :
  PyDict.get language non_iso_langs = Some info -> sub_code info = language.
Proof.
  unfold non_iso_langs. simpl.
  repeat (destruct (String.eqb language _) eqn:E;
          [apply String.eqb_eq in E; by intros [= <-] | clear E]).
  done.
Qed.

Lemma for_list_languages (names : list string) w :
  (forall n, n ∈ names -> is_Some (language_of n)) ->
  exists languages,
    for_list names
      (fun n =>
         match PyStr.split_on "."%char (stem_vtt n) with
         | _ :: language :: _ => ret language
         | _ => raise (IndexError "list index out of range")
         end) w = (Ok languages, w)
    ∧ Forall2 (fun n language => language_of n = Some language)
        names languages.
Proof.
  induction names as [|n r IH]; intros Hn; simpl.
  - exists []. split; [done | constructor].
  - destruct IH as (ls & E & Hf); [intros x Hx; apply Hn; by right|].
    destruct (Hn n) as [l Hl]; [by left|].
    exists (l :: ls). unfold language_of in Hl. split.
    + destruct (PyStr.split_on "." (stem_vtt n)) as [|a [|l' t]];
        simplify_eq/=.
      unfold bind at 1. simpl. unfold bind. by rewrite E.
    + by constructor.
Qed.

(** X19. With the folder of the video there and a language in the name of
    each of its [.vtt] files, [get_subtitles] returns, without changing
    anything, one entry per [.vtt] file directly in the folder, in their
    order; the code of the entry is the language in the file name, and
    its names are those of the ISO 639 table, except for [zh-Hans],
    [zh-Hant] and [iw], which have names of their own. *)
Theorem get_subtitles_entries w video_id :
  joinpath (videos_dir (self w)) video_id ∈ dirs w ->
  (forall n, n ∈ subtitle_files (self w) w video_id ->
             is_Some (language_of n)) ->
  exists subtitles,
    get_subtitles video_id w = (Ok subtitles, w)
    ∧ Forall2
        (fun n s =>
           language_of n = Some (sub_code s)
           ∧ (PyDict.get (sub_code s) non_iso_langs = Some s
              ∨ (PyDict.get (sub_code s) non_iso_langs = None
                 ∧ sub_english s = iso_to_name (sub_code s)
                 ∧ sub_native s = iso_to_native (sub_code s))))
        (subtitle_files (self w) w video_id) subtitles.
Proof.
  intros Hdir Hlang.
  destruct (for_list_languages _ w Hlang) as (languages & E & Hf).
  eexists. split.
  - unfold get_subtitles. rewrite bind_get_self. cbv zeta.
    unfold bind at 1. rewrite bool_decide_true by done.
    unfold subtitle_files in E. unfold bind at 1. by rewrite E.
  - apply Forall2_fmap_r.
    eapply Forall2_impl; [exact Hf|]. intros n language Hn.
    unfold compose. cbv beta.
    destruct (PyDict.get language non_iso_langs) as [info|] eqn:Eg.
    + cbv beta iota. rewrite (non_iso_langs_code _ _ Eg).
      split; [done | by left].
    + cbv beta iota. cbn [sub_code sub_english sub_native].
      split; [done | by right].
Qed.

End Subtitles.

Lemma get_subtitles_entries_witness :
  exists subtitles,
    get_subtitles "v1" Cases.subtitled = (Ok subtitles, Cases.subtitled)
    ∧ map sub_code subtitles = ["en"; "iw"]
    ∧ map sub_english subtitles = ["en"; "Hebrew"].
Proof.
  destruct (get_subtitles_entries Cases.subtitled "v1")
    as (subtitles & E & _).
  - apply (bool_decide_unpack _). vm_compute. exact I.
  - intros n Hn.
    assert (Hfiles : subtitle_files (self Cases.subtitled) Cases.subtitled
                       "v1" = ["video.en.vtt"; "video.iw.vtt"])
      by (vm_compute; reflexivity).
    rewrite Hfiles in Hn.
    apply elem_of_cons in Hn as [->|Hn]; [by eexists|].
    apply list_elem_of_singleton in Hn as ->. by eexists.
  - exists subtitles. split; [exact E|].
    assert (E' : (get_subtitles "v1" Cases.subtitled).1 = Ok subtitles)
      by (by rewrite E).
    vm_compute in E'. injection E' as <-. split; reflexivity.
Defined.
